(** * Chart generation core of the marketing agent: validator, engine,
      repository and presenter, embedded from
      [src/neo/visualization/{utils,core,display}.py]. *)

From Stdlib Require Import List Bool Arith ZArith NArith QArith Lia Lqa.
From Stdlib Require Import Strings.String Strings.Ascii Numbers.DecimalString.
From Stdlib Require Import Sorting.Sorted Sorting.Permutation.
From Stdlib Require Import Floats.SpecFloat.
Import ListNotations.

Set Implicit Arguments.
Local Close Scope Q_scope.
Local Open Scope list_scope.

(** ** Python values the code manipulates *)

Module Py.

(** A Python [str] is a sequence of Unicode code points. *)
Definition char := N.
Definition pystr := list char.

(** Literals of the source that are pure ASCII are written through [py]. *)
Definition py (s : string) : pystr :=
  map N_of_ascii (list_ascii_of_string s).

Definition char_eqb (a b : char) : bool := N.eqb a b.

Fixpoint str_eqb (a b : pystr) : bool :=
  match a, b with
  | [], [] => true
  | x :: a', y :: b' => char_eqb x y && str_eqb a' b'
  | _, _ => false
  end.

(** [str.lower()], code point by code point. The ASCII and Latin-1 capitals
    are folded here; above U+00FF Python consults the Unicode tables, which
    this table leaves unchanged. No statement below depends on the table. *)
Definition lower_char (c : char) : char :=
  if ((65 <=? c) && (c <=? 90))%N then (c + 32)%N
  else if ((192 <=? c) && (c <=? 222) && negb (c =? 215))%N then (c + 32)%N
  else c.

Definition lower (s : pystr) : pystr := map lower_char s.

(** [str.isspace()] on one code point: the interpreter's whitespace table. *)
Definition isspace (c : char) : bool :=
  (((9 <=? c) && (c <=? 13)) || ((28 <=? c) && (c <=? 32))
   || (c =? 133) || (c =? 160) || (c =? 5760)
   || ((8192 <=? c) && (c <=? 8202))
   || (c =? 8232) || (c =? 8233) || (c =? 8239) || (c =? 8287)
   || (c =? 12288))%N.

Fixpoint lstrip (s : pystr) : pystr :=
  match s with
  | c :: s' => if isspace c then lstrip s' else s
  | [] => []
  end.

Definition rstrip (s : pystr) : pystr := rev (lstrip (rev s)).

(** [s.strip()] *)
Definition strip (s : pystr) : pystr := rstrip (lstrip s).

(** [s.startswith(p)] *)
Fixpoint startswith (s p : pystr) {struct p} : bool :=
  match p, s with
  | [], _ => true
  | x :: p', y :: s' => char_eqb x y && startswith s' p'
  | _ :: _, [] => false
  end.

(** [s.endswith(p)] *)
Definition endswith (s p : pystr) : bool := startswith (rev s) (rev p).

(** [p in s] for two strings: [p] occurs in [s] as a contiguous run. *)
Fixpoint str_in (p s : pystr) : bool :=
  startswith s p ||
  match s with
  | [] => false
  | _ :: s' => str_in p s'
  end.

(** [s.count(c)] for a one-character pattern. *)
Definition count (s : pystr) (c : char) : nat :=
  List.length (filter (char_eqb c) s).

(** [sep.join(parts)] *)
Fixpoint join (sep : pystr) (parts : list pystr) : pystr :=
  match parts with
  | [] => []
  | [p] => p
  | p :: rest => p ++ sep ++ join sep rest
  end.

(** [c * n] for a one-character string and an [int]: empty when [n <= 0]. *)
Definition repeat_char (c : char) (n : Z) : pystr := repeat c (Z.to_nat n).

(** [str(n)] for an [int]. *)
Definition str_of_Z (n : Z) : pystr :=
  py (NilEmpty.string_of_int (Z.to_int n)).

(** [s[:n]] for [n >= 0] *)
Definition prefix_slice (n : nat) (s : pystr) : pystr := firstn n s.

(** [f"{s:<w}"] (and [f"{s:w}"] for a string): pad on the right with spaces
    up to width [w]; longer strings are left alone. *)
Definition ljust (w : nat) (s : pystr) : pystr :=
  s ++ repeat 32%N (w - List.length s).

(** [l[:limit]] with Python's treatment of a negative bound, which counts
    from the end of the list. *)
Definition slice_to {A : Type} (limit : Z) (l : list A) : list A :=
  if (limit <? 0)%Z
  then firstn (Z.to_nat (Z.of_nat (List.length l) + limit)) l
  else firstn (Z.to_nat limit) l.

(** Exceptions. [except Exception] catches every class but those that derive
    from [BaseException] only ([SystemExit], [KeyboardInterrupt],
    [GeneratorExit]). [ImportError] is kept apart for the handlers that name
    it. *)
Inductive exn_class := ImportError | OtherException | BaseExceptionOnly.

Record exn := Exn { exn_cls : exn_class; exn_msg : pystr }.

Definition is_Exception (e : exn) : bool :=
  match exn_cls e with
  | BaseExceptionOnly => false
  | _ => true
  end.

Definition is_ImportError (e : exn) : bool :=
  match exn_cls e with
  | ImportError => true
  | _ => false
  end.

(** Outcome of a call: a value, or an exception on its way up. *)
Inductive outcome (A : Type) : Type :=
| Returns (a : A)
| Raises (e : exn).
Arguments Returns {A} a.
Arguments Raises {A} e.

Definition bind {A B} (m : outcome A) (k : A -> outcome B) : outcome B :=
  match m with
  | Returns a => k a
  | Raises e => Raises e
  end.

(** [try: body  except Exception as e: handler(e)] *)
Definition try_except_Exception {A} (body : outcome A) (handler : exn -> outcome A)
  : outcome A :=
  match body with
  | Returns a => Returns a
  | Raises e => if is_Exception e then handler e else Raises e
  end.

End Py.

Import Py.

Arguments py : simpl never.

Declare Scope py_scope.
Delimit Scope py_scope with py.
Notation "x <- m ;; k" := (bind m (fun x => k))
  (at level 61, m at next level, right associativity) : py_scope.
Notation "m ;;; k" := (bind m (fun _ => k))
  (at level 61, right associativity) : py_scope.

(** ** Validator ([utils.py], class [ChartUtils]) *)

Module ChartUtils.

Definition dangerous_keywords : list pystr :=
  map py ["drop"; "delete"; "truncate"; "alter"; "create"; "insert";
          "update"; "grant"; "revoke"; "exec"; "execute"]%string.

(** The test [f' {keyword} ' in f' {query_lower} '] *)
Definition keyword_hit (query_lower keyword : pystr) : bool :=
  str_in (py " " ++ keyword ++ py " ") (py " " ++ query_lower ++ py " ").

Definition validate_sql_query (query : pystr) : bool * pystr :=
  let query_lower := strip (lower query) in
  match find (keyword_hit query_lower) dangerous_keywords with
  | Some keyword =>
      (false, py "Query contains potentially dangerous keyword: " ++ keyword)
  | None =>
      if negb (startswith query_lower (py "select"))
      then (false, py "Query must start with SELECT")
      else if negb (count query 40%N =? count query 41%N)%nat
      then (false, py "Mismatched parentheses in query")
      else (true, [])
  end.

Definition dangerous_patterns : list pystr :=
  map py ["import os"; "import sys"; "import subprocess"; "exec("; "eval(";
          "open("; "__import__"; "globals()"; "locals()"; "file("; "input(";
          "raw_input("]%string.

Definition plotly_markers : list pystr := map py ["px."; "go."; "plotly"]%string.

Definition validate_plotly_code (plotly_code : pystr) : bool * pystr :=
  let code_lower := lower plotly_code in
  match find (fun pattern => str_in pattern code_lower) dangerous_patterns with
  | Some pattern =>
      (false, py "Code contains potentially dangerous pattern: " ++ pattern)
  | None =>
      if negb (str_in (py "fig") plotly_code)
      then (false, py "Code must create a variable named 'fig'")
      else if negb (existsb (fun lib => str_in lib plotly_code) plotly_markers)
      then (false, py "Code should use plotly (px. or go.)")
      else (true, [])
  end.

End ChartUtils.

(** ** Decoded JSON documents and the operations Python offers on them *)

Module Json.

(** What [json.load] returns. A [dict] is kept as its items in order; the
    first binding of a key is the one a lookup sees. *)
#[local] Unset Elimination Schemes.
Inductive json :=
| JNull
| JBool (b : bool)
| JInt (z : Z)
| JFloat (q : Q)
| JStr (s : pystr)
| JList (l : list json)
| JDict (kv : list (pystr * json)).
#[local] Set Elimination Schemes.

Definition type_name (v : json) : pystr :=
  match v with
  | JNull => py "NoneType"
  | JBool _ => py "bool"
  | JInt _ => py "int"
  | JFloat _ => py "float"
  | JStr _ => py "str"
  | JList _ => py "list"
  | JDict _ => py "dict"
  end.

(** Truth value of an object in an [if]. *)
Definition truthy (v : json) : bool :=
  match v with
  | JNull => false
  | JBool b => b
  | JInt z => negb (z =? 0)%Z
  | JFloat q => negb (Qeq_bool q 0)
  | JStr s => negb (str_eqb s [])
  | JList l => match l with [] => false | _ => true end
  | JDict kv => match kv with [] => false | _ => true end
  end.

Definition is_dict (v : json) : bool :=
  match v with JDict _ => true | _ => false end.

Definition is_list (v : json) : bool :=
  match v with JList _ => true | _ => false end.

Fixpoint lookup (key : pystr) (kv : list (pystr * json)) : option json :=
  match kv with
  | [] => None
  | (k, v) :: rest => if str_eqb k key then Some v else lookup key rest
  end.

Definition AttributeError (v : json) (attr : pystr) : exn :=
  Exn OtherException
    (py "'" ++ type_name v ++ py "' object has no attribute '" ++ attr ++ py "'").

Definition TypeError (msg : pystr) : exn := Exn OtherException msg.

(** [v.get(key, default)] *)
Definition get (v : json) (key : pystr) (default : json) : outcome json :=
  match v with
  | JDict kv =>
      match lookup key kv with
      | Some x => Returns x
      | None => Returns default
      end
  | _ => Raises (AttributeError v (py "get"))
  end.

(** [len(v)] *)
Definition len (v : json) : outcome Z :=
  match v with
  | JStr s => Returns (Z.of_nat (List.length s))
  | JList l => Returns (Z.of_nat (List.length l))
  | JDict kv => Returns (Z.of_nat (List.length kv))
  | _ => Raises (TypeError (py "object of type '" ++ type_name v ++ py "' has no len()"))
  end.

(** The elements a [for] or [map] visits. *)
Definition iter (v : json) : outcome (list json) :=
  match v with
  | JStr s => Returns (map (fun c => JStr [c]) s)
  | JList l => Returns l
  | JDict kv => Returns (map (fun p => JStr (fst p)) kv)
  | _ => Raises (TypeError (py "'" ++ type_name v ++ py "' object is not iterable"))
  end.

(** [l[i]] on a sequence of length [n]: a negative index counts from the end. *)
Definition seq_index {A} (l : list A) (i : Z) : option A :=
  let n := Z.of_nat (List.length l) in
  let j := if (i <? 0)%Z then (n + i)%Z else i in
  if ((0 <=? j) && (j <? n))%Z then nth_error l (Z.to_nat j) else None.

(** [v[i]] for an integer subscript. *)
Definition index (v : json) (i : Z) : outcome json :=
  match v with
  | JList l =>
      match seq_index l i with
      | Some x => Returns x
      | None => Raises (Exn OtherException (py "list index out of range"))
      end
  | JStr s =>
      match seq_index s i with
      | Some c => Returns (JStr [c])
      | None => Raises (Exn OtherException (py "string index out of range"))
      end
  | JDict _ => Raises (Exn OtherException (str_of_Z i))
  | _ => Raises (TypeError (py "'" ++ type_name v ++ py "' object is not subscriptable"))
  end.

(** Builtins whose result depends on tables or formatting rules of the
    interpreter: [repr] of floats and containers, [str.title], and [min] and
    [max] of a list of decoded values ([inl msg] is a [TypeError(msg)]). *)
Record runtime := Runtime {
  repr_other : json -> pystr;
  str_title : pystr -> pystr;
  py_min : list json -> pystr + json;
  py_max : list json -> pystr + json
}.

(** [str(v)], also what an f-string field prints. *)
Definition str (rt : runtime) (v : json) : pystr :=
  match v with
  | JStr s => s
  | JInt z => str_of_Z z
  | JNull => py "None"
  | JBool true => py "True"
  | JBool false => py "False"
  | _ => repr_other rt v
  end.

Definition of_builtin (r : pystr + json) : outcome json :=
  match r with
  | inl msg => Raises (TypeError msg)
  | inr v => Returns v
  end.

End Json.

Import Json.

(** ** Figure objects *)

Module Plotly.

(** The [x] attribute of a trace: absent from the class ([hasattr] is false),
    present but [None], or a sequence. *)
Inductive xattr := XMissing | XNone | XList (l : list json).

Record trace := Trace {
  tr_type : pystr;
  tr_mode : option pystr;
  tr_x : xattr;
  tr_y : option (list json)
}.

Record figure := Figure {
  fig_title : option pystr;
  fig_data : list trace
}.

(** What the script may leave in [fig]: [None], a figure, or an object of
    some other class [cls], which has none of the attributes of a figure. *)
Inductive pyobj := PyNone | PyFigure (f : figure) | PyOther (cls : pystr).

Definition trace_to_json (t : trace) : json :=
  JDict ([(py "type", JStr (tr_type t))]
         ++ match tr_mode t with Some m => [(py "mode", JStr m)] | None => [] end
         ++ match tr_x t with XList l => [(py "x", JList l)] | _ => [] end
         ++ match tr_y t with Some l => [(py "y", JList l)] | None => [] end).

(** Modelled from the spec: the serializer [pio.to_json] belongs to the
    plotting library, not to this repository. The glossary calls the
    structured format a loss-less description of the figure (title, traces,
    axis data): properties that are set are written under their own names,
    properties that are unset are left out. *)
Definition to_json (f : figure) : json :=
  JDict [(py "data", JList (map trace_to_json (fig_data f)));
         (py "layout",
          JDict match fig_title f with
                | Some t => [(py "title", JDict [(py "text", JStr t)])]
                | None => []
                end)].

End Plotly.

Import Plotly.

(** ** Output directory as the engine sees it

    A directory in good order: every entry can be stat'ed, and the times are
    taken as the exact numbers the doubles stand for. What the platform adds
    (entries that cannot be stat'ed, double arithmetic and its overflow) is
    in [Disk] further down. *)

Module Fs.

(** Timestamps ([os.path.getmtime], [datetime.now().timestamp()]) are exact
    rationals, in seconds. *)
Definition timestamp := Q.

Definition Qltb (a b : Q) : bool := negb (Qle_bool b a).

(** One directory entry with the facts [os.stat] and [os.remove] report for
    it. [f_remove_error = Some msg] when [os.remove] raises [OSError(msg)]
    for this entry (a subdirectory, a read-only parent, an open handle). *)
Record file := File {
  f_name : pystr;
  f_mtime : timestamp;
  f_size : Z;
  f_remove_error : option pystr
}.

(** The engine's [output_dir] and, when the directory exists, its entries in
    [os.listdir] order. *)
Record fs := MkFs {
  output_dir : pystr;
  listing : option (list file)
}.

(** [os.path.join(a, b)] (posix) *)
Definition path_join (a b : pystr) : pystr :=
  if startswith b (py "/") then b
  else if orb (str_eqb a []) (endswith a (py "/")) then a ++ b
  else a ++ py "/" ++ b.

(** [os.path.exists(p)] for a path below the output directory. *)
Definition path_exists (d : fs) (p : pystr) : bool :=
  match listing d with
  | None => false
  | Some l => existsb (fun f => str_eqb p (path_join (output_dir d) (f_name f))) l
  end.

(** [os.remove] of the entry called [name]. *)
Definition os_remove (name : pystr) (l : list file) : list file :=
  filter (fun g => negb (str_eqb (f_name g) name)) l.

End Fs.

Import Fs.

(** ** The engine ([core.py], class [VisualizationEngine]) *)

Module VisualizationEngine.

(** [l.sort(key=..., reverse=True)]: the stable arrangement by descending
    key; entries with equal keys keep their listing order. *)
Section StableSort.
Variable A : Type.
Variable key : A -> Q.

Fixpoint insert_desc (x : A) (l : list A) : list A :=
  match l with
  | [] => [x]
  | h :: t => if Qltb (key x) (key h) then h :: insert_desc x t else x :: h :: t
  end.

Definition sort_desc (l : list A) : list A := fold_right insert_desc [] l.

End StableSort.

Record chart_info := ChartInfo {
  name : pystr;
  html_path : pystr;
  json_path : pystr;
  png_path : pystr;
  modified : timestamp;
  size : Z;
  available_formats : list pystr
}.

(** Body of the [for filename in html_files[:limit]] loop. *)
Definition chart_info_of (d : fs) (f : file) : chart_info :=
  let filename := f_name f in
  let filepath := path_join (output_dir d) filename in
  let base_name := firstn (List.length filename - 5) filename in
  let json_path := path_join (output_dir d) (base_name ++ py ".json") in
  let png_path := path_join (output_dir d) (base_name ++ py ".png") in
  ChartInfo base_name filepath json_path png_path (f_mtime f) (f_size f)
    ([py "html"]
     ++ (if path_exists d json_path then [py "json"] else [])
     ++ (if path_exists d png_path then [py "png"] else [])).

Definition list_recent_charts (d : fs) (limit : Z) : list chart_info :=
  match listing d with
  | None => []
  | Some l =>
      let html_files := filter (fun f => endswith (f_name f) (py ".html")) l in
      let html_files := sort_desc f_mtime html_files in
      map (chart_info_of d) (slice_to limit html_files)
  end.

(** What a run of [cleanup_old_charts] leaves behind: the count it returns,
    the directory afterwards and the warnings it printed. *)
Record cleanup_state := CleanupState {
  deleted_count : Z;
  remaining : list file;
  warnings : list pystr
}.

(** One iteration of [for filename in os.listdir(self.output_dir)]. *)
Definition cleanup_step (out : pystr) (cutoff_time : Q)
  (st : cleanup_state) (f : file) : cleanup_state :=
  let filepath := path_join out (f_name f) in
  if Qltb (f_mtime f) cutoff_time then
    match f_remove_error f with
    | None =>
        CleanupState (deleted_count st + 1) (os_remove (f_name f) (remaining st))
          (warnings st)
    | Some e =>
        CleanupState (deleted_count st) (remaining st)
          (warnings st ++ [py "Warning: Could not delete " ++ filepath ++ py ": " ++ e])
    end
  else st.

Definition cleanup_old_charts (now : timestamp) (d : fs) (keep_days : Z)
  : cleanup_state :=
  match listing d with
  | None => CleanupState 0 [] []
  | Some l =>
      let cutoff_time := (now - inject_Z (keep_days * 24 * 60 * 60))%Q in
      fold_left (cleanup_step (output_dir d) cutoff_time) l (CleanupState 0 l [])
  end.


(** *** Chart generation *)

(** Everything outside the engine that a generation call reaches: the clock,
    the interpreter running the assembled script, the plotting library's
    serializer and writers, the optional renderer, the browser; what
    [str(e)] gives for an exception, its text or, where the [__str__] of its
    class raises, the exception raised there; and [os.makedirs] of the
    output directory, which the constructor of the engine calls. *)
Record world := World {
  w_output_dir : pystr;
  strftime_now : pystr;
  exec_code : pystr -> outcome (option pyobj * option pyobj);
  exec_stderr : pystr -> pystr;
  pio_to_json : pyobj -> outcome json;
  file_write : pystr -> outcome unit;
  write_html : pyobj -> pystr -> outcome unit;
  import_kaleido : outcome unit;
  write_image : pyobj -> pystr -> outcome unit;
  abspath : pystr -> pystr;
  webbrowser_open : pystr -> outcome unit;
  exn_str : exn -> outcome pystr;
  makedirs : outcome unit
}.

Record chart_data := ChartData {
  title : pystr;
  chart_type : pystr;
  data_points : Z
}.

(** The [result] dictionary. [files] keeps insertion order. *)
Record result := Result {
  success : bool;
  files : list (pystr * pystr);
  errors : list pystr;
  chart : option chart_data
}.

Inductive event :=
| Printed (line : pystr)
| WroteJson (path : pystr) (doc : json)
| WroteHtml (path : pystr)
| WroteImage (path : pystr)
| OpenedBrowser (url : pystr).

(** The [result] object is mutated in place while the [try] body runs, so it
    is threaded as state and survives an exception, together with the trace
    of what was printed and written. *)
Record state := State {
  st_result : result;
  st_trace : list event
}.

Definition M (A : Type) : Type := state -> outcome A * state.

Definition ret {A} (a : A) : M A := fun s => (Returns a, s).

Definition bindM {A B} (m : M A) (k : A -> M B) : M B :=
  fun s =>
    match m s with
    | (Returns a, s') => k a s'
    | (Raises e, s') => (Raises e, s')
    end.

Definition lift {A} (o : outcome A) : M A := fun s => (o, s).

Definition emit (ev : event) : M unit :=
  fun s => (Returns tt, State (st_result s) (st_trace s ++ [ev])).

Definition print (line : pystr) : M unit := emit (Printed line).

Definition update (f : result -> result) : M unit :=
  fun s => (Returns tt, State (f (st_result s)) (st_trace s)).

Definition get_result : M result := fun s => (Returns (st_result s), s).

(** [try: body  except Exception as e: handler] *)
Definition try_except {A} (body : M A) (handler : exn -> M A) : M A :=
  fun s =>
    match body s with
    | (Returns a, s') => (Returns a, s')
    | (Raises e, s') => if is_Exception e then handler e s' else (Raises e, s')
    end.

Notation "x <-- m ;; k" := (bindM m (fun x => k))
  (at level 61, m at next level, right associativity).
Notation "m ;;;; k" := (bindM m (fun _ => k))
  (at level 61, right associativity).

Definition when (b : bool) (m : M unit) : M unit := if b then m else ret tt.

(** [c.isalnum()], on the ASCII digits and letters. *)
Definition isalnum (c : char) : bool :=
  (((48 <=? c) && (c <=? 57)) || ((65 <=? c) && (c <=? 90))
   || ((97 <=? c) && (c <=? 122)))%N.

Definition _generate_filename (w : world) (name : pystr) : pystr :=
  let clean_name :=
    strip (filter (fun c => isalnum c || existsb (char_eqb c) (py "_-")) name) in
  clean_name ++ py "_" ++ strftime_now w.


Definition nl : pystr := [10%N].

Definition pre_code (sql_query : pystr) : pystr :=
  nl ++ py "import pandas as pd" ++ nl
  ++ py "import plotly.express as px" ++ nl
  ++ py "import plotly.graph_objects as go" ++ nl
  ++ py "import plotly.io as pio" ++ nl
  ++ py "from sqlalchemy import text" ++ nl
  ++ nl
  ++ py "# Execute SQL query" ++ nl
  ++ py "df = pd.read_sql(text(" ++ [34; 34; 34]%N ++ sql_query
  ++ [34; 34; 34]%N ++ py "), engine)" ++ nl
  ++ nl
  ++ py "# Generated plotly code" ++ nl.

(** Returns the object bound to [fig], or [None]. *)
Definition _execute_visualization_code (w : world) (sql_query plotly_code : pystr)
  : M pyobj :=
  let code := pre_code sql_query ++ plotly_code in
  try_except
    (ns <-- lift (exec_code w code) ;;
     match ns with
     | (Some fig, _) => ret fig
     | (None, Some fig) => ret fig
     | (None, None) =>
         print (py "Warning: No 'fig' variable found in visualization code") ;;;;
         ret PyNone
     end)
    (fun e =>
       text <-- lift (exn_str w e) ;;
       print (py "Error executing visualization code: " ++ text) ;;;;
       let stderr_output := exec_stderr w code in
       when (negb (str_eqb stderr_output []))
            (print (py "STDERR: " ++ stderr_output)) ;;;;
       ret PyNone).

Definition _export_json (w : world) (fig : pyobj) (base_filename : pystr) : M pystr :=
  let json_path := path_join (w_output_dir w) (base_filename ++ py ".json") in
  fig_json <-- lift (pio_to_json w fig) ;;
  lift (file_write w json_path) ;;;;
  emit (WroteJson json_path fig_json) ;;;;
  ret json_path.

Definition _export_html (w : world) (fig : pyobj) (base_filename : pystr) : M pystr :=
  let html_path := path_join (w_output_dir w) (base_filename ++ py ".html") in
  lift (write_html w fig html_path) ;;;;
  emit (WroteHtml html_path) ;;;;
  ret html_path.

(** Shared shape of [_export_png] and [_export_svg]; [ext] is the extension
    and [label] the word used in the warnings. *)
Definition _export_image (w : world) (fig : pyobj) (base_filename ext label : pystr)
  : M (option pystr) :=
  fun s =>
    let body :=
      lift (import_kaleido w) ;;;;
      let image_path := path_join (w_output_dir w) (base_filename ++ ext) in
      lift (write_image w fig image_path) ;;;;
      emit (WroteImage image_path) ;;;;
      ret (Some image_path) in
    match body s with
    | (Returns a, s') => (Returns a, s')
    | (Raises e, s') =>
        if is_ImportError e then
          (print (py "Warning: kaleido not installed, " ++ label
                  ++ py " export unavailable") ;;;; ret None) s'
        else if is_Exception e then
          (text <-- lift (exn_str w e) ;;
           print (py "Warning: " ++ label ++ py " export failed: " ++ text) ;;;;
           ret None) s'
        else (Raises e, s')
    end.

Definition _export_png (w : world) (fig : pyobj) (base_filename : pystr) :=
  _export_image w fig base_filename (py ".png") (py "PNG").

Definition _export_svg (w : world) (fig : pyobj) (base_filename : pystr) :=
  _export_image w fig base_filename (py ".svg") (py "SVG").

Definition _open_in_browser (w : world) (html_path : pystr) : M unit :=
  try_except
    (let abs_path := abspath w html_path in
     lift (webbrowser_open w (py "file://" ++ abs_path)) ;;;;
     emit (OpenedBrowser (py "file://" ++ abs_path)))
    (fun e =>
       text <-- lift (exn_str w e) ;;
       print (py "Warning: Could not open browser: " ++ text)).

Definition no_attribute (cls attr : pystr) : exn :=
  Exn OtherException
    (py "'" ++ cls ++ py "' object has no attribute '" ++ attr ++ py "'").

(** [fig.data] and [fig.layout] exist on figures only. *)
Definition figure_of (fig : pyobj) (attr : pystr) : outcome figure :=
  match fig with
  | PyFigure f => Returns f
  | PyNone => Raises (no_attribute (py "NoneType") attr)
  | PyOther cls => Raises (no_attribute cls attr)
  end.

Definition _detect_chart_type (fig : pyobj) : outcome pystr :=
  (f <- figure_of fig (py "data") ;;
   match fig_data f with
   | [] => Returns (py "unknown")
   | t :: _ =>
       let trace_type := tr_type t in
       if str_eqb trace_type (py "bar") then Returns (py "bar_chart")
       else if str_eqb trace_type (py "scatter") then
         match tr_mode t with
         | Some m => if str_eqb m (py "lines") then Returns (py "line_chart")
                     else Returns (py "scatter_plot")
         | None => Returns (py "scatter_plot")
         end
       else if str_eqb trace_type (py "pie") then Returns (py "pie_chart")
       else if str_eqb trace_type (py "histogram") then Returns (py "histogram")
       else if str_eqb trace_type [] then Returns (py "unknown")
       else Returns trace_type
   end)%py.

(** [getattr(fig.layout, 'title', {}).get('text', name)]. The layout of a
    figure always has the attribute [title], an object of the class [Title]
    of the plotting library whether a title was set or not, so the default
    [{}] is never taken; and that class has no method [get]. *)
Definition title_of (fig : pyobj) (name : pystr) : outcome pystr :=
  (f <- figure_of fig (py "layout") ;;
   Raises (no_attribute (py "Title") (py "get")))%py.

(** [len(fig.data[0].x) if fig.data and hasattr(fig.data[0], 'x') else 0] *)
Definition data_points_of (fig : pyobj) : outcome Z :=
  (f <- figure_of fig (py "data") ;;
   match fig_data f with
   | [] => Returns 0%Z
   | t :: _ =>
       match tr_x t with
       | XMissing => Returns 0%Z
       | XNone => Raises (TypeError (py "object of type 'NoneType' has no len()"))
       | XList l => Returns (Z.of_nat (List.length l))
       end
   end)%py.

Definition has_key (k : pystr) (d : list (pystr * pystr)) : bool :=
  existsb (fun p => str_eqb (fst p) k) d.

Fixpoint dict_set (k v : pystr) (d : list (pystr * pystr)) : list (pystr * pystr) :=
  match d with
  | [] => [(k, v)]
  | (k', v') :: rest =>
      if str_eqb k' k then (k, v) :: rest else (k', v') :: dict_set k v rest
  end.

Fixpoint dict_get (k : pystr) (d : list (pystr * pystr)) : option pystr :=
  match d with
  | [] => None
  | (k', v) :: rest => if str_eqb k' k then Some v else dict_get k rest
  end.

Definition set_file (k v : pystr) : M unit :=
  update (fun r => Result (success r) (dict_set k v (files r)) (errors r) (chart r)).

Definition add_error (msg : pystr) : M unit :=
  update (fun r => Result (success r) (files r) (errors r ++ [msg]) (chart r)).

Definition requested (fmt : pystr) (export_formats : list pystr) : bool :=
  existsb (str_eqb fmt) export_formats.

(** The exports that the plotting library performs itself. *)
Definition export_data_formats (w : world) (fig : pyobj) (base_filename : pystr)
  (export_formats : list pystr) : M unit :=
  when (requested (py "json") export_formats)
       (json_path <-- _export_json w fig base_filename ;;
        set_file (py "json") json_path) ;;;;
  when (requested (py "html") export_formats)
       (html_path <-- _export_html w fig base_filename ;;
        set_file (py "html") html_path).

(** The exports that need the optional renderer. *)
Definition export_image_formats (w : world) (fig : pyobj) (base_filename : pystr)
  (export_formats : list pystr) : M unit :=
  when (requested (py "png") export_formats)
       (png_path <-- _export_png w fig base_filename ;;
        match png_path with
        | Some p => set_file (py "png") p
        | None => ret tt
        end) ;;;;
  when (requested (py "svg") export_formats)
       (svg_path <-- _export_svg w fig base_filename ;;
        match svg_path with
        | Some p => set_file (py "svg") p
        | None => ret tt
        end).

(** From the auto-open to the summary metadata. *)
Definition finish_chart (w : world) (fig : pyobj) (name : pystr) (auto_open : bool)
  : M unit :=
  r <-- get_result ;;
  match (if auto_open then dict_get (py "html") (files r) else None) with
  | Some html => _open_in_browser w html
  | None => ret tt
  end ;;;;
  update (fun r => Result true (files r) (errors r) (chart r)) ;;;;
  t <-- lift (title_of fig name) ;;
  ct <-- lift (_detect_chart_type fig) ;;
  dp <-- lift (data_points_of fig) ;;
  update (fun r => Result (success r) (files r) (errors r) (Some (ChartData t ct dp))).

(** The body of the [try] block; an early [return result] ends it. *)
Definition generate_chart_body (w : world) (name sql_query plotly_code : pystr)
  (auto_open : bool) (export_formats : list pystr) : M unit :=
  let base_filename := _generate_filename w name in
  fig <-- _execute_visualization_code w sql_query plotly_code ;;
  match fig with
  | PyNone => add_error (py "Failed to generate figure")
  | _ =>
      export_data_formats w fig base_filename export_formats ;;;;
      export_image_formats w fig base_filename export_formats ;;;;
      finish_chart w fig name auto_open
  end.

(** What the caller of [generate_chart] gets: the returned dictionary or the
    exception that escaped, and the trace of effects. *)
Definition generate_chart (w : world) (name sql_query plotly_code : pystr)
  (auto_open : bool) (export_formats : option (list pystr))
  : outcome result * list event :=
  let export_formats :=
    match export_formats with
    | None => [py "html"; py "json"]
    | Some l => l
    end in
  let start := State (Result false [] [] None) [] in
  let run :=
    try_except
      (generate_chart_body w name sql_query plotly_code auto_open export_formats)
      (fun e =>
         text <-- lift (exn_str w e) ;;
         add_error (py "Chart generation failed: " ++ text)) in
  match run start with
  | (Returns _, s) => (Returns (st_result s), st_trace s)
  | (Raises e, s) => (Raises e, st_trace s)
  end.
End VisualizationEngine.

(** ** Presenter ([display.py], class [ChartDisplayManager]) *)

Module ChartDisplayManager.

Import VisualizationEngine.

Definition chart_emoji : pystr := [128202%N].     (* U+1F4CA *)
Definition trend_emoji : pystr := [128200%N].     (* U+1F4C8 *)
Definition clipboard_emoji : pystr := [128203%N]. (* U+1F4CB *)
Definition box_bar : char := 9474%N.              (* U+2502 *)
Definition full_block : char := 9608%N.           (* U+2588 *)

(** *** Quick preview of a structured file *)

(** What [os.path.exists], [open] and [json.load] find at a path: nothing,
    a file that cannot be opened or decoded ([OSError], [ValueError]; the
    message is the exception's text), or a decoded document. *)
Inductive file_state :=
| Absent
| Unreadable (msg : pystr)
| Document (doc : json).

(** [trace_type.title()] *)
Definition title_method (rt : runtime) (v : json) : outcome pystr :=
  match v with
  | JStr s => Returns (str_title rt s)
  | _ => Raises (AttributeError v (py "title"))
  end.

Definition untitled : json := JStr (py "Untitled Chart").

(** The lines about [x_data], appended when it is truthy. *)
Definition preview_x (rt : runtime) (x_data : json) : outcome (list pystr) :=
  (if truthy x_data then
     n <- len x_data ;;
     let points := py "Data Points: " ++ str_of_Z n in
     if (n <=? 5)%Z then
       xs <- iter x_data ;;
       Returns [points; py "X Values: " ++ join (py ", ") (map (str rt) xs)]
     else
       first <- index x_data 0 ;;
       last <- index x_data (-1) ;;
       Returns [points; py "X Range: " ++ str rt first ++ py " to " ++ str rt last]
   else Returns [])%py.

(** The line about [y_data], appended when it is a non-empty list. *)
Definition preview_y (rt : runtime) (y_data : json) : outcome (list pystr) :=
  (match y_data with
   | JList ((_ :: _) as ys) =>
       if (Z.of_nat (List.length ys) <=? 5)%Z then
         Returns [py "Y Values: " ++ join (py ", ") (map (str rt) ys)]
       else
         min_y <- of_builtin (py_min rt ys) ;;
         max_y <- of_builtin (py_max rt ys) ;;
         Returns [py "Y Range: " ++ str rt min_y ++ py " to " ++ str rt max_y]
   | _ => Returns []
   end)%py.

(** The [title_text] read from the layout. *)
Definition preview_title (rt : runtime) (chart_data : json) : outcome json :=
  (layout <- get chart_data (py "layout") (JDict []) ;;
   title <- get layout (py "title") (JDict []) ;;
   if is_dict title then get title (py "text") untitled
   else Returns (if truthy title then JStr (str rt title) else untitled))%py.

(** The lines of the [if data_traces:] block. *)
Definition preview_traces (rt : runtime) (data_traces : json) : outcome (list pystr) :=
  (if truthy data_traces then
     trace <- index data_traces 0 ;;
     trace_type <- get trace (py "type") (JStr (py "unknown")) ;;
     x_data <- get trace (py "x") (JList []) ;;
     y_data <- get trace (py "y") (JList []) ;;
     kind <- title_method rt trace_type ;;
     xs <- preview_x rt x_data ;;
     ys <- preview_y rt y_data ;;
     Returns ([py "Chart Type: " ++ kind] ++ xs ++ ys)
   else Returns [])%py.

(** The [preview_lines] list built from a decoded document. *)
Definition preview_lines (rt : runtime) (chart_data : json) : outcome (list pystr) :=
  (title_text <- preview_title rt chart_data ;;
   data_traces <- get chart_data (py "data") (JList []) ;;
   n <- len title_text ;;
   body <- preview_traces rt data_traces ;;
   Returns ([chart_emoji ++ py " " ++ str rt title_text;
             repeat_char 45%N (Z.min (n + 4) 40)] ++ body))%py.

Definition display_chart_quick_preview (rt : runtime) (read : pystr -> file_state)
  (json_path : pystr) : outcome pystr :=
  try_except_Exception
    (match read json_path with
     | Absent => Returns (chart_emoji ++ py " Chart file not found")
     | Unreadable msg => Raises (Exn OtherException msg)
     | Document chart_data =>
         (lines <- preview_lines rt chart_data ;;
          Returns (join nl lines))%py
     end)
    (fun e => Returns (chart_emoji ++ py " Error reading chart: " ++ exn_msg e)).

(** *** ASCII charts from raw rows *)

(** A [DataFrame] with string and integer cells; every row has one cell per
    column. Frames with cells of other types (floats and their [NaN],
    dates, decimals) are outside this embedding, and so is the double
    arithmetic that numpy does on the values of a frame: what follows is
    the rendering of small integers and strings. *)
Inductive cell := CInt (z : Z) | CStr (s : pystr).

Record DataFrame := Frame {
  columns : list pystr;
  rows : list (list cell)
}.

Definition str_cell (c : cell) : pystr :=
  match c with
  | CInt z => str_of_Z z
  | CStr s => s
  end.

(** [data.empty] *)
Definition empty (data : DataFrame) : bool :=
  match columns data, rows data with
  | [], _ => true
  | _, [] => true
  | _, _ => false
  end.

Definition table_cell (col : pystr) (value : cell) : pystr :=
  let str_val := str_cell value in
  let str_val :=
    if (15 <? List.length str_val)%nat then firstn 12 str_val ++ py "..."
    else str_val in
  col ++ py ": " ++ str_val.

Definition _create_ascii_table (data : DataFrame) (max_rows : nat) : pystr :=
  let truncated := (max_rows <? List.length (rows data))%nat in
  let display_data := if truncated then firstn max_rows (rows data) else rows data in
  let table_lines :=
    [clipboard_emoji ++ py " Data Preview:"; repeat_char 45%N 40]
    ++ map (fun row =>
              join (py " | ")
                   (map (fun cv => table_cell (fst cv) (snd cv))
                        (combine (columns data) row)))
           display_data
    ++ (if truncated
        then [py "... and "
              ++ str_of_Z (Z.of_nat (List.length (rows data)) - Z.of_nat max_rows)
              ++ py " more rows"]
        else []) in
  join nl table_lines.

(** The rows paired with the integer in their second column; a cell of
    another type there makes [nlargest] raise [TypeError]. *)
Fixpoint valued_rows (values_col : pystr) (l : list (list cell))
  : outcome (list (list cell * Z)) :=
  match l with
  | [] => Returns []
  | row :: rest =>
      match nth_error row 1 with
      | Some (CInt z) =>
          (tl <- valued_rows values_col rest ;; Returns ((row, z) :: tl))%py
      | _ =>
          Raises (TypeError (py "Column '" ++ values_col
                             ++ py "' has dtype object, cannot use method 'nlargest' with this dtype"))
      end
  end.

(** [data.nlargest(n, values_col)]: the [n] rows with the largest values, in
    descending order, earlier rows first among equals. *)
Definition nlargest (n : nat) (l : list (list cell * Z)) : list (list cell * Z) :=
  firstn n (sort_desc (fun r => inject_Z (snd r)) l).

(** [chart_data[values_col].max()] on a non-empty frame. *)
Definition column_max (l : list (list cell * Z)) : Z :=
  match l with
  | [] => 0%Z
  | r :: rest => fold_left (fun m x => Z.max m (snd x)) rest (snd r)
  end.

(** [int((value / max_value) * max_bar_length)] with the quotient taken
    exactly; [int] rounds toward zero. *)
Definition bar_length (max_value value : Z) : Z :=
  if (0 <? max_value)%Z then Z.quot (value * 30) max_value else 0%Z.

Definition bar (max_value value : Z) : pystr :=
  repeat_char full_block (bar_length max_value value).

Definition bar_line (max_value : Z) (r : list cell * Z) : pystr :=
  let label := firstn 15 (str_cell (nth 0 (fst r) (CStr []))) in
  let value := snd r in
  ljust 15 label ++ [32%N; box_bar] ++ ljust 30 (bar max_value value)
  ++ py " " ++ str_of_Z value.

(** The chart, line by line: heading, rule, one line per bar. *)
Definition bar_chart_lines (labels_col values_col : pystr)
  (chart_data : list (list cell * Z)) : list pystr :=
  let max_value := column_max chart_data in
  [chart_emoji ++ py " " ++ values_col ++ py " by " ++ labels_col ++ py " (Top 10)";
   repeat_char 45%N 50]
  ++ map (bar_line max_value) chart_data.

(** Where the name of the second column stands for several columns,
    [nlargest] asks a frame for its [dtype] and raises [AttributeError]. *)
Definition _create_ascii_bar_chart (data : DataFrame) : outcome pystr :=
  match columns data with
  | labels_col :: values_col :: _ =>
      if (1 <? List.length (filter (str_eqb values_col) (columns data)))%nat
      then Raises (no_attribute (py "DataFrame") (py "dtype"))
      else
      (vr <- valued_rows values_col (rows data) ;;
       let chart_data := nlargest 10 vr in
       match chart_data with
       | [] => Returns (chart_emoji ++ py " No data to chart")
       | _ => Returns (join nl (bar_chart_lines labels_col values_col chart_data))
       end)%py
  | _ => Returns (_create_ascii_table data 10)
  end.

Definition create_ascii_chart (data : DataFrame) (chart_type : pystr) : outcome pystr :=
  if empty data then Returns (trend_emoji ++ py " No data to display")
  else if str_eqb chart_type (py "table") then Returns (_create_ascii_table data 10)
  else if str_eqb chart_type (py "bar") then _create_ascii_bar_chart data
  else Returns (_create_ascii_table data 10).

End ChartDisplayManager.

(** ** The rest of [utils.py]: chart names and data previews *)

Module ChartUtilsHelpers.

Import VisualizationEngine.
Import ChartDisplayManager.

(** [s.lstrip(chars)], [s.rstrip(chars)] and [s.strip(chars)] *)
Fixpoint lstrip_chars (chars s : pystr) : pystr :=
  match s with
  | c :: s' => if existsb (char_eqb c) chars then lstrip_chars chars s' else s
  | [] => []
  end.

Definition rstrip_chars (chars s : pystr) : pystr :=
  rev (lstrip_chars chars (rev s)).

Definition strip_chars (chars s : pystr) : pystr :=
  rstrip_chars chars (lstrip_chars chars s).

(** [s.replace(a, b)] for two one-character strings *)
Definition replace_char (a b : char) (s : pystr) : pystr :=
  map (fun c => if char_eqb c a then b else c) s.

Definition cleanup_chart_name (name : pystr) : pystr :=
  let clean_name :=
    filter (fun c => isalnum c || existsb (char_eqb c) (py " _-")) name in
  let clean_name := replace_char 32%N 95%N clean_name in
  let clean_name := strip_chars (py "_-") clean_name in
  let clean_name := if str_eqb clean_name [] then py "chart" else clean_name in
  let clean_name :=
    if (50 <? List.length clean_name)%nat then firstn 50 clean_name else clean_name in
  lower clean_name.


(** The dictionary that [preview_data] returns; the descriptive entries are
    left out. *)
Inductive data_preview :=
| PreviewData (data : DataFrame) (cols : list pystr) (row_count : Z)
| PreviewError (error : pystr).

Definition preview_success (p : data_preview) : bool :=
  match p with
  | PreviewData _ _ _ => true
  | PreviewError _ => false
  end.



End ChartUtilsHelpers.

(** ** The rest of [display.py]: summaries, the gallery, the browser *)

Module ChartDisplaySummaries.

Import VisualizationEngine.
Import ChartDisplayManager.

Definition cross_mark : pystr := [10060%N].  (* U+274C *)
Definition bullet : pystr := [8226%N].       (* U+2022 *)

(** What the presenter asks of the operating system and of the interpreter:
    [os.path.relpath], which raises [ValueError] for an empty path and where
    no relative path exists, [str.upper], and [datetime.strftime] of the
    local time of a timestamp. *)
Record terminal := Terminal {
  relpath : pystr -> outcome pystr;
  str_upper : pystr -> pystr;
  strftime : pystr -> Q -> pystr
}.

Definition _format_error_summary (chart_result : result) : pystr :=
  let summary :=
    [cross_mark ++ py " Chart Generation Failed"; repeat_char 61%N 40]
    ++ map (fun error => py "Error: " ++ error) (errors chart_result)
    ++ [nl ++ py "Troubleshooting Tips:";
        py "  " ++ bullet ++ py " Check your SQL query syntax";
        py "  " ++ bullet ++ py " Verify plotly code creates a 'fig' variable";
        py "  " ++ bullet ++ py " Ensure data is not empty"] in
  join nl summary.

(** The loop over [chart_result['files'].items()]. *)
Fixpoint file_lines (t : terminal) (items : list (pystr * pystr))
  : outcome (list pystr) :=
  match items with
  | [] => Returns []
  | (format_type, filepath) :: rest =>
      (relative_path <- relpath t filepath ;;
       lines <- file_lines t rest ;;
       Returns ((py "  " ++ str_upper t format_type ++ py ": " ++ relative_path)
                  :: lines))%py
  end.

Definition display_chart_summary (rt : runtime) (t : terminal) (chart_result : result)
  : outcome pystr :=
  if negb (success chart_result) then Returns (_format_error_summary chart_result)
  else
    let summary := [chart_emoji ++ py " Chart Generated Successfully!";
                    repeat_char 61%N 40] in
    let summary :=
      summary ++
      match chart chart_result with
      | Some data =>
          [py "Title: " ++ title data;
           py "Type: " ++ str_title rt
                            (ChartUtilsHelpers.replace_char 95%N 32%N (chart_type data));
           py "Data Points: " ++ str_of_Z (data_points data)]
      | None => []
      end in
    let summary := summary ++ [nl ++ py "Generated Files:"] in
    (lines <- file_lines t (files chart_result) ;;
     let summary := summary ++ lines ++ [nl ++ py "To view your chart:"] in
     html_lines <-
       match dict_get (py "html") (files chart_result) with
       | Some html =>
           relative_path <- relpath t html ;;
           Returns [py "  " ++ bullet ++ py " Browser: Chart should open automatically";
                    py "  " ++ bullet ++ py " Manual: Open " ++ relative_path]
       | None => Returns []
       end ;;
     png_lines <-
       match dict_get (py "png") (files chart_result) with
       | Some png =>
           relative_path <- relpath t png ;;
           Returns [py "  " ++ bullet ++ py " Image: " ++ relative_path]
       | None => Returns []
       end ;;
     Returns (join nl (summary ++ html_lines ++ png_lines)))%py.

(** What a presenter or viewer call returns, with what it printed and
    opened on the way. *)
Definition io (A : Type) : Type := outcome A * list event.

Definition open_chart_in_browser (w : world) (d : fs) (filepath : pystr) : io bool :=
  if negb (path_exists d filepath)
  then (Returns false, [Printed (py "File not found: " ++ filepath)])
  else
    let abs_path := abspath w filepath in
    match webbrowser_open w (py "file://" ++ abs_path) with
    | Returns _ => (Returns true, [OpenedBrowser (py "file://" ++ abs_path)])
    | Raises e =>
        if is_Exception e
        then (Returns false, [Printed (py "Error opening browser: " ++ exn_msg e)])
        else (Raises e, [])
    end.

(** [s.split(sep)] for a one-character separator *)
Fixpoint split_char (sep : char) (s : pystr) : list pystr :=
  match s with
  | [] => [[]]
  | c :: s' =>
      if char_eqb c sep then [] :: split_char sep s'
      else match split_char sep s' with
           | part :: parts => (c :: part) :: parts
           | [] => [[c]]
           end
  end.

(** [f"{s:>w}"], also what [f"{i:2d}"] does to the digits of [i] *)
Definition rjust (w : nat) (s : pystr) : pystr :=
  repeat 32%N (w - List.length s) ++ s.

(** The heading of a gallery entry: the chart name without its timestamp. *)
Definition clean_name (chart_name : pystr) : pystr :=
  let name_parts := split_char 95%N chart_name in
  if (2 <? List.length name_parts)%nat
  then join (py " ") (firstn (List.length name_parts - 2) name_parts)
  else chart_name.

(** The lines that one round of the gallery loop appends. *)
Definition gallery_entry (t : terminal) (i : Z) (chart : chart_info) : list pystr :=
  let modified_str := strftime t (py "%Y-%m-%d %H:%M") (modified chart) in
  let size_kb := (size chart / 1024)%Z in
  let formats := join (py ", ") (available_formats chart) in
  [rjust 2 (str_of_Z i) ++ py ". " ++ clean_name (name chart);
   py "    Date: " ++ modified_str ++ py " | Size: " ++ str_of_Z size_kb ++ py "KB";
   py "    Formats: " ++ formats;
   []].

(** [enumerate(l, start)] *)
Fixpoint enumerate {A : Type} (start : Z) (l : list A) : list (Z * A) :=
  match l with
  | [] => []
  | x :: rest => (start, x) :: enumerate (start + 1) rest
  end.

Definition show_chart_gallery (t : terminal) (charts : list chart_info) : pystr :=
  match charts with
  | [] => py "[CHARTS] No charts found. Generate your first chart!"
  | _ =>
      join nl
        ([py "[CHARTS] Recent Charts Gallery"; repeat_char 61%N 50]
         ++ List.concat (map (fun ic => gallery_entry t (fst ic) (snd ic))
                        (enumerate 1 charts))
         ++ [py "TIP: To view a chart, note its number and use the chart viewer."])
  end.

End ChartDisplaySummaries.

(** ** The command-line viewer ([chart_viewer.py], class [ChartViewer]) *)

Module ChartViewer.

Import VisualizationEngine.
Import ChartDisplayManager.
Import ChartDisplaySummaries.

Definition say {A : Type} (lines : list pystr) (rest : io A) : io A :=
  (fst rest, map Printed lines ++ snd rest).

Definition done : io unit := (Returns tt, []).

Definition list_charts (t : terminal) (d : fs) (limit : Z) : io unit :=
  let charts := list_recent_charts d limit in
  let gallery := show_chart_gallery t charts in
  say [gallery] done.

(** The prints of [_show_chart_info], up to the first path that has no
    relative form. *)
Definition _show_chart_info (t : terminal) (chart : chart_info) : io unit :=
  say [py "Chart Information: " ++ name chart;
       repeat_char 61%N 50;
       py "Modified: " ++ strftime t (py "%Y-%m-%d %H:%M:%S") (modified chart);
       py "Size: " ++ str_of_Z (size chart / 1024)%Z ++ py "KB";
       py "Available Formats: " ++ join (py ", ") (available_formats chart)]
    match relpath t (html_path chart) with
    | Raises e => (Raises e, [])
    | Returns html =>
        say [py "HTML Path: " ++ html]
          (let png_part : io unit :=
             if existsb (str_eqb (py "png")) (available_formats chart)
             then match relpath t (png_path chart) with
                  | Raises e => (Raises e, [])
                  | Returns png => say [py "PNG Path: " ++ png] done
                  end
             else done in
           if existsb (str_eqb (py "json")) (available_formats chart)
           then match relpath t (json_path chart) with
                | Raises e => (Raises e, [])
                | Returns json => say [py "JSON Path: " ++ json] png_part
                end
           else png_part)
    end.

(** The charts that [view_chart] chooses from. *)
Definition matching_charts (d : fs) (chart_name : pystr) : list chart_info :=
  filter (fun c => str_in (lower chart_name) (lower (name c)))
         (list_recent_charts d 10).

Definition view_chart (w : world) (rt : runtime) (t : terminal) (d : fs)
  (read : pystr -> file_state) (chart_name format_type : pystr) : io unit :=
  match matching_charts d chart_name with
  | [] =>
      say [py "ERROR: No charts found matching '" ++ chart_name ++ py "'";
           nl ++ py "Available charts:"]
          (list_charts t d 10)
  | chart :: _ =>
      if str_eqb format_type (py "html") then
        if existsb (str_eqb (py "html")) (available_formats chart) then
          say [py "Opening " ++ name chart ++ py " in browser..."]
            (let (o, tr) := open_chart_in_browser w d (html_path chart) in
             match o with
             | Raises e => (Raises e, tr)
             | Returns ok =>
                 if negb ok
                 then (Returns tt,
                       tr ++ [Printed (py "ERROR: Failed to open browser. Try opening manually: "
                                       ++ html_path chart)])
                 else (Returns tt, tr)
             end)
        else say [py "ERROR: HTML format not available for " ++ name chart] done
      else if str_eqb format_type (py "preview") then
        if existsb (str_eqb (py "json")) (available_formats chart) then
          match display_chart_quick_preview rt read (json_path chart) with
          | Returns preview => say [preview] done
          | Raises e => (Raises e, [])
          end
        else say [py "ERROR: Preview not available for " ++ name chart] done
      else if str_eqb format_type (py "info") then _show_chart_info t chart
      else done
  end.

End ChartViewer.

(** ** The tool of the agent ([marketing_server.py], [generate_visualization]) *)

Module MarketingServer.

Import VisualizationEngine.
Import ChartDisplayManager.
Import ChartUtilsHelpers.
Import ChartDisplaySummaries.



End MarketingServer.

(** ** The output directory as the operating system reports it

    [list_recent_charts] and [cleanup_old_charts] once more, with what the
    platform adds to the picture of [VisualizationEngine]: the clock and the
    modification times are doubles and the cutoff is computed in double
    arithmetic; an integer beyond the range of a double cannot be subtracted
    from one; an entry can be listed and yet fail to be stat'ed (a dangling
    link, a file removed meanwhile); the output path can exist without being
    a directory that can be listed; and a time can lie outside the dates of
    the platform. *)

Module Disk.

(** IEEE 754 binary64, the [float] of Python. *)
Definition float := spec_float.

Definition fsub (x y : float) : float := SFsub 53 1024 x y.

Definition flt (x y : float) : bool := SFltb x y.

(** The double of an integer small enough to have one exactly. *)
Definition double (n : Z) : float := binary_normalize 53 1024 n 0 false.

Definition OverflowError (msg : pystr) : exn := Exn OtherException msg.

Definition OSError (msg : pystr) : exn := Exn OtherException msg.

(** The conversion that [float - int] starts with: the nearest double, ties
    to even, and [OverflowError] when that is beyond the largest double,
    that is from [2^1024 - 2^970] on. *)
Definition float_of_int (n : Z) : outcome float :=
  if (2 ^ 1024 - 2 ^ 970 <=? Z.abs n)%Z
  then Raises (OverflowError (py "int too large to convert to float"))
  else Returns (binary_normalize 53 1024 n 0 false).

(** One name of [os.listdir] with what [os.stat] gives for it, the
    modification time and the size, or the [OSError] it raises; and, as in
    [Fs.file], the error of [os.remove] if it has one. *)
Record entry := Entry {
  e_name : pystr;
  e_stat : outcome (float * Z);
  e_remove_error : option pystr
}.

(** The engine's [output_dir]: whether [os.path.exists] finds it, what
    [os.listdir] gives for it, and whether [datetime.fromtimestamp] accepts
    a time. *)
Record disk := MkDisk {
  output_dir : pystr;
  present : bool;
  listdir : outcome (list entry);
  fromtimestamp : float -> outcome unit
}.

(** [os.path.getmtime] and [os.path.getsize] *)
Definition getmtime (f : entry) : outcome float :=
  (st <- e_stat f ;; Returns (fst st))%py.

Definition getsize (f : entry) : outcome Z :=
  (st <- e_stat f ;; Returns (snd st))%py.

(** [os.path.exists(p)] for a path below the output directory: the name is
    listed and can be stat'ed. *)
Definition path_exists (d : disk) (l : list entry) (p : pystr) : bool :=
  existsb (fun f =>
             str_eqb p (path_join (output_dir d) (e_name f))
             && match e_stat f with
                | Returns _ => true
                | Raises _ => false
                end) l.

(** The key pass of [html_files.sort(key=...)]: the first time that cannot
    be read ends the call. *)
Fixpoint sort_keys (l : list entry) : outcome (list (float * entry)) :=
  match l with
  | [] => Returns []
  | f :: rest =>
      (mtime <- getmtime f ;;
       keyed <- sort_keys rest ;;
       Returns ((mtime, f) :: keyed))%py
  end.

(** The stable arrangement by descending key, as in [VisualizationEngine]. *)
Fixpoint insert_desc (x : float * entry) (l : list (float * entry))
  : list (float * entry) :=
  match l with
  | [] => [x]
  | h :: t => if flt (fst x) (fst h) then h :: insert_desc x t else x :: h :: t
  end.

Definition sort_desc (l : list (float * entry)) : list (float * entry) :=
  fold_right insert_desc [] l.

Record chart_info := ChartInfo {
  name : pystr;
  html_path : pystr;
  json_path : pystr;
  png_path : pystr;
  modified : float;
  size : Z;
  available_formats : list pystr
}.

(** Body of the [for filename in html_files[:limit]] loop. *)
Definition chart_info_of (d : disk) (l : list entry) (f : entry) : outcome chart_info :=
  let filename := e_name f in
  let filepath := path_join (output_dir d) filename in
  let base_name := firstn (List.length filename - 5) filename in
  let json_path := path_join (output_dir d) (base_name ++ py ".json") in
  let png_path := path_join (output_dir d) (base_name ++ py ".png") in
  (mtime <- getmtime f ;;
   fromtimestamp d mtime ;;;
   size <- getsize f ;;
   Returns (ChartInfo base_name filepath json_path png_path mtime size
              ([py "html"]
               ++ (if path_exists d l json_path then [py "json"] else [])
               ++ (if path_exists d l png_path then [py "png"] else []))))%py.

Fixpoint for_each {A B : Type} (body : A -> outcome B) (l : list A) : outcome (list B) :=
  match l with
  | [] => Returns []
  | a :: rest =>
      (b <- body a ;;
       bs <- for_each body rest ;;
       Returns (b :: bs))%py
  end.

Definition list_recent_charts (d : disk) (limit : Z) : outcome (list chart_info) :=
  if negb (present d) then Returns []
  else
    (l <- listdir d ;;
     let html_files := filter (fun f => endswith (e_name f) (py ".html")) l in
     keyed <- sort_keys html_files ;;
     let html_files := map snd (sort_desc keyed) in
     for_each (chart_info_of d l) (slice_to limit html_files))%py.

(** A run of [cleanup_old_charts]: what the call returns or raises, the
    paths on which [os.remove] succeeded and the warnings printed, in the
    order of the loop. *)
Record cleanup_run := CleanupRun {
  returned : outcome Z;
  removed : list pystr;
  warnings : list pystr
}.

(** [for filename in os.listdir(self.output_dir)]: the time is read outside
    the [try], the removal inside. *)
Fixpoint cleanup_loop (out : pystr) (cutoff_time : float) (l : list entry)
  (deleted_count : Z) (gone printed : list pystr) : cleanup_run :=
  match l with
  | [] => CleanupRun (Returns deleted_count) gone printed
  | f :: rest =>
      let filepath := path_join out (e_name f) in
      match getmtime f with
      | Raises e => CleanupRun (Raises e) gone printed
      | Returns mtime =>
          if flt mtime cutoff_time then
            match e_remove_error f with
            | None =>
                cleanup_loop out cutoff_time rest (deleted_count + 1)
                  (gone ++ [filepath]) printed
            | Some e =>
                cleanup_loop out cutoff_time rest deleted_count gone
                  (printed ++ [py "Warning: Could not delete " ++ filepath
                               ++ py ": " ++ e])
            end
          else cleanup_loop out cutoff_time rest deleted_count gone printed
      end
  end.

(** [datetime.now().timestamp() - (keep_days * 24 * 60 * 60)] *)
Definition cutoff (now : float) (keep_days : Z) : outcome float :=
  (seconds <- float_of_int (keep_days * 24 * 60 * 60) ;;
   Returns (fsub now seconds))%py.

Definition cleanup_old_charts (now : float) (d : disk) (keep_days : Z) : cleanup_run :=
  if negb (present d) then CleanupRun (Returns 0%Z) [] []
  else
    match cutoff now keep_days with
    | Raises e => CleanupRun (Raises e) [] []
    | Returns cutoff_time =>
        match listdir d with
        | Raises e => CleanupRun (Raises e) [] []
        | Returns l => cleanup_loop (output_dir d) cutoff_time l 0 [] []
        end
    end.

End Disk.

(** ** Vocabulary of the properties *)

Import VisualizationEngine.
Import ChartDisplayManager.

(** [occurs p s]: the string [p] appears somewhere in [s]. *)
Definition occurs (p s : pystr) : Prop := exists a b, s = a ++ p ++ b.

Section Tokens.
Variable sep : char -> bool.

(** A position is a token boundary when it is an end of the text or is
    next to a separator. *)
Definition boundary_before (pre : pystr) : Prop :=
  pre = [] \/ exists pre' c, pre = pre' ++ [c] /\ sep c = true.

Definition boundary_after (post : pystr) : Prop :=
  post = [] \/ exists c post', post = c :: post' /\ sep c = true.

(** [k] stands in [t] with a boundary on each side. *)
Definition delimited (k t : pystr) : Prop :=
  exists pre post, t = pre ++ k ++ post /\ boundary_before pre /\ boundary_after post.

End Tokens.

(** A standalone token in the usual sense: a word set off by whitespace. *)
Definition standalone_token : pystr -> pystr -> Prop := delimited isspace.

(** A word set off by the space character U+0020 alone. *)
Definition space_delimited : pystr -> pystr -> Prop := delimited (N.eqb 32).

Definition newest_first (a b : VisualizationEngine.chart_info) : Prop :=
  (VisualizationEngine.modified b <= VisualizationEngine.modified a)%Q.

(** The records, and the [.html] entries, whose modification time is [t]. *)
Definition modified_at (t : timestamp) (c : VisualizationEngine.chart_info) : bool :=
  Qeq_bool (VisualizationEngine.modified c) t.

Definition html_at (t : timestamp) (f : file) : bool :=
  endswith (f_name f) (py ".html") && Qeq_bool (f_mtime f) t.

(** [p] is a start of [l]. *)
Definition starts {A : Type} (p l : list A) : Prop := exists rest, l = p ++ rest.

Definition three_charts : fs :=
  MkFs (py "output/charts")
       (Some [File (py "a_20240101_000000.html") 100%Q 2048%Z None;
              File (py "b_20240102_000000.html") 200%Q 2048%Z None;
              File (py "c_20240103_000000.html") 200%Q 2048%Z None]).

Definition chart_with_json : fs :=
  MkFs (py "output/charts")
       (Some [File (py "sales_20240101_000000.html") 100%Q 2048%Z None;
              File (py "sales_20240101_000000.json") 100%Q 512%Z None;
              File (py "orphan_20240101_000000.json") 100%Q 512%Z None]).

Definition removable (f : file) : bool :=
  match f_remove_error f with
  | None => true
  | Some _ => false
  end.

(** The entries one eviction run takes away: older than the cutoff, and
    [os.remove] succeeds on them. *)
Definition evicted (cutoff : Q) (f : file) : bool :=
  Qltb (f_mtime f) cutoff && removable f.

Definition cutoff_of (now : Q) (keep_days : Z) : Q :=
  (now - inject_Z (keep_days * 24 * 60 * 60))%Q.

Definition aged_dir : fs :=
  MkFs (py "output/charts")
       (Some [File (py "a_20240101_000000.html") 100%Q 2048%Z None;
              File (py "a_20240101_000000.json") 100%Q 512%Z None;
              File (py "b_20240102_000000.html") 900000%Q 2048%Z
                   (Some (py "[Errno 13] Permission denied"));
              File (py "c_20240103_000000.html") 2000000%Q 2048%Z None]).

(** The directory as the platform reports it: the entry can be stat'ed;
    it was last modified before [t]; [os.remove] succeeds on it. *)
Definition stat_ok (f : Disk.entry) : bool :=
  match Disk.e_stat f with
  | Returns _ => true
  | Raises _ => false
  end.







Definition html_entry (f : Disk.entry) : bool := endswith (Disk.e_name f) (py ".html").


(** An old chart followed by a link whose target is gone. *)
Definition dangling_disk : Disk.disk :=
  Disk.MkDisk (py "output/charts") true
    (Returns [Disk.Entry (py "a_20240101_000000.html")
                (Returns (Disk.double 10, 2048%Z)) None;
              Disk.Entry (py "gone.html")
                (Raises (Disk.OSError (py "[Errno 2] No such file or directory")))
                None])
    (fun _ => Returns tt).


(** Two charts and their siblings, all in order. *)
Definition sound_disk : Disk.disk :=
  Disk.MkDisk (py "output/charts") true
    (Returns [Disk.Entry (py "a_20240101_000000.html")
                (Returns (Disk.double 100, 2048%Z)) None;
              Disk.Entry (py "a_20240101_000000.json")
                (Returns (Disk.double 100, 512%Z)) None;
              Disk.Entry (py "b_20240102_000000.html")
                (Returns (Disk.double 900000, 2048%Z))
                (Some (py "[Errno 13] Permission denied"));
              Disk.Entry (py "c_20240103_000000.html")
                (Returns (Disk.double 2000000, 2048%Z)) None])
    (fun _ => Returns tt).

(** An outcome that, when it is an exception, is one [except Exception]
    catches. *)
Definition catchable {A} (o : outcome A) : Prop :=
  match o with
  | Returns _ => True
  | Raises e => is_Exception e = true
  end.

(** Every exception has a text: no [__str__] raises. *)
Definition printable (w : world) : Prop :=
  forall e, exists text, exn_str w e = Returns text.

(** A world none of whose operations raises [SystemExit],
    [KeyboardInterrupt] or the like, and in which every exception has a
    text. *)
Record tame (w : world) : Prop := Tame {
  tame_exec : forall code, catchable (exec_code w code);
  tame_to_json : forall fig, catchable (pio_to_json w fig);
  tame_file_write : forall path, catchable (file_write w path);
  tame_write_html : forall fig path, catchable (write_html w fig path);
  tame_import : catchable (import_kaleido w);
  tame_write_image : forall fig path, catchable (write_image w fig path);
  tame_browser : forall url, catchable (webbrowser_open w url);
  tame_str : printable w
}.

(** A computation that lets no uncatchable exception out, and one that
    always returns. *)
Definition no_escape {A} (m : M A) : Prop := forall s, catchable (fst (m s)).

Definition total {A} (m : M A) : Prop := forall s, exists a, fst (m s) = Returns a.

(** The script left no figure: it raised, or bound no [fig]. *)
Definition no_figure (w : world) (sql_query plotly_code : pystr) : Prop :=
  match exec_code w (pre_code sql_query ++ plotly_code) with
  | Raises _ => True
  | Returns (None, None) => True
  | Returns _ => False
  end.

Definition bar_figure : figure :=
  Figure (Some (py "Sales by region"))
         [Trace (py "bar") None
                (XList [JStr (py "north"); JStr (py "south")])
                (Some [JInt 10; JInt 20])].

(** A world with a working serializer and writers and no renderer
    installed, in which running the script ends as [script] says. *)
Definition studio (script : outcome (option pyobj * option pyobj)) : world :=
  World (py "output/charts") (py "20240101_120000")
        (fun _ => script)
        (fun _ => [])
        (fun fig =>
           match fig with
           | PyFigure f => Returns (to_json f)
           | _ => Raises (Exn OtherException (py "The fig parameter must be a dict or Figure."))
           end)
        (fun _ => Returns tt)
        (fun _ _ => Returns tt)
        (Raises (Exn ImportError (py "No module named 'kaleido'")))
        (fun _ _ => Returns tt)
        (fun p => py "/srv/agent/" ++ p)
        (fun _ => Returns tt)
        (fun e => Returns (exn_msg e))
        (Returns tt).

Definition effective_formats (export_formats : option (list pystr)) : list pystr :=
  match export_formats with
  | None => [py "html"; py "json"]
  | Some l => l
  end.

(** What [_execute_visualization_code] hands back. *)
Definition executed (w : world) (sql_query plotly_code : pystr) : outcome pyobj :=
  match exec_code w (pre_code sql_query ++ plotly_code) with
  | Returns (Some fig, _) => Returns fig
  | Returns (None, Some fig) => Returns fig
  | Returns (None, None) => Returns PyNone
  | Raises e =>
      if is_Exception e
      then match exn_str w e with
           | Returns _ => Returns PyNone
           | Raises e' => Raises e'
           end
      else Raises e
  end.

(** The renderer produced the image at [path]. *)
Definition rendered (w : world) (fig : pyobj) (path : pystr) : Prop :=
  import_kaleido w = Returns tt /\ write_image w fig path = Returns tt.

Definition renderedb (w : world) (fig : pyobj) (path : pystr) : bool :=
  match import_kaleido w, write_image w fig path with
  | Returns _, Returns _ => true
  | _, _ => false
  end.

Definition image_path (w : world) (name ext : pystr) : pystr :=
  path_join (w_output_dir w) (_generate_filename w name ++ ext).

(** The same world with another renderer. *)
Definition with_renderer (w : world) (k : outcome unit)
  (img : pyobj -> pystr -> outcome unit) : world :=
  World (w_output_dir w) (strftime_now w) (exec_code w) (exec_stderr w)
        (pio_to_json w) (file_write w) (write_html w) k img
        (abspath w) (webbrowser_open w) (exn_str w) (makedirs w).

(** The same world with another formatting of exceptions. *)
Definition with_str (w : world) (str : exn -> outcome pystr) : world :=
  World (w_output_dir w) (strftime_now w) (exec_code w) (exec_stderr w)
        (pio_to_json w) (file_write w) (write_html w) (import_kaleido w)
        (write_image w) (abspath w) (webbrowser_open w) str (makedirs w).

(** An instance of a subclass of [Exception] whose [__str__] is
    [raise self], and the formatting where that class is defined: every
    other exception gives its text. *)
Definition stubborn : exn := Exn OtherException (py "Stubborn").

Definition raise_self (e : exn) : outcome pystr :=
  if is_Exception e && str_eqb (exn_msg e) (py "Stubborn")
  then Raises e
  else Returns (exn_msg e).

(** What the caller learns about success: everything in the result but the
    [files]. *)
Definition verdict (o : outcome result * list event)
  : outcome (bool * list pystr * option chart_data) :=
  match fst o with
  | Returns r => Returns (success r, errors r, chart r)
  | Raises e => Raises e
  end.

(** Two states that differ at most in the image entries of [files]. *)
Definition same_but_images (s1 s2 : state) : Prop :=
  success (st_result s1) = success (st_result s2)
  /\ errors (st_result s1) = errors (st_result s2)
  /\ chart (st_result s1) = chart (st_result s2)
  /\ dict_get (py "html") (files (st_result s1))
     = dict_get (py "html") (files (st_result s2)).

Definition same_run {A} (a b : outcome A * state) : Prop :=
  fst a = fst b /\ same_but_images (snd a) (snd b).

Definition bar_script : outcome (option pyobj * option pyobj) :=
  Returns (Some (PyFigure bar_figure), None).




(** A runtime for the examples: [title] on ASCII text, [min] and [max] on
    lists of integers. *)
Definition is_ascii_letter (c : char) : bool :=
  (((65 <=? c) && (c <=? 90)) || ((97 <=? c) && (c <=? 122)))%N.

Definition ascii_upper (c : char) : char :=
  if ((97 <=? c) && (c <=? 122))%N then (c - 32)%N else c.

Fixpoint ascii_title (previous_is_cased : bool) (s : pystr) : pystr :=
  match s with
  | [] => []
  | c :: s' =>
      (if is_ascii_letter c
       then if previous_is_cased then lower_char c else ascii_upper c
       else c) :: ascii_title (is_ascii_letter c) s'
  end.

Fixpoint int_extremum (pick : Z -> Z -> Z) (acc : Z) (l : list json) : pystr + json :=
  match l with
  | [] => inr (JInt acc)
  | JInt z :: rest => int_extremum pick (pick acc z) rest
  | _ => inl (py "'<' not supported between instances")
  end.

Definition int_extremum_of (pick : Z -> Z -> Z) (l : list json) : pystr + json :=
  match l with
  | JInt z :: rest => int_extremum pick z rest
  | _ => inl (py "'<' not supported between instances")
  end.

Definition ascii_runtime : runtime :=
  Runtime (fun v => py "<" ++ type_name v ++ py ">") (ascii_title false)
          (int_extremum_of Z.min) (int_extremum_of Z.max).

Definition json_only (path : pystr) (doc : json) (p : pystr) : file_state :=
  if str_eqb p path then Document doc else Absent.

Definition bar_json_path : pystr := py "output/charts/sales_20240101_120000.json".

Definition pie_figure : figure :=
  Figure None [Trace (py "pie") None XMissing None].

Definition pie_script : outcome (option pyobj * option pyobj) :=
  Returns (Some (PyFigure pie_figure), None).

Definition pie_json_path : pystr := py "output/charts/segments_20240101_120000.json".

Definition row_value (r : list cell * Z) : Q := inject_Z (snd r).

Definition region_frame : DataFrame :=
  Frame [py "region"; py "profit"]
        [[CStr (py "east"); CInt 10]; [CStr (py "west"); CInt (-5)]].

(** ** Vocabulary of the further properties *)

Import ChartUtilsHelpers.

(** The code points on which the model of [isalnum] and [lower] is exact. *)
Definition is_ascii (c : char) : Prop := (c < 128)%N.

(** The characters that [_generate_filename] keeps. *)
Definition kept (c : char) : bool := isalnum c || existsb (char_eqb c) (py "_-").

(** A lower-case letter, a digit, an underscore or a hyphen. *)
Definition slug_char (c : char) : bool :=
  (((48 <=? c) && (c <=? 57)) || ((97 <=? c) && (c <=? 122))
   || (c =? 95) || (c =? 45))%N.



(** The result while the [try] body has neither failed nor finished. *)
Definition running (f : list (pystr * pystr)) : result := Result false f [] None.

(** The three endings of a call that returns. *)
Definition failed_early (r : result) : Prop :=
  success r = false /\ chart r = None /\ exists msg, errors r = [msg].

Definition succeeded (r : result) : Prop :=
  success r = true /\ errors r = [] /\ exists cd, chart r = Some cd.

Definition failed_late (r : result) : Prop :=
  success r = true /\ chart r = None /\ exists msg, errors r = [msg].

(** The four formats that [generate_chart] knows how to export. *)
Definition known_formats : list pystr := [py "json"; py "html"; py "png"; py "svg"].

(** The trace records that [path] was written by the exporter of format [k];
    a [json] file holds the serialisation of the figure the script left. *)
Definition written (w : world) (sql_query plotly_code k path : pystr)
  (tr : list event) : Prop :=
  (k = py "json" /\ exists fig doc,
      executed w sql_query plotly_code = Returns fig
      /\ pio_to_json w fig = Returns doc
      /\ In (WroteJson path doc) tr)
  \/ (k = py "html" /\ In (WroteHtml path) tr)
  \/ ((k = py "png" \/ k = py "svg") /\ In (WroteImage path) tr).

Import ChartDisplaySummaries.



(** The first lines of the two summaries. *)
Definition failure_banner : pystr := cross_mark ++ py " Chart Generation Failed".

Definition success_banner : pystr := chart_emoji ++ py " Chart Generated Successfully!".

(** A terminal for the examples. *)
Definition plain_terminal : terminal :=
  Terminal (fun p => Returns p) (map ascii_upper) (fun _ _ => py "2024-01-03 00:00").


(** * Properties *)


Lemma returns_inj {A : Type} (a b : A) : Returns a = Returns b -> a = b.
Proof. intros H. injection H as H. exact H. Qed.

(** ** Strings *)

Lemma char_eqb_eq (a b : char) : char_eqb a b = true <-> a = b.
Proof. unfold char_eqb. apply N.eqb_eq. Qed.

Lemma str_eqb_eq (a b : pystr) : str_eqb a b = true <-> a = b.
Proof.
  revert b. induction a as [|x a IH]; intros [|y b]; simpl;
    try (split; [discriminate | discriminate]); try tauto.
  rewrite andb_true_iff, char_eqb_eq, IH.
  split; [intros [-> ->]; reflexivity | intros H; inversion H; auto].
Qed.

Lemma str_eqb_refl (a : pystr) : str_eqb a a = true.
Proof. apply str_eqb_eq. reflexivity. Qed.

Lemma startswith_spec (s p : pystr) :
  startswith s p = true <-> exists r, s = p ++ r.
Proof.
  revert s. induction p as [|x p IH]; intros s; simpl.
  - split; [intros _; exists s; reflexivity | reflexivity].
  - destruct s as [|y s].
    + split; [discriminate | intros [r H]; discriminate].
    + rewrite andb_true_iff, char_eqb_eq, IH. split.
      * intros [-> [r ->]]. exists r. reflexivity.
      * intros [r H]. inversion H. subst. split; [reflexivity | exists r; reflexivity].
Qed.

Lemma str_in_spec (p s : pystr) : str_in p s = true <-> occurs p s.
Proof.
  unfold occurs. induction s as [|y s IH].
  - simpl. rewrite orb_false_r, startswith_spec. split.
    + intros [r H]. exists [], r. exact H.
    + intros [a [b H]]. destruct a; [exists b; exact H | discriminate].
  - cbn [str_in]. rewrite orb_true_iff, startswith_spec, IH. split.
    + intros [[r H] | [a [b H]]].
      * exists [], r. exact H.
      * exists (y :: a), b. rewrite H. reflexivity.
    + intros [[|x a] [b H]].
      * left. exists b. exact H.
      * right. inversion H. exists a, b. reflexivity.
Qed.

Lemma str_in_false (p s : pystr) : str_in p s = false <-> ~ occurs p s.
Proof.
  rewrite <- str_in_spec. destruct (str_in p s); split; intros H;
    congruence || (exfalso; apply H; reflexivity) || reflexivity.
Qed.

(** The padded test of the validator is the test for a word set off by
    spaces. *)
Lemma keyword_hit_spec (t k : pystr) :
  ChartUtils.keyword_hit t k = true <-> space_delimited k t.
Proof.
  unfold ChartUtils.keyword_hit, space_delimited, delimited.
  rewrite str_in_spec. unfold occurs. change (py " ") with [32%N]. split.
  - intros [a [b H]]. simpl in H. rewrite <- app_assoc in H. simpl in H.
    assert (Hsplit : exists pre, boundary_before (N.eqb 32) pre
                                 /\ t ++ [32%N] = pre ++ k ++ 32%N :: b).
    { destruct a as [|c a].
      - simpl in H. inversion H as [H']. exists []. split; [left; reflexivity | exact H'].
      - simpl in H. inversion H as [[Hc H']]. exists (a ++ [32%N]). split.
        + right. exists a, 32%N. split; reflexivity.
        + rewrite <- app_assoc. exact H'. }
    destruct Hsplit as [pre [Hpre Heq]]. exists pre.
    destruct (exists_last (l := 32%N :: b)) as [b' [x Hb]]; [discriminate|].
    rewrite Hb in Heq. rewrite !app_assoc in Heq.
    apply app_inj_tail in Heq. destruct Heq as [Ht _].
    destruct b' as [|c b'].
    + exists []. rewrite app_nil_r in Ht. rewrite app_nil_r.
      repeat split; [exact Ht | exact Hpre | left; reflexivity].
    + simpl in Hb. inversion Hb as [[Hc Hb']]. subst c.
      exists (32%N :: b'). rewrite <- app_assoc in Ht.
      repeat split; [exact Ht | exact Hpre |].
      right. exists 32%N, b'. split; reflexivity.
  - intros [pre [post [Ht [Hpre Hpost]]]]. subst t.
    destruct Hpre as [-> | [pre' [c [-> Hc]]]];
      destruct Hpost as [-> | [d [post' [-> Hd]]]];
      try (apply N.eqb_eq in Hc; subst c); try (apply N.eqb_eq in Hd; subst d).
    all: [> exists [], [] | exists [], (post' ++ [32%N])
          | exists (32%N :: pre'), [] | exists (32%N :: pre'), (post' ++ [32%N]) ];
      simpl; repeat (rewrite <- app_assoc; simpl); rewrite ?app_nil_r; reflexivity.
Qed.

(** ** Validator *)

(** C1 (as amended): [validate_sql_query] accepts a query exactly when the
    trimmed, lower-cased text begins with [select], no denylisted keyword
    stands in that text set off on both sides by a space character or an end
    of the text, and the numbers of opening and closing parentheses agree;
    every rejection carries a non-empty reason. *)
Theorem validate_sql_query_spec (query : pystr) :
  let t := strip (lower query) in
  (fst (ChartUtils.validate_sql_query query) = true <->
     (exists rest, t = py "select" ++ rest)
     /\ (forall k, In k ChartUtils.dangerous_keywords -> ~ space_delimited k t)
     /\ count query 40%N = count query 41%N)
  /\ (fst (ChartUtils.validate_sql_query query) = false ->
      snd (ChartUtils.validate_sql_query query) <> []).
Proof.
  intros t. rewrite <- (startswith_spec t (py "select")).
  unfold ChartUtils.validate_sql_query. fold t.
  destruct (find (ChartUtils.keyword_hit t) ChartUtils.dangerous_keywords)
    as [k|] eqn:Hfind.
  - apply find_some in Hfind. destruct Hfind as [Hin Hhit]. split.
    + simpl. split; [discriminate|]. intros [_ [Hno _]].
      exfalso. apply (Hno k Hin). apply keyword_hit_spec. exact Hhit.
    + intros _. simpl. discriminate.
  - assert (Hno : forall k, In k ChartUtils.dangerous_keywords -> ~ space_delimited k t).
    { intros k Hin Hd. apply keyword_hit_spec in Hd.
      pose proof (find_none _ _ Hfind k Hin) as Hk. simpl in Hk. congruence. }
    destruct (startswith t (py "select")) eqn:Hsel; cbn [negb].
    + destruct (Nat.eqb (count query 40%N) (count query 41%N)) eqn:Hpar; cbn [negb fst snd].
      * apply Nat.eqb_eq in Hpar. split; [|discriminate].
        split; [intros _; repeat split; assumption | reflexivity].
      * apply Nat.eqb_neq in Hpar. split; [|intros _; discriminate].
        split; [discriminate | intros [_ [_ H]]; contradiction].
    + cbn [fst snd]. split; [|intros _; discriminate].
      split; [discriminate | intros [H _]; discriminate].
Qed.

Lemma validate_sql_query_spec_witness :
  snd (ChartUtils.validate_sql_query (py "DROP TABLE customers")) <> [].
Proof.
  apply (proj2 (validate_sql_query_spec (py "DROP TABLE customers"))).
  vm_compute. reflexivity.
Defined.

(** C1, the claim as stated fails: a keyword set off by a line break is a
    standalone token of the text, yet the query is accepted. *)
Lemma validate_sql_query_newline_token :
  let q := py "select 1" ++ [10%N] ++ py "drop table t" in
  ChartUtils.validate_sql_query q = (true, [])
  /\ In (py "drop") ChartUtils.dangerous_keywords
  /\ standalone_token (py "drop") (strip (lower q)).
Proof.
  split; [vm_compute; reflexivity|]. split; [left; reflexivity|].
  exists (py "select 1" ++ [10%N]), (py " table t"). split; [vm_compute; reflexivity|].
  split.
  - right. exists (py "select 1"), 10%N. split; reflexivity.
  - right. exists 32%N, (py "table t"). split; reflexivity.
Qed.

(** C2: a script is rejected, with a non-empty reason, as soon as a pattern
    of the denylist appears in its lower-cased text, or [fig] does not appear
    in it, or none of the plotting markers appears in it. *)
Theorem validate_plotly_code_rejects (code : pystr) :
  (exists p, In p ChartUtils.dangerous_patterns /\ occurs p (lower code))
  \/ ~ occurs (py "fig") code
  \/ (forall m, In m ChartUtils.plotly_markers -> ~ occurs m code) ->
  fst (ChartUtils.validate_plotly_code code) = false
  /\ snd (ChartUtils.validate_plotly_code code) <> [].
Proof.
  intros H. unfold ChartUtils.validate_plotly_code.
  destruct (find (fun pattern => str_in pattern (lower code)) ChartUtils.dangerous_patterns)
    as [p|] eqn:Hfind.
  - split; [reflexivity | simpl; discriminate].
  - destruct (str_in (py "fig") code) eqn:Hfig; cbn [negb].
    + destruct (existsb (fun lib => str_in lib code) ChartUtils.plotly_markers) eqn:Hlib;
        cbn [negb].
      * exfalso. destruct H as [[p [Hin Hocc]] | [Hnofig | Hnolib]].
        -- pose proof (find_none _ _ Hfind p Hin) as Hp. simpl in Hp.
           apply str_in_spec in Hocc. congruence.
        -- apply Hnofig. apply str_in_spec. exact Hfig.
        -- apply existsb_exists in Hlib. destruct Hlib as [m [Hin Hm]].
           apply (Hnolib m Hin). apply str_in_spec. exact Hm.
      * split; [reflexivity | simpl; discriminate].
    + split; [reflexivity | simpl; discriminate].
Qed.

Lemma validate_plotly_code_rejects_witness :
  fst (ChartUtils.validate_plotly_code (py "x = px.bar(df)")) = false
  /\ snd (ChartUtils.validate_plotly_code (py "x = px.bar(df)")) <> [].
Proof.
  apply validate_plotly_code_rejects. right. left.
  apply str_in_false. vm_compute. reflexivity.
Defined.

(** ** Repository *)

Section SortFacts.
Variable A : Type.
Variable key : A -> Q.

Let newest_first (a b : A) : Prop := (key b <= key a)%Q.

Lemma Qltb_false (a b : Q) : Qltb a b = false <-> (b <= a)%Q.
Proof.
  unfold Qltb. rewrite negb_false_iff. apply Qle_bool_iff.
Qed.

Lemma Qltb_true (a b : Q) : Qltb a b = true <-> (a < b)%Q.
Proof.
  unfold Qltb. rewrite negb_true_iff. split.
  - intros H. apply Qnot_le_lt. intros Hle. apply Qle_bool_iff in Hle. congruence.
  - intros H. destruct (Qle_bool b a) eqn:E; [|reflexivity].
    apply Qle_bool_iff in E. exfalso. exact (Qlt_not_le _ _ H E).
Qed.

Lemma insert_desc_In (x y : A) (l : list A) :
  In y (VisualizationEngine.insert_desc key x l) <-> y = x \/ In y l.
Proof.
  induction l as [|h t IH]; simpl.
  - intuition congruence.
  - destruct (Qltb (key x) (key h)); simpl; rewrite ?IH; intuition congruence.
Qed.

Lemma sort_desc_In (y : A) (l : list A) :
  In y (VisualizationEngine.sort_desc key l) <-> In y l.
Proof.
  induction l as [|h t IH]; simpl; [tauto|].
  rewrite insert_desc_In, IH. intuition congruence.
Qed.

Lemma insert_desc_length (x : A) (l : list A) :
  List.length (VisualizationEngine.insert_desc key x l) = S (List.length l).
Proof.
  induction l as [|h t IH]; simpl; [reflexivity|].
  destruct (Qltb (key x) (key h)); simpl; congruence.
Qed.

Lemma sort_desc_length (l : list A) :
  List.length (VisualizationEngine.sort_desc key l) = List.length l.
Proof.
  induction l as [|h t IH]; simpl; [reflexivity|].
  rewrite insert_desc_length. congruence.
Qed.

Lemma insert_desc_perm (x : A) (l : list A) :
  Permutation (x :: l) (VisualizationEngine.insert_desc key x l).
Proof.
  induction l as [|h t IH]; simpl; [apply Permutation_refl|].
  destruct (Qltb (key x) (key h)); [|apply Permutation_refl].
  eapply Permutation_trans; [apply perm_swap|]. apply perm_skip. exact IH.
Qed.

Lemma sort_desc_perm (l : list A) :
  Permutation l (VisualizationEngine.sort_desc key l).
Proof.
  induction l as [|h t IH]; simpl; [apply Permutation_refl|].
  eapply Permutation_trans; [apply perm_skip; exact IH | apply insert_desc_perm].
Qed.

Lemma insert_desc_sorted (x : A) (l : list A) :
  StronglySorted newest_first l ->
  StronglySorted newest_first (VisualizationEngine.insert_desc key x l).
Proof.
  induction 1 as [|h t Hs IH Hall]; simpl.
  - constructor; constructor.
  - destruct (Qltb (key x) (key h)) eqn:E.
    + constructor; [exact IH|].
      apply Forall_forall. intros y Hy. apply insert_desc_In in Hy.
      destruct Hy as [-> | Hy].
      * apply Qltb_true in E. apply Qlt_le_weak. exact E.
      * rewrite Forall_forall in Hall. apply Hall. exact Hy.
    + apply Qltb_false in E. constructor.
      * constructor; assumption.
      * constructor; [exact E|].
        rewrite Forall_forall in Hall. apply Forall_forall. intros y Hy.
        unfold newest_first. eapply Qle_trans; [apply (Hall y Hy) | exact E].
Qed.

Lemma sort_desc_sorted (l : list A) :
  StronglySorted newest_first (VisualizationEngine.sort_desc key l).
Proof.
  induction l as [|h t IH]; simpl; [constructor|].
  apply insert_desc_sorted. exact IH.
Qed.

Lemma firstn_sorted (R : A -> A -> Prop) (n : nat) (l : list A) :
  StronglySorted R l -> StronglySorted R (firstn n l).
Proof.
  intros H. revert n. induction H as [|h t Hs IH Hall]; intros [|n]; simpl;
    try constructor.
  - apply IH.
  - rewrite Forall_forall in *. intros y Hy. apply Hall.
    rewrite <- (firstn_skipn n t). apply in_or_app. left. exact Hy.
Qed.

Lemma firstn_incl (n : nat) (l : list A) (x : A) : In x (firstn n l) -> In x l.
Proof.
  intros H. rewrite <- (firstn_skipn n l). apply in_or_app. left. exact H.
Qed.

Lemma slice_to_incl (limit : Z) (l : list A) (x : A) :
  In x (slice_to limit l) -> In x l.
Proof.
  unfold slice_to. destruct (limit <? 0)%Z; apply firstn_incl.
Qed.

Lemma slice_to_sorted (R : A -> A -> Prop) (limit : Z) (l : list A) :
  StronglySorted R l -> StronglySorted R (slice_to limit l).
Proof.
  unfold slice_to. destruct (limit <? 0)%Z; apply firstn_sorted.
Qed.

Lemma slice_to_length (limit : Z) (l : list A) :
  (0 <= limit)%Z -> (Z.of_nat (List.length (slice_to limit l)) <= limit)%Z.
Proof.
  intros H. unfold slice_to.
  destruct (limit <? 0)%Z eqn:E; [apply Z.ltb_lt in E; lia|].
  rewrite length_firstn. lia.
Qed.

Lemma insert_desc_at (t : Q) (x : A) (l : list A) :
  filter (fun a => Qeq_bool (key a) t) (VisualizationEngine.insert_desc key x l)
  = filter (fun a => Qeq_bool (key a) t) (x :: l).
Proof.
  induction l as [|h tl IH]; [reflexivity|].
  cbn [VisualizationEngine.insert_desc].
  destruct (Qltb (key x) (key h)) eqn:E; [|reflexivity].
  cbn [filter] in IH |- *. rewrite IH.
  destruct (Qeq_bool (key x) t) eqn:Ex; [|reflexivity].
  destruct (Qeq_bool (key h) t) eqn:Eh; [|reflexivity].
  exfalso. apply Qltb_true in E. apply Qeq_bool_iff in Ex, Eh.
  rewrite Ex, Eh in E. apply (Qlt_irrefl t E).
Qed.

(** The sort is stable: entries of equal key keep their order. *)
Lemma sort_desc_at (t : Q) (l : list A) :
  filter (fun a => Qeq_bool (key a) t) (VisualizationEngine.sort_desc key l)
  = filter (fun a => Qeq_bool (key a) t) l.
Proof.
  induction l as [|h tl IH]; [reflexivity|].
  cbn [VisualizationEngine.sort_desc fold_right].
  change (fold_right (VisualizationEngine.insert_desc key) [] tl)
    with (VisualizationEngine.sort_desc key tl).
  rewrite insert_desc_at. cbn [filter]. rewrite IH. reflexivity.
Qed.

Lemma slice_to_starts (p : A -> bool) (limit : Z) (l : list A) :
  starts (filter p (slice_to limit l)) (filter p l).
Proof.
  assert (H : forall n, starts (filter p (firstn n l)) (filter p l)).
  { intros n. exists (filter p (skipn n l)).
    rewrite <- filter_app, firstn_skipn. reflexivity. }
  unfold slice_to. destruct (limit <? 0)%Z; apply H.
Qed.

End SortFacts.

Lemma filter_map (A B : Type) (f : A -> B) (p : B -> bool) (l : list A) :
  filter p (map f l) = map f (filter (fun a => p (f a)) l).
Proof.
  induction l as [|h t IH]; simpl; [reflexivity|].
  rewrite IH. destruct (p (f h)); reflexivity.
Qed.

Lemma filter_filter (A : Type) (p q : A -> bool) (l : list A) :
  filter p (filter q l) = filter (fun a => q a && p a) l.
Proof.
  induction l as [|h t IH]; simpl; [reflexivity|].
  destruct (q h); simpl; rewrite IH; reflexivity.
Qed.

Lemma map_sorted (A B : Type) (f : A -> B) (R : B -> B -> Prop) (l : list A) :
  StronglySorted (fun a b => R (f a) (f b)) l -> StronglySorted R (map f l).
Proof.
  induction 1 as [|h t Hs IH Hall]; simpl; constructor; [exact IH|].
  rewrite Forall_forall in *. intros y Hy. apply in_map_iff in Hy.
  destruct Hy as [x [<- Hx]]. apply Hall. exact Hx.
Qed.

(** C6 (as amended): for a limit [n >= 0], [list_recent_charts] returns at
    most [n] records; for every limit each record is at least as new as all
    the records after it; and records of equal modification time keep their
    listing order: for every time [t], the records modified at [t] are, in
    this order, the first of the [.html] entries modified at [t] as the
    directory lists them. *)
Theorem list_recent_charts_bounded_sorted (d : fs) (limit : Z) :
  ((0 <= limit)%Z ->
   (Z.of_nat (List.length (VisualizationEngine.list_recent_charts d limit)) <= limit)%Z)
  /\ StronglySorted newest_first (VisualizationEngine.list_recent_charts d limit)
  /\ (forall l t, listing d = Some l ->
        starts (filter (modified_at t) (VisualizationEngine.list_recent_charts d limit))
               (map (VisualizationEngine.chart_info_of d) (filter (html_at t) l))).
Proof.
  unfold VisualizationEngine.list_recent_charts.
  destruct (listing d) as [l|]; [|split; [simpl; lia | split; [constructor | discriminate]]].
  split; [|split].
  - intros Hlimit. rewrite length_map. apply slice_to_length. exact Hlimit.
  - apply map_sorted. apply slice_to_sorted.
    apply (sort_desc_sorted f_mtime).
  - intros l0 t Hl. injection Hl as <-.
    rewrite filter_map.
    change (fun a => modified_at t (VisualizationEngine.chart_info_of d a))
      with (fun a => Qeq_bool (f_mtime a) t).
    destruct (slice_to_starts (fun a => Qeq_bool (f_mtime a) t) limit
                (VisualizationEngine.sort_desc f_mtime
                   (filter (fun f => endswith (f_name f) (py ".html")) l)))
      as [rest Hrest].
    rewrite sort_desc_at, filter_filter in Hrest.
    exists (map (VisualizationEngine.chart_info_of d) rest).
    rewrite <- map_app. f_equal. exact Hrest.
Qed.

Lemma list_recent_charts_bounded_sorted_witness :
  (Z.of_nat (List.length (VisualizationEngine.list_recent_charts three_charts 2)) <= 2)%Z
  /\ StronglySorted newest_first (VisualizationEngine.list_recent_charts three_charts 2)
  /\ starts (filter (modified_at 200%Q)
               (VisualizationEngine.list_recent_charts three_charts 2))
            (map (VisualizationEngine.chart_info_of three_charts)
               [File (py "b_20240102_000000.html") 200%Q 2048%Z None;
                File (py "c_20240103_000000.html") 200%Q 2048%Z None]).
Proof.
  destruct (list_recent_charts_bounded_sorted three_charts 2) as [Hlen [Hsorted Hties]].
  split; [apply Hlen; lia|]. split; [exact Hsorted|].
  apply (Hties _ 200%Q eq_refl).
Defined.

(** C6, the claim as stated fails: with the limit -1 the slice drops only
    the last of three records, so more than [n] records come back; and two
    files of equal modification time are both returned, so the order is not
    strict. *)
Lemma list_recent_charts_negative_limit :
  map VisualizationEngine.name (VisualizationEngine.list_recent_charts three_charts (-1))
  = [py "b_20240102_000000"; py "c_20240103_000000"]
  /\ ~ (Z.of_nat (List.length (VisualizationEngine.list_recent_charts three_charts (-1)))
        <= -1)%Z
  /\ map VisualizationEngine.modified
         (VisualizationEngine.list_recent_charts three_charts (-1))
     = [200; 200]%Q.
Proof.
  split; [vm_compute; reflexivity|]. split; [vm_compute; intros H; apply H; reflexivity|].
  vm_compute. reflexivity.
Qed.

Lemma endswith_split (s p : pystr) :
  endswith s p = true ->
  s = firstn (List.length s - List.length p) s ++ p.
Proof.
  unfold endswith. rewrite startswith_spec. intros [r H].
  assert (Hs : s = rev r ++ p).
  { rewrite <- (rev_involutive s), H, rev_app_distr, rev_involutive. reflexivity. }
  rewrite Hs at 2 3. rewrite length_app, Nat.add_sub.
  rewrite firstn_app, firstn_all, Nat.sub_diag. simpl. rewrite app_nil_r.
  exact Hs.
Qed.

Lemma path_exists_listed (d : fs) (l : list file) (f : file) :
  listing d = Some l -> In f l ->
  path_exists d (path_join (output_dir d) (f_name f)) = true.
Proof.
  intros Hl Hin. unfold path_exists. rewrite Hl. apply existsb_exists.
  exists f. split; [exact Hin | apply str_eqb_refl].
Qed.

(** C7: every record of [list_recent_charts] stands for an entry of the
    directory whose name is the record's name followed by [.html]; its
    formats always list [html], list nothing but [html], [json] and [png],
    and list [json] or [png] only when the sibling path exists. *)
Theorem list_recent_charts_records (d : fs) (limit : Z) (r : VisualizationEngine.chart_info) :
  In r (VisualizationEngine.list_recent_charts d limit) ->
  let out := output_dir d in
  let base := VisualizationEngine.name r in
  (exists l f, listing d = Some l /\ In f l /\ f_name f = base ++ py ".html"
               /\ VisualizationEngine.modified r = f_mtime f)
  /\ VisualizationEngine.html_path r = path_join out (base ++ py ".html")
  /\ path_exists d (VisualizationEngine.html_path r) = true
  /\ In (py "html") (VisualizationEngine.available_formats r)
  /\ (forall fmt, In fmt (VisualizationEngine.available_formats r) ->
        fmt = py "html" \/ fmt = py "json" \/ fmt = py "png")
  /\ (In (py "json") (VisualizationEngine.available_formats r) ->
        path_exists d (path_join out (base ++ py ".json")) = true)
  /\ (In (py "png") (VisualizationEngine.available_formats r) ->
        path_exists d (path_join out (base ++ py ".png")) = true).
Proof.
  unfold VisualizationEngine.list_recent_charts.
  destruct (listing d) as [l|] eqn:Hl; [|intros []].
  intros Hin. apply in_map_iff in Hin. destruct Hin as [f [Hr Hf]].
  apply slice_to_incl in Hf. apply sort_desc_In in Hf.
  apply filter_In in Hf. destruct Hf as [Hf Hend].
  apply endswith_split in Hend. change (List.length (py ".html")) with 5 in Hend.
  subst r. cbn [VisualizationEngine.chart_info_of VisualizationEngine.name
                VisualizationEngine.html_path VisualizationEngine.modified
                VisualizationEngine.available_formats].
  set (base := firstn (List.length (f_name f) - 5) (f_name f)) in *.
  repeat split.
  - exists l, f. repeat split; assumption.
  - rewrite <- Hend. reflexivity.
  - apply (path_exists_listed d f Hl Hf).
  - apply in_or_app. left. left. reflexivity.
  - intros fmt Hfmt. apply in_app_or in Hfmt. destruct Hfmt as [[<- | []] | Hfmt]; [left; reflexivity|].
    apply in_app_or in Hfmt.
    destruct Hfmt as [Hfmt | Hfmt];
      [destruct (path_exists d (path_join (output_dir d) (base ++ py ".json")))
      |destruct (path_exists d (path_join (output_dir d) (base ++ py ".png")))];
      simpl in Hfmt; intuition auto.
  - intros Hfmt. apply in_app_or in Hfmt. destruct Hfmt as [[E | []] | Hfmt].
    { exfalso. vm_compute in E. discriminate. }
    destruct (path_exists d (path_join (output_dir d) (base ++ py ".json"))) eqn:E;
      [reflexivity|].
    exfalso. simpl in Hfmt.
    destruct (path_exists d (path_join (output_dir d) (base ++ py ".png")));
      simpl in Hfmt; [destruct Hfmt as [E' | []]; vm_compute in E'; discriminate | exact Hfmt].
  - intros Hfmt. apply in_app_or in Hfmt. destruct Hfmt as [[E | []] | Hfmt].
    { exfalso. vm_compute in E. discriminate. }
    apply in_app_or in Hfmt. destruct Hfmt as [Hfmt | Hfmt].
    + exfalso.
      destruct (path_exists d (path_join (output_dir d) (base ++ py ".json")));
        simpl in Hfmt; [destruct Hfmt as [E' | []]; vm_compute in E'; discriminate | exact Hfmt].
    + destruct (path_exists d (path_join (output_dir d) (base ++ py ".png"))) eqn:E;
        [reflexivity | simpl in Hfmt; destruct Hfmt].
Qed.

Lemma list_recent_charts_records_witness :
  exists r,
    VisualizationEngine.list_recent_charts chart_with_json 10 = [r]
    /\ VisualizationEngine.name r = py "sales_20240101_000000"
    /\ VisualizationEngine.available_formats r = [py "html"; py "json"]
    /\ path_exists chart_with_json (VisualizationEngine.html_path r) = true.
Proof.
  eexists. split; [vm_compute; reflexivity|]. split; [reflexivity|].
  split; [reflexivity|].
  refine (proj1 (proj2 (proj2 (list_recent_charts_records chart_with_json 10 _ _)))).
  vm_compute. left. reflexivity.
Defined.

(** *** Eviction *)

Lemma os_remove_absent (n : pystr) (l : list file) :
  ~ In n (map f_name l) -> os_remove n l = l.
Proof.
  induction l as [|g l IH]; simpl; intros H; [reflexivity|].
  destruct (str_eqb (f_name g) n) eqn:E.
  - apply str_eqb_eq in E. exfalso. apply H. left. exact E.
  - simpl. rewrite IH; [reflexivity|]. intros Hin. apply H. right. exact Hin.
Qed.

Lemma os_remove_middle (f : file) (p q : list file) :
  NoDup (map f_name (p ++ f :: q)) ->
  os_remove (f_name f) (p ++ f :: q) = p ++ q.
Proof.
  intros Hnd. rewrite map_app in Hnd. simpl in Hnd.
  pose proof (NoDup_remove_2 _ _ _ Hnd) as Hnotin.
  unfold os_remove. rewrite filter_app. simpl. rewrite str_eqb_refl. simpl.
  fold (os_remove (f_name f) p). fold (os_remove (f_name f) q).
  rewrite !os_remove_absent; [reflexivity | |];
    intros Hin; apply Hnotin; apply in_or_app; [right | left]; exact Hin.
Qed.

Lemma filter_incl_names (keep : file -> bool) (l : list file) (n : pystr) :
  In n (map f_name (filter keep l)) -> In n (map f_name l).
Proof.
  intros H. apply in_map_iff in H. destruct H as [g [<- Hg]].
  apply filter_In in Hg. apply in_map. tauto.
Qed.

Lemma NoDup_names_filter (keep : file -> bool) (p q : list file) :
  NoDup (map f_name (p ++ q)) -> NoDup (map f_name (filter keep p ++ q)).
Proof.
  induction p as [|g p IH]; simpl; intros H; [exact H|].
  inversion H as [|? ? Hnotin Hnd]; subst.
  destruct (keep g); [|apply IH; exact Hnd].
  simpl. constructor; [|apply IH; exact Hnd].
  intros Hin. apply Hnotin. rewrite map_app in *. apply in_app_or in Hin.
  apply in_or_app. destruct Hin as [Hin | Hin]; [left | right; exact Hin].
  eapply filter_incl_names. exact Hin.
Qed.

(** Invariant of the eviction loop: after the entries [p], the directory
    holds the survivors of [p] followed by the entries still to visit. *)
Lemma cleanup_loop (out : pystr) (cutoff : Q) (q p : list file)
  (st : VisualizationEngine.cleanup_state) :
  NoDup (map f_name (p ++ q)) ->
  VisualizationEngine.remaining st = filter (fun f => negb (evicted cutoff f)) p ++ q ->
  VisualizationEngine.deleted_count st = Z.of_nat (List.length (filter (evicted cutoff) p)) ->
  let st' := fold_left (VisualizationEngine.cleanup_step out cutoff) q st in
  VisualizationEngine.remaining st' = filter (fun f => negb (evicted cutoff f)) (p ++ q)
  /\ VisualizationEngine.deleted_count st'
     = Z.of_nat (List.length (filter (evicted cutoff) (p ++ q))).
Proof.
  revert p st. induction q as [|f q IH]; intros p st Hnd Hrem Hcnt; simpl.
  - rewrite app_nil_r in *. split; assumption.
  - replace (p ++ f :: q) with ((p ++ [f]) ++ q) by (rewrite <- app_assoc; reflexivity).
    apply IH.
    + rewrite <- app_assoc. exact Hnd.
    + unfold VisualizationEngine.cleanup_step. rewrite filter_app. simpl.
      unfold evicted at 2. unfold removable.
      destruct (Qltb (f_mtime f) cutoff); [|simpl; rewrite Hrem, <- app_assoc; reflexivity].
      destruct (f_remove_error f); simpl.
      * rewrite Hrem, <- app_assoc. reflexivity.
      * rewrite Hrem, app_nil_r. apply os_remove_middle.
        apply NoDup_names_filter. exact Hnd.
    + unfold VisualizationEngine.cleanup_step. rewrite filter_app. simpl.
      unfold evicted at 2. unfold removable.
      destruct (Qltb (f_mtime f) cutoff); [|simpl; rewrite Hcnt, app_nil_r; reflexivity].
      destruct (f_remove_error f); simpl.
      * rewrite Hcnt, app_nil_r. reflexivity.
      * rewrite Hcnt, length_app. simpl. lia.
Qed.






(** ** Chart generation *)


Lemma total_no_escape A (m : M A) : total m -> no_escape m.
Proof. intros H s. destruct (H s) as [a ->]. exact I. Qed.

Lemma total_ret A (a : A) : total (ret a).
Proof. intros s. exists a. reflexivity. Qed.

Lemma total_emit ev : total (emit ev).
Proof. intros s. exists tt. reflexivity. Qed.

Lemma total_update f : total (update f).
Proof. intros s. exists tt. reflexivity. Qed.

Lemma total_get_result : total get_result.
Proof. intros s. eexists. reflexivity. Qed.

Lemma total_bind A B (m : M A) (k : A -> M B) :
  total m -> (forall a, total (k a)) -> total (bindM m k).
Proof.
  intros Hm Hk s. unfold bindM. destruct (Hm s) as [a Ha].
  destruct (m s) as [o s']. simpl in Ha. subst o. apply Hk.
Qed.

Lemma no_escape_bind A B (m : M A) (k : A -> M B) :
  no_escape m -> (forall a, no_escape (k a)) -> no_escape (bindM m k).
Proof.
  intros Hm Hk s. unfold bindM. specialize (Hm s).
  destruct (m s) as [[a|e] s']; simpl in *; [apply Hk | exact Hm].
Qed.

Lemma no_escape_lift A (o : outcome A) : catchable o -> no_escape (lift o).
Proof. intros H s. exact H. Qed.

Lemma no_escape_when b (m : M unit) : no_escape m -> no_escape (when b m).
Proof. intros H. destruct b; [exact H | apply total_no_escape, total_ret]. Qed.

Lemma total_when b (m : M unit) : total m -> total (when b m).
Proof. intros H. destruct b; [exact H | apply total_ret]. Qed.

Lemma total_try A (body : M A) (handler : exn -> M A) :
  no_escape body -> (forall e, total (handler e)) -> total (try_except body handler).
Proof.
  intros Hb Hh s. unfold try_except. specialize (Hb s).
  destruct (body s) as [[a|e] s']; simpl in *.
  - exists a. reflexivity.
  - rewrite Hb. apply Hh.
Qed.

Create HintDb engine.

#[local] Hint Resolve total_ret total_emit total_update total_get_result
  total_no_escape no_escape_lift : engine.

Ltac engine_step :=
  first
    [ apply total_bind; [|intro]
    | apply total_when
    | apply total_try; [|intro]
    | apply no_escape_bind; [|intro]
    | apply no_escape_when
    | solve [auto with engine] ].

Lemma total_print line : total (print line).
Proof. apply total_emit. Qed.

Lemma total_set_file k v : total (set_file k v).
Proof. apply total_update. Qed.

Lemma total_add_error msg : total (add_error msg).
Proof. apply total_update. Qed.

#[local] Hint Resolve total_print total_set_file total_add_error : engine.

Lemma total_text A w e (k : pystr -> M A) :
  printable w ->
  (forall text, total (k text)) ->
  total (text <-- lift (exn_str w e) ;; k text).
Proof.
  intros Hstr Hk s. unfold bindM, lift. destruct (Hstr e) as [text ->]. apply Hk.
Qed.

Lemma total_export_image_tame w fig base ext label :
  catchable (import_kaleido w) ->
  (forall f p, catchable (write_image w f p)) ->
  printable w ->
  total (_export_image w fig base ext label).
Proof.
  intros Hk Himg Hstr s. unfold _export_image.
  match goal with |- context [match ?b s with _ => _ end] => set (body := b) end.
  assert (Hbody : no_escape body).
  { unfold body. apply no_escape_bind; [apply no_escape_lift, Hk | intro].
    apply no_escape_bind; [apply no_escape_lift, Himg | intro].
    apply total_no_escape. repeat engine_step. }
  specialize (Hbody s). destruct (body s) as [[a|e] s']; simpl in *.
  - exists a. reflexivity.
  - destruct (is_ImportError e); [eexists; reflexivity|].
    rewrite Hbody. unfold bindM, lift. destruct (Hstr e) as [text ->].
    eexists. reflexivity.
Qed.

Section TameWorld.
Variable w : world.
Hypothesis Hw : tame w.

Lemma total_execute sql_query plotly_code :
  total (_execute_visualization_code w sql_query plotly_code).
Proof.
  unfold _execute_visualization_code. apply total_try.
  - apply no_escape_bind; [apply no_escape_lift, Hw|].
    intros [[fig|] [fig'|]]; apply total_no_escape; repeat engine_step.
  - intro e. apply total_text; [apply Hw | intro text]. repeat engine_step.
Qed.

Lemma no_escape_export_json fig base : no_escape (_export_json w fig base).
Proof.
  unfold _export_json. apply no_escape_bind; [apply no_escape_lift, Hw | intro].
  apply no_escape_bind; [apply no_escape_lift, Hw | intro].
  apply total_no_escape. repeat engine_step.
Qed.

Lemma no_escape_export_html fig base : no_escape (_export_html w fig base).
Proof.
  unfold _export_html. apply no_escape_bind; [apply no_escape_lift, Hw | intro].
  apply total_no_escape. repeat engine_step.
Qed.

Lemma total_export_image fig base ext label :
  total (_export_image w fig base ext label).
Proof. apply total_export_image_tame; apply Hw. Qed.

Lemma total_open_in_browser html : total (_open_in_browser w html).
Proof.
  unfold _open_in_browser. apply total_try.
  - apply no_escape_bind; [apply no_escape_lift, Hw | intro].
    apply total_no_escape. repeat engine_step.
  - intro e. apply total_text; [apply Hw | intro text]. repeat engine_step.
Qed.

Lemma catchable_figure_of fig attr : catchable (figure_of fig attr).
Proof. destruct fig; exact I || reflexivity. Qed.

Lemma catchable_title_of fig name : catchable (title_of fig name).
Proof.
  destruct fig as [|f|cls]; reflexivity.
Qed.

Lemma catchable_detect fig : catchable (_detect_chart_type fig).
Proof.
  destruct fig as [|f|cls]; try reflexivity.
  unfold _detect_chart_type, figure_of, bind.
  destruct (fig_data f) as [|t ?]; [exact I|].
  repeat match goal with
         | |- context [if ?b then _ else _] => destruct b
         | |- context [match ?o with Some _ => _ | None => _ end] => destruct o
         end; exact I.
Qed.

Lemma catchable_data_points fig : catchable (data_points_of fig).
Proof.
  destruct fig as [|f|cls]; try reflexivity.
  unfold data_points_of, figure_of, bind.
  destruct (fig_data f) as [|t ?]; [exact I|]. destruct (tr_x t); exact I || reflexivity.
Qed.

Lemma no_escape_body name sql_query plotly_code auto_open export_formats :
  no_escape (generate_chart_body w name sql_query plotly_code auto_open export_formats).
Proof.
  unfold generate_chart_body. apply no_escape_bind.
  { apply total_no_escape, total_execute. }
  intros fig.
  assert (Hrest : no_escape
            (export_data_formats w fig (_generate_filename w name) export_formats ;;;;
             export_image_formats w fig (_generate_filename w name) export_formats ;;;;
             finish_chart w fig name auto_open)).
  { apply no_escape_bind; [|intro].
    { unfold export_data_formats. apply no_escape_bind; [|intro]; apply no_escape_when.
      - apply no_escape_bind; [apply no_escape_export_json | intro].
        apply total_no_escape. auto with engine.
      - apply no_escape_bind; [apply no_escape_export_html | intro].
        apply total_no_escape. auto with engine. }
    apply no_escape_bind; [|intro].
    { apply total_no_escape. unfold export_image_formats.
      apply total_bind; [|intro]; apply total_when;
        (apply total_bind; [apply total_export_image | intros [p|]; auto with engine]). }
    unfold finish_chart. apply no_escape_bind; [auto with engine | intro r].
    apply no_escape_bind; [|intro].
    { apply total_no_escape.
      destruct (if auto_open then dict_get (py "html") (files r) else None);
        [apply total_open_in_browser | auto with engine]. }
    apply no_escape_bind; [auto with engine | intro].
    apply no_escape_bind; [apply no_escape_lift, catchable_title_of | intro].
    apply no_escape_bind; [apply no_escape_lift, catchable_detect | intro].
    apply no_escape_bind; [apply no_escape_lift, catchable_data_points | intro].
    auto with engine. }
  destruct fig; [apply total_no_escape; auto with engine | exact Hrest | exact Hrest].
Qed.

End TameWorld.

(** C3 (as amended): in a world whose operations raise nothing outside the
    [Exception] hierarchy, [generate_chart] returns a result for every
    input; when running the query and the script raises, or leaves no [fig]
    variable, that result has [success = false] and a non-empty list of
    errors. *)
Theorem generate_chart_returns (w : world) (name sql_query plotly_code : pystr)
  (auto_open : bool) (export_formats : option (list pystr)) :
  tame w ->
  exists r,
    fst (generate_chart w name sql_query plotly_code auto_open export_formats) = Returns r
    /\ (no_figure w sql_query plotly_code -> success r = false /\ errors r <> []).
Proof.
  intros Hw. unfold generate_chart.
  set (fmts := match export_formats with Some l => l | None => _ end).
  set (start := State (Result false [] [] None) []).
  pose proof (@total_try _ _ _
                (no_escape_body Hw name sql_query plotly_code auto_open fmts)
                (fun e => @total_text _ w e
                            (fun text => add_error (py "Chart generation failed: " ++ text))
                            (tame_str Hw)
                            (fun text => total_add_error _))
                start) as [u Hu].
  destruct (try_except _ _ start) as [o s] eqn:Hrun. simpl in Hu. subst o.
  exists (st_result s). split; [reflexivity|].
  unfold no_figure. intros Hnone.
  unfold try_except, generate_chart_body, _execute_visualization_code, bindM,
    try_except, lift in Hrun.
  pose proof (tame_exec Hw (pre_code sql_query ++ plotly_code)) as Hexec.
  destruct (exec_code w (pre_code sql_query ++ plotly_code)) as [[[fig|] [fig'|]]|e];
    try contradiction.
  - simpl in Hrun. inversion Hrun. split; [reflexivity | discriminate].
  - simpl in Hexec. rewrite Hexec in Hrun.
    destruct (tame_str Hw e) as [text Htext]. rewrite Htext in Hrun.
    unfold print, emit, when, add_error, update, ret in Hrun.
    destruct (negb (str_eqb (exec_stderr w (pre_code sql_query ++ plotly_code)) []));
      simpl in Hrun; inversion Hrun; split; reflexivity || discriminate.
Qed.

Lemma tame_studio script : catchable script -> tame (studio script).
Proof.
  intros H. constructor; simpl; intros; try exact I; try exact H; try reflexivity.
  - destruct fig; exact I || reflexivity.
  - eexists. reflexivity.
Qed.

Lemma generate_chart_returns_witness :
  exists r,
    fst (generate_chart
           (studio (Raises (Exn OtherException (py "relation sales does not exist"))))
           (py "sales") (py "SELECT region FROM sales") (py "fig = px.bar(df)")
           true None) = Returns r
    /\ success r = false /\ errors r <> [].
Proof.
  destruct (@generate_chart_returns
              (studio (Raises (Exn OtherException (py "relation sales does not exist"))))
              (py "sales") (py "SELECT region FROM sales") (py "fig = px.bar(df)")
              true None) as [r [Hr Hfail]].
  - apply tame_studio. reflexivity.
  - exists r. split; [exact Hr|]. apply Hfail. exact I.
Defined.

(** C3, the claim as stated fails: a script that raises [SystemExit] is not
    caught by [except Exception]; the exception leaves [generate_chart]. And
    a script that raises an exception whose [__str__] raises is caught, but
    both handlers format what they caught outside any [try], so the
    exception raised by the formatting leaves [generate_chart] too. *)
Lemma generate_chart_exception_escapes :
  fst (generate_chart
         (studio (Raises (Exn BaseExceptionOnly (py "1"))))
         (py "sales") (py "SELECT region FROM sales")
         (py "fig = px.bar(df); raise SystemExit(1)") true None)
  = Raises (Exn BaseExceptionOnly (py "1"))
  /\ fst (generate_chart
            (with_str (studio (Raises stubborn)) raise_self)
            (py "sales") (py "SELECT region FROM sales")
            (py "raise Stubborn()") true None)
     = Raises stubborn.
Proof. split; vm_compute; reflexivity. Qed.

(** *** Formats of a successful call *)

Lemma renderedb_spec w fig path : renderedb w fig path = true <-> rendered w fig path.
Proof.
  unfold renderedb, rendered.
  destruct (import_kaleido w) as [[]|]; destruct (write_image w fig path) as [[]|];
    split; intros H; try discriminate; try (destruct H; discriminate); auto.
Qed.

Lemma execute_effect w sql_query plotly_code s :
  exists tr,
    _execute_visualization_code w sql_query plotly_code s
    = (executed w sql_query plotly_code, State (st_result s) tr).
Proof.
  unfold _execute_visualization_code, executed, try_except, bindM, lift.
  unfold print, emit, when, ret. destruct s as [r tr0].
  destruct (exec_code w (pre_code sql_query ++ plotly_code)) as [[[fig|] [fig'|]]|e];
    cbn [fst snd st_result st_trace]; try (eexists; reflexivity).
  destruct (is_Exception e); [|eexists; reflexivity].
  destruct (exn_str w e) as [text|e']; [|eexists; reflexivity].
  destruct (negb (str_eqb (exec_stderr w (pre_code sql_query ++ plotly_code)) []));
    eexists; reflexivity.
Qed.

Lemma str_eqb_neq (a b : pystr) : a <> b -> str_eqb a b = false.
Proof.
  intros H. destruct (str_eqb a b) eqn:E; [|reflexivity].
  apply str_eqb_eq in E. contradiction.
Qed.

Lemma has_key_set_same k v d : has_key k (dict_set k v d) = true.
Proof.
  induction d as [|[k' v'] d IH]; simpl.
  - rewrite str_eqb_refl. reflexivity.
  - destruct (str_eqb k' k) eqn:E; simpl.
    + rewrite str_eqb_refl. reflexivity.
    + rewrite E. exact IH.
Qed.

Lemma has_key_set_other k k' v d :
  k <> k' -> has_key k (dict_set k' v d) = has_key k d.
Proof.
  intros Hne. induction d as [|[k0 v0] d IH]; simpl.
  - rewrite (str_eqb_neq (not_eq_sym Hne)). reflexivity.
  - destruct (str_eqb k0 k') eqn:E; simpl.
    + apply str_eqb_eq in E. subst k0.
      rewrite (str_eqb_neq (not_eq_sym Hne)). reflexivity.
    + rewrite IH. reflexivity.
Qed.

Lemma dict_get_set_other k k' v d :
  k <> k' -> dict_get k (dict_set k' v d) = dict_get k d.
Proof.
  intros Hne. induction d as [|[k0 v0] d IH]; simpl.
  - rewrite (str_eqb_neq (not_eq_sym Hne)). reflexivity.
  - destruct (str_eqb k0 k') eqn:E; simpl.
    + apply str_eqb_eq in E. subst k0.
      rewrite (str_eqb_neq (not_eq_sym Hne)). reflexivity.
    + rewrite IH. reflexivity.
Qed.

Lemma has_key_set_mono k k' v d :
  has_key k d = true -> has_key k (dict_set k' v d) = true.
Proof.
  intros H. destruct (str_eqb k k') eqn:E.
  - apply str_eqb_eq in E. subst. apply has_key_set_same.
  - rewrite has_key_set_other; [exact H|]. intros ->. rewrite str_eqb_refl in E. discriminate.
Qed.

Ltac keys_differ := intros Heq; vm_compute in Heq; discriminate.

(** Entries under different keys do not interfere. *)
Ltac dict_facts :=
  repeat split;
  rewrite ?has_key_set_same, ?orb_true_r, ?orb_false_r; try reflexivity;
  repeat (first [ rewrite has_key_set_other by keys_differ
                | rewrite dict_get_set_other by keys_differ ]);
  rewrite ?has_key_set_same, ?orb_true_r, ?orb_false_r; reflexivity.

(** The data exports leave [success], [errors] and [chart] alone; when they
    return, a requested primary format has its entry, and no image format
    has appeared. *)
Lemma data_formats_effect w fig base fmts s :
  let r := st_result s in
  match export_data_formats w fig base fmts s with
  | (Returns _, s') =>
      success (st_result s') = success r
      /\ errors (st_result s') = errors r
      /\ chart (st_result s') = chart r
      /\ (requested (py "html") fmts = true ->
          has_key (py "html") (files (st_result s')) = true)
      /\ has_key (py "png") (files (st_result s')) = has_key (py "png") (files r)
      /\ has_key (py "svg") (files (st_result s')) = has_key (py "svg") (files r)
  | (Raises _, s') =>
      success (st_result s') = success r
  end.
Proof.
  unfold export_data_formats, _export_json, _export_html, when, bindM, lift,
    set_file, update, emit, ret.
  destruct s as [[sc fs er ch] tr]. cbn [st_result success files errors chart].
  destruct (requested (py "json") fmts); destruct (requested (py "html") fmts);
    cbn [st_result st_trace success files errors chart];
    repeat match goal with
           | |- context [match ?o with Returns _ => _ | Raises _ => _ end] =>
               destruct o as [?|?]; cbn [st_result st_trace success files errors chart]
           end;
    repeat split; try reflexivity; try discriminate; intros;
    rewrite ?has_key_set_same; try reflexivity;
    repeat (rewrite has_key_set_other by keys_differ); reflexivity.
Qed.

(** One image export never touches the result; it hands back the path
    exactly when the renderer produced the image. *)
Lemma export_image_effect w fig base ext label s :
  match _export_image w fig base ext label s with
  | (Returns p, s') =>
      st_result s' = st_result s
      /\ p = (if renderedb w fig (path_join (w_output_dir w) (base ++ ext))
              then Some (path_join (w_output_dir w) (base ++ ext)) else None)
  | (Raises e, s') => st_result s' = st_result s
  end.
Proof.
  unfold _export_image, renderedb, bindM, lift, print, emit, ret.
  destruct s as [r tr]. cbn [st_result st_trace].
  destruct (import_kaleido w) as [[]|e].
  - destruct (write_image w fig (path_join (w_output_dir w) (base ++ ext))) as [[]|e].
    + split; reflexivity.
    + destruct (is_ImportError e); [split; reflexivity|].
      destruct (is_Exception e); [|reflexivity].
      destruct (exn_str w e); [split; reflexivity | reflexivity].
  - destruct (is_ImportError e); [split; reflexivity|].
    destruct (is_Exception e); [|reflexivity].
    destruct (exn_str w e); [split; reflexivity | reflexivity].
Qed.

Lemma image_formats_effect w fig base fmts s :
  let r := st_result s in
  match export_image_formats w fig base fmts s with
  | (Returns _, s') =>
      success (st_result s') = success r
      /\ errors (st_result s') = errors r
      /\ chart (st_result s') = chart r
      /\ has_key (py "html") (files (st_result s')) = has_key (py "html") (files r)
      /\ dict_get (py "html") (files (st_result s')) = dict_get (py "html") (files r)
      /\ has_key (py "png") (files (st_result s'))
         = has_key (py "png") (files r)
           || (requested (py "png") fmts
               && renderedb w fig (path_join (w_output_dir w) (base ++ py ".png")))
      /\ has_key (py "svg") (files (st_result s'))
         = has_key (py "svg") (files r)
           || (requested (py "svg") fmts
               && renderedb w fig (path_join (w_output_dir w) (base ++ py ".svg")))
  | (Raises e, s') =>
      success (st_result s') = success r
  end.
Proof.
  unfold export_image_formats, _export_png, _export_svg, when, bindM.
  destruct (requested (py "png") fmts); cbn [andb].
  - pose proof (export_image_effect w fig base (py ".png") (py "PNG") s) as Hpng.
    destruct (_export_image w fig base (py ".png") (py "PNG") s) as [[p|e] s1].
    2:{ rewrite Hpng. reflexivity. }
    destruct Hpng as [Hs1 ->].
    destruct (renderedb w fig (path_join (w_output_dir w) (base ++ py ".png")));
      unfold set_file, update, ret; cbn [st_result st_trace];
      destruct (requested (py "svg") fmts); cbn [andb].
    + match goal with |- context [_export_image w fig base ?e ?l ?s0] =>
        pose proof (export_image_effect w fig base e l s0) as Hsvg;
        destruct (_export_image w fig base e l s0) as [[q|e'] s2] end.
      2:{ rewrite Hsvg. cbn [st_result success]. rewrite Hs1. reflexivity. }
      destruct Hsvg as [Hs2 ->]. cbn [st_result] in Hs2.
      destruct (renderedb w fig (path_join (w_output_dir w) (base ++ py ".svg")));
        cbn [st_result st_trace success files errors chart]; rewrite Hs2;
        cbn [success files errors chart]; rewrite Hs1;
        dict_facts.
    + cbn [st_result st_trace success files errors chart]. rewrite Hs1.
      dict_facts.
    + match goal with |- context [_export_image w fig base ?e ?l ?s0] =>
        pose proof (export_image_effect w fig base e l s0) as Hsvg;
        destruct (_export_image w fig base e l s0) as [[q|e'] s2] end.
      2:{ rewrite Hsvg, Hs1. reflexivity. }
      destruct Hsvg as [Hs2 ->].
      destruct (renderedb w fig (path_join (w_output_dir w) (base ++ py ".svg")));
        cbn [st_result st_trace success files errors chart]; rewrite Hs2, Hs1;
        dict_facts.
    + rewrite Hs1. repeat split; rewrite ?orb_false_r; reflexivity.
  - unfold ret. destruct (requested (py "svg") fmts); cbn [andb].
    + pose proof (export_image_effect w fig base (py ".svg") (py "SVG") s) as Hsvg.
      destruct (_export_image w fig base (py ".svg") (py "SVG") s) as [[q|e'] s2].
      2:{ rewrite Hsvg. reflexivity. }
      destruct Hsvg as [Hs2 ->].
      destruct (renderedb w fig (path_join (w_output_dir w) (base ++ py ".svg")));
        unfold set_file, update, ret;
        cbn [st_result st_trace success files errors chart]; rewrite Hs2;
        dict_facts.
    + repeat split; rewrite ?orb_false_r; reflexivity.
Qed.

Lemma open_in_browser_effect w html s :
  st_result (snd (_open_in_browser w html s)) = st_result s.
Proof.
  unfold _open_in_browser, try_except, bindM, lift, emit, print.
  destruct s as [r tr]. cbn [st_result st_trace].
  destruct (webbrowser_open w (py "file://" ++ abspath w html)) as [[]|e];
    [reflexivity|]. destruct (is_Exception e); [|reflexivity].
  destruct (exn_str w e); reflexivity.
Qed.

(** The last phase never changes [files]. *)
Lemma finish_chart_files w fig name auto_open s :
  files (st_result (snd (finish_chart w fig name auto_open s))) = files (st_result s).
Proof.
  unfold finish_chart, bindM, get_result, update, lift, ret.
  destruct s as [r tr]. cbn [st_result st_trace].
  destruct (if auto_open then dict_get (py "html") (files r) else None) as [html|].
  - pose proof (open_in_browser_effect w html (State r tr)) as Hopen.
    destruct (_open_in_browser w html (State r tr)) as [[[]|e] s1];
      cbn [snd st_result] in Hopen |- *; [|rewrite Hopen; reflexivity].
    destruct (title_of fig name); cbn [snd st_result files]; [|rewrite Hopen; reflexivity].
    destruct (_detect_chart_type fig); cbn [snd st_result files];
      [|rewrite Hopen; reflexivity].
    destruct (data_points_of fig); cbn [snd st_result files]; rewrite Hopen; reflexivity.
  - destruct (title_of fig name); [|reflexivity].
    destruct (_detect_chart_type fig); [|reflexivity].
    destruct (data_points_of fig); reflexivity.
Qed.

(** What a run of the phases after the script has done when it ends with
    [success] set, started with [success] unset and no file recorded. *)
Lemma phases_effect w fig name auto_open fmts s o s' :
  success (st_result s) = false ->
  files (st_result s) = [] ->
  (export_data_formats w fig (_generate_filename w name) fmts ;;;;
   export_image_formats w fig (_generate_filename w name) fmts ;;;;
   finish_chart w fig name auto_open) s = (o, s') ->
  success (st_result s') = true ->
  (requested (py "html") fmts = true ->
   has_key (py "html") (files (st_result s')) = true)
  /\ has_key (py "png") (files (st_result s'))
     = requested (py "png") fmts && renderedb w fig (image_path w name (py ".png"))
  /\ has_key (py "svg") (files (st_result s'))
     = requested (py "svg") fmts && renderedb w fig (image_path w name (py ".svg")).
Proof.
  intros Hsucc Hfiles Hrun Hdone. unfold bindM in Hrun.
  pose proof (data_formats_effect w fig (_generate_filename w name) fmts s) as Hdata.
  destruct (export_data_formats w fig (_generate_filename w name) fmts s)
    as [[[]|e] s1]; cbn zeta in Hdata;
    [|inversion Hrun; subst; congruence].
  destruct Hdata as [Hs1 [_ [_ [Hhtml [Hpng Hsvg]]]]].
  pose proof (image_formats_effect w fig (_generate_filename w name) fmts s1) as Himg.
  destruct (export_image_formats w fig (_generate_filename w name) fmts s1)
    as [[[]|e] s2]; cbn zeta in Himg;
    [|inversion Hrun; subst; congruence].
  destruct Himg as [_ [_ [_ [Hhtml2 [_ [Hpng2 Hsvg2]]]]]].
  pose proof (finish_chart_files w fig name auto_open s2) as Hfin.
  rewrite Hrun in Hfin. cbn [snd] in Hfin. rewrite Hfin. unfold image_path.
  rewrite Hfiles in Hpng, Hsvg. cbn in Hpng, Hsvg.
  rewrite Hpng2, Hsvg2, Hpng, Hsvg, Hhtml2. cbn [orb].
  repeat split; try reflexivity. exact Hhtml.
Qed.

Lemma body_effect w name sql_query plotly_code auto_open fmts s o s' :
  success (st_result s) = false ->
  files (st_result s) = [] ->
  generate_chart_body w name sql_query plotly_code auto_open fmts s = (o, s') ->
  success (st_result s') = true ->
  exists fig,
    executed w sql_query plotly_code = Returns fig
    /\ fig <> PyNone
    /\ (requested (py "html") fmts = true ->
        has_key (py "html") (files (st_result s')) = true)
    /\ has_key (py "png") (files (st_result s'))
       = requested (py "png") fmts && renderedb w fig (image_path w name (py ".png"))
    /\ has_key (py "svg") (files (st_result s'))
       = requested (py "svg") fmts && renderedb w fig (image_path w name (py ".svg")).
Proof.
  intros Hsucc Hfiles Hrun Hdone. unfold generate_chart_body in Hrun.
  unfold bindM at 1 in Hrun.
  destruct (execute_effect w sql_query plotly_code s) as [tr Hex]. rewrite Hex in Hrun.
  destruct (executed w sql_query plotly_code) as [fig|e];
    [|inversion Hrun; subst; cbn in Hdone; congruence].
  destruct fig as [|f|cls].
  - cbn in Hrun. inversion Hrun; subst. cbn in Hdone. congruence.
  - exists (PyFigure f). split; [reflexivity|]. split; [discriminate|].
    apply (@phases_effect w (PyFigure f) name auto_open fmts
             (State (st_result s) tr) o s'); assumption.
  - exists (PyOther cls). split; [reflexivity|]. split; [discriminate|].
    apply (@phases_effect w (PyOther cls) name auto_open fmts
             (State (st_result s) tr) o s'); assumption.
Qed.

(** *** The renderer does not decide the verdict *)

Lemma open_in_browser_outcome w html s1 s2 :
  fst (_open_in_browser w html s1) = fst (_open_in_browser w html s2).
Proof.
  unfold _open_in_browser, try_except, bindM, lift, emit, print.
  destruct (webbrowser_open w (py "file://" ++ abspath w html)) as [[]|e];
    [reflexivity|]. destruct (is_Exception e); [|reflexivity].
  destruct (exn_str w e); reflexivity.
Qed.

Lemma finish_chart_rel w fig name auto_open s1 s2 :
  same_but_images s1 s2 ->
  fst (finish_chart w fig name auto_open s1) = fst (finish_chart w fig name auto_open s2)
  /\ same_but_images (snd (finish_chart w fig name auto_open s1))
                     (snd (finish_chart w fig name auto_open s2)).
Proof.
  intros [Hs [He [Hc Hh]]]. unfold finish_chart, bindM, get_result, update, lift, ret.
  destruct s1 as [r1 tr1], s2 as [r2 tr2]. cbn [st_result st_trace] in *.
  rewrite Hh.
  destruct (if auto_open then dict_get (py "html") (files r2) else None) as [html|].
  - pose proof (open_in_browser_effect w html (State r1 tr1)) as H1.
    pose proof (open_in_browser_effect w html (State r2 tr2)) as H2.
    pose proof (open_in_browser_outcome w html (State r1 tr1) (State r2 tr2)) as Ho.
    destruct (_open_in_browser w html (State r1 tr1)) as [o1 [q1 t1]].
    destruct (_open_in_browser w html (State r2 tr2)) as [o2 [q2 t2]].
    cbn [fst snd st_result] in *. subst q1 q2 o2.
    destruct o1 as [[]|e]; cbn [fst snd];
      [|split; [reflexivity | repeat split; assumption]].
    destruct (title_of fig name); cbn [fst snd];
      [|split; [reflexivity | repeat split; cbn; assumption]].
    destruct (_detect_chart_type fig); cbn [fst snd];
      [|split; [reflexivity | repeat split; cbn; assumption]].
    destruct (data_points_of fig); cbn [fst snd];
      split; try reflexivity; repeat split; cbn; assumption.
  - cbn [fst snd].
    destruct (title_of fig name); cbn [fst snd];
      [|split; [reflexivity | repeat split; cbn; assumption]].
    destruct (_detect_chart_type fig); cbn [fst snd];
      [|split; [reflexivity | repeat split; cbn; assumption]].
    destruct (data_points_of fig); cbn [fst snd];
      split; try reflexivity; repeat split; cbn; assumption.
Qed.

(** With a renderer that raises nothing uncatchable the image phase always
    returns and changes the image entries only. *)
Lemma image_formats_tame w fig base fmts s :
  catchable (import_kaleido w) ->
  (forall f p, catchable (write_image w f p)) ->
  printable w ->
  exists s', export_image_formats w fig base fmts s = (Returns tt, s')
             /\ same_but_images s' s.
Proof.
  intros Hk Himg Hstr.
  pose proof (image_formats_effect w fig base fmts s) as H.
  assert (Htotal : total (export_image_formats w fig base fmts)).
  { unfold export_image_formats, _export_png, _export_svg.
    apply total_bind; [|intro]; apply total_when;
      (apply total_bind;
       [apply total_export_image_tame; assumption | intros [p|]; auto with engine]). }
  destruct (Htotal s) as [[] Hret].
  destruct (export_image_formats w fig base fmts s) as [o s']. cbn in Hret. subst o.
  exists s'. split; [reflexivity|]. cbn zeta in H.
  destruct H as [H1 [H2 [H3 [_ [H5 _]]]]]. repeat split; assumption.
Qed.

Lemma same_but_images_sym s1 s2 : same_but_images s1 s2 -> same_but_images s2 s1.
Proof. intros [? [? [? ?]]]. repeat split; symmetry; assumption. Qed.

Lemma same_but_images_trans s1 s2 s3 :
  same_but_images s1 s2 -> same_but_images s2 s3 -> same_but_images s1 s3.
Proof.
  intros [? [? [? ?]]] [? [? [? ?]]]. repeat split; etransitivity; eassumption.
Qed.

Lemma same_run_refl A (a : outcome A * state) : same_run a a.
Proof. split; [reflexivity | repeat split; reflexivity]. Qed.

Lemma bindM_same_run A B (m : M A) (k1 k2 : A -> M B) s :
  (forall a s0, same_run (k1 a s0) (k2 a s0)) ->
  same_run (bindM m k1 s) (bindM m k2 s).
Proof.
  intros H. unfold bindM. destruct (m s) as [[a|e] s0]; [apply H | apply same_run_refl].
Qed.

Lemma body_renderer_rel w k img name sql_query plotly_code auto_open fmts s :
  catchable k -> (forall f p, catchable (img f p)) ->
  catchable (import_kaleido w) -> (forall f p, catchable (write_image w f p)) ->
  printable w ->
  same_run
    (generate_chart_body (with_renderer w k img) name sql_query plotly_code
                         auto_open fmts s)
    (generate_chart_body w name sql_query plotly_code auto_open fmts s).
Proof.
  intros Hk Himg Hk0 Himg0 Hstr. unfold generate_chart_body.
  change (_execute_visualization_code (with_renderer w k img))
    with (_execute_visualization_code w).
  change (_generate_filename (with_renderer w k img) name)
    with (_generate_filename w name).
  set (base := _generate_filename w name).
  apply bindM_same_run. intros fig s0.
  assert (Hrest :
    same_run
      ((export_data_formats (with_renderer w k img) fig base fmts ;;;;
        export_image_formats (with_renderer w k img) fig base fmts ;;;;
        finish_chart (with_renderer w k img) fig name auto_open) s0)
      ((export_data_formats w fig base fmts ;;;;
        export_image_formats w fig base fmts ;;;;
        finish_chart w fig name auto_open) s0)).
  { change (export_data_formats (with_renderer w k img)) with (export_data_formats w).
    change (finish_chart (with_renderer w k img)) with (finish_chart w).
    apply bindM_same_run. intros [] s1. unfold bindM.
    destruct (@image_formats_tame (with_renderer w k img) fig base fmts s1 Hk Himg Hstr)
      as [s2' [-> H2']].
    destruct (@image_formats_tame w fig base fmts s1 Hk0 Himg0 Hstr) as [s2 [-> H2]].
    apply finish_chart_rel.
    eapply same_but_images_trans; [exact H2' | apply same_but_images_sym; exact H2]. }
  destruct fig; [apply same_run_refl | exact Hrest | exact Hrest].
Qed.

Lemma generate_chart_renderer_verdict w k img name sql_query plotly_code auto_open fmts :
  catchable k -> (forall f p, catchable (img f p)) ->
  catchable (import_kaleido w) -> (forall f p, catchable (write_image w f p)) ->
  printable w ->
  verdict (generate_chart (with_renderer w k img) name sql_query plotly_code auto_open fmts)
  = verdict (generate_chart w name sql_query plotly_code auto_open fmts).
Proof.
  intros Hk Himg Hk0 Himg0 Hstr. unfold verdict, generate_chart, try_except.
  set (start := State (Result false [] [] None) []).
  destruct (@body_renderer_rel w k img name sql_query plotly_code auto_open
              (match fmts with Some l => l | None => [py "html"; py "json"] end)
              start Hk Himg Hk0 Himg0 Hstr) as [Ho [Hs [He [Hc _]]]].
  destruct (generate_chart_body (with_renderer w k img) _ _ _ _ _ start) as [o1 s1].
  destruct (generate_chart_body w _ _ _ _ _ start) as [o2 s2].
  cbn [fst snd] in *. subst o2.
  destruct o1 as [[]|e]; cbn [fst].
  - rewrite Hs, He, Hc. reflexivity.
  - destruct (is_Exception e); [|reflexivity].
    change (exn_str (with_renderer w k img) e) with (exn_str w e).
    unfold bindM, lift. destruct (exn_str w e); [|reflexivity].
    unfold add_error, update. cbn [fst st_result success errors chart].
    rewrite Hs, He, Hc. reflexivity.
Qed.

Lemma generate_chart_unfold w name sql_query plotly_code auto_open export_formats r :
  fst (generate_chart w name sql_query plotly_code auto_open export_formats) = Returns r ->
  exists o s',
    generate_chart_body w name sql_query plotly_code auto_open
      (effective_formats export_formats) (State (Result false [] [] None) []) = (o, s')
    /\ success r = success (st_result s') /\ files r = files (st_result s')
    /\ chart r = chart (st_result s').
Proof.
  unfold generate_chart, try_except. fold (effective_formats export_formats).
  set (start := State (Result false [] [] None) []).
  destruct (generate_chart_body w name sql_query plotly_code auto_open
              (effective_formats export_formats) start) as [o s'] eqn:Hrun.
  intros H. exists o, s'. split; [reflexivity|].
  destruct o as [a|e].
  - cbn [fst] in H. apply returns_inj in H. subst r. repeat split; reflexivity.
  - destruct (is_Exception e); [|discriminate].
    unfold bindM, lift in H. destruct (exn_str w e); [|discriminate].
    unfold add_error, update in H. cbn [fst st_result] in H.
    apply returns_inj in H. subst r. repeat split; reflexivity.
Qed.

(** C4 (as amended): when a call returns with [success = true], the script
    left a figure; the mapping has the [html] entry if [html] was among the
    requested formats; a requested [png] or [svg] has its entry exactly when
    the renderer produced that image; and with any other renderer that
    raises nothing uncatchable (one that is missing, one that fails), in a
    world where every exception has a text, the call returns the same
    success flag, errors and summary. *)
Theorem generate_chart_formats (w : world) (name sql_query plotly_code : pystr)
  (auto_open : bool) (export_formats : option (list pystr)) (r : result) :
  fst (generate_chart w name sql_query plotly_code auto_open export_formats) = Returns r ->
  success r = true ->
  let fmts := effective_formats export_formats in
  (exists fig,
     executed w sql_query plotly_code = Returns fig
     /\ fig <> PyNone
     /\ (requested (py "html") fmts = true -> has_key (py "html") (files r) = true)
     /\ (requested (py "png") fmts = true ->
         (has_key (py "png") (files r) = true
          <-> rendered w fig (image_path w name (py ".png"))))
     /\ (requested (py "svg") fmts = true ->
         (has_key (py "svg") (files r) = true
          <-> rendered w fig (image_path w name (py ".svg")))))
  /\ (forall k img,
        catchable k -> (forall f p, catchable (img f p)) ->
        catchable (import_kaleido w) -> (forall f p, catchable (write_image w f p)) ->
        printable w ->
        verdict (generate_chart (with_renderer w k img) name sql_query plotly_code
                                auto_open export_formats)
        = Returns (true, errors r, chart r)).
Proof.
  intros Hret Hsucc fmts. split.
  - destruct (generate_chart_unfold _ _ _ _ _ _ Hret) as [o [s' [Hrun [Hs [Hf _]]]]].
    rewrite Hs in Hsucc.
    destruct (@body_effect w name sql_query plotly_code auto_open fmts
                (State (Result false [] [] None) []) o s'
                eq_refl eq_refl Hrun Hsucc)
      as [fig [Hex [Hfig [Hhtml [Hpng Hsvg]]]]].
    exists fig. rewrite Hf.
    split; [exact Hex|]. split; [exact Hfig|]. split; [exact Hhtml|].
    split; intros Hreq; rewrite <- renderedb_spec.
    + rewrite Hpng, Hreq. reflexivity.
    + rewrite Hsvg, Hreq. reflexivity.
  - intros k img Hk Himg Hk0 Himg0 Hstr.
    rewrite (@generate_chart_renderer_verdict w k img name sql_query plotly_code
               auto_open export_formats Hk Himg Hk0 Himg0 Hstr).
    unfold verdict. rewrite Hret, Hsucc. reflexivity.
Qed.

Lemma generate_chart_formats_witness :
  exists r,
    fst (generate_chart (studio bar_script) (py "sales")
           (py "SELECT region, total FROM sales")
           (py "fig = px.bar(df, x='region', y='total')") true
           (Some [py "html"; py "json"; py "png"])) = Returns r
    /\ has_key (py "html") (files r) = true
    /\ ~ has_key (py "png") (files r) = true.
Proof.
  eexists. split; [vm_compute; reflexivity|].
  match goal with |- has_key _ (files ?r0) = true /\ _ =>
    destruct (@generate_chart_formats (studio bar_script) (py "sales")
                (py "SELECT region, total FROM sales")
                (py "fig = px.bar(df, x='region', y='total')") true
                (Some [py "html"; py "json"; py "png"]) r0)
      as [[fig [Hex [_ [Hhtml [Hpng _]]]]] _]
  end.
  - vm_compute. reflexivity.
  - reflexivity.
  - split; [apply Hhtml; reflexivity|].
    intros H. apply Hpng in H; [|reflexivity]. destruct H as [H _].
    vm_compute in H. discriminate.
Defined.

(** C4, the claim as stated fails: asked for [png] only, with no renderer
    installed, the call returns [success = true] with an empty mapping: no
    [html] entry, and the flag of a success all the same. And a renderer
    that fails with an exception whose [__str__] raises does turn the
    generation into a failure: the warning cannot be formatted, and the
    call raises where it returns [success = true] without that renderer. *)
Lemma generate_chart_succeeds_without_files :
  (exists r,
     fst (generate_chart (studio bar_script) (py "sales")
            (py "SELECT region, total FROM sales")
            (py "fig = px.bar(df, x='region', y='total')") true
            (Some [py "png"])) = Returns r
     /\ success r = true /\ files r = [])
  /\ (exists r,
        fst (generate_chart (with_str (studio bar_script) raise_self) (py "sales")
               (py "SELECT region, total FROM sales")
               (py "fig = px.bar(df, x='region', y='total')") false
               (Some [py "html"; py "png"])) = Returns r
        /\ success r = true /\ has_key (py "html") (files r) = true)
  /\ fst (generate_chart
            (with_renderer (with_str (studio bar_script) raise_self)
               (Returns tt) (fun _ _ => Raises stubborn))
            (py "sales") (py "SELECT region, total FROM sales")
            (py "fig = px.bar(df, x='region', y='total')") false
            (Some [py "html"; py "png"]))
     = Raises stubborn.
Proof.
  split; [eexists; split; [vm_compute; reflexivity | repeat split; reflexivity]|].
  split; [|vm_compute; reflexivity].
  eexists. split; [vm_compute; reflexivity | split; reflexivity].
Qed.

(** ** Presenter: quick preview *)


Lemma catchable_bind A B (m : outcome A) (k : A -> outcome B) :
  catchable m -> (forall a, catchable (k a)) -> catchable (bind m k).
Proof. destruct m; simpl; auto. Qed.

Lemma catchable_get v key default : catchable (get v key default).
Proof. destruct v; simpl; try reflexivity. destruct (lookup key kv); exact I. Qed.

Lemma catchable_len v : catchable (len v).
Proof. destruct v; simpl; exact I || reflexivity. Qed.

Lemma catchable_iter v : catchable (iter v).
Proof. destruct v; simpl; exact I || reflexivity. Qed.

Lemma catchable_index v i : catchable (index v i).
Proof.
  destruct v; simpl; try reflexivity.
  - destruct (seq_index s i); exact I || reflexivity.
  - destruct (seq_index l i); exact I || reflexivity.
Qed.

Lemma catchable_of_builtin r : catchable (of_builtin r).
Proof. destruct r; exact I || reflexivity. Qed.

Lemma catchable_title_method rt v : catchable (title_method rt v).
Proof. destruct v; simpl; exact I || reflexivity. Qed.

Create HintDb preview.

#[local] Hint Resolve catchable_get catchable_len catchable_iter catchable_index
  catchable_of_builtin catchable_title_method : preview.

Ltac preview_step :=
  repeat first
    [ exact I
    | solve [auto with preview]
    | apply catchable_bind; [|intro]
    | match goal with
      | |- catchable (if ?b then _ else _) => destruct b
      | |- catchable (match ?v with _ => _ end) => destruct v
      end ].

Lemma catchable_preview_x rt x_data : catchable (preview_x rt x_data).
Proof. unfold preview_x. preview_step. Qed.

Lemma catchable_preview_y rt y_data : catchable (preview_y rt y_data).
Proof. unfold preview_y. preview_step. Qed.

#[local] Hint Resolve catchable_preview_x catchable_preview_y : preview.

Lemma catchable_preview_title rt doc : catchable (preview_title rt doc).
Proof. unfold preview_title. preview_step. Qed.

Lemma catchable_preview_traces rt v : catchable (preview_traces rt v).
Proof. unfold preview_traces. preview_step. Qed.

#[local] Hint Resolve catchable_preview_title catchable_preview_traces : preview.






(** ** Round trip between the summary and the preview *)

Lemma data_formats_chart w fig base fmts s :
  chart (st_result (snd (export_data_formats w fig base fmts s))) = chart (st_result s).
Proof.
  unfold export_data_formats, _export_json, _export_html, when, bindM, lift,
    set_file, update, emit, ret.
  destruct s as [[sc fs er ch] tr].
  destruct (requested (py "json") fmts); destruct (requested (py "html") fmts);
    cbn [snd st_result st_trace chart];
    repeat match goal with
           | |- context [match ?o with Returns _ => _ | Raises _ => _ end] =>
               destruct o as [?|?]; cbn [snd st_result st_trace chart]
           end; reflexivity.
Qed.

Lemma image_formats_chart w fig base fmts s :
  chart (st_result (snd (export_image_formats w fig base fmts s))) = chart (st_result s).
Proof.
  unfold export_image_formats, _export_png, _export_svg, when, bindM, set_file,
    update, ret.
  assert (Hstep : forall ext label key s0,
            chart (st_result (snd
              (let (o, s1) := _export_image w fig base ext label s0 in
               match o with
               | Returns (Some p0) =>
                   (Returns tt,
                    State (Result (success (st_result s1))
                             (dict_set key p0 (files (st_result s1)))
                             (errors (st_result s1)) (chart (st_result s1)))
                          (st_trace s1))
               | Returns None => (Returns tt, s1)
               | Raises e => (Raises e, s1)
               end))) = chart (st_result s0)).
  { intros ext label key s0.
    pose proof (export_image_effect w fig base ext label s0) as H.
    destruct (_export_image w fig base ext label s0) as [[[p0|]|e] s1];
      cbn [snd st_result chart];
      [destruct H as [H _]|destruct H as [H _]|]; rewrite H; reflexivity. }
  destruct (requested (py "png") fmts).
  - specialize (Hstep (py ".png") (py "PNG") (py "png") s) as Hpng.
    destruct (_export_image w fig base (py ".png") (py "PNG") s) as [[[p0|]|e] s1];
      cbn [snd] in Hpng |- *; try exact Hpng;
      (destruct (requested (py "svg") fmts); [|exact Hpng]);
      rewrite <- Hpng;
      match goal with |- context [_export_image w fig base ?e ?l ?s0] =>
        specialize (Hstep e l (py "svg") s0) as Hsvg;
        destruct (_export_image w fig base e l s0) as [[[q|]|e'] s2]
      end; cbn [snd st_result chart] in Hsvg |- *; exact Hsvg.
  - destruct (requested (py "svg") fmts); [|reflexivity].
    specialize (Hstep (py ".svg") (py "SVG") (py "svg") s) as Hsvg.
    destruct (_export_image w fig base (py ".svg") (py "SVG") s) as [[[q|]|e'] s2];
      cbn [snd st_result chart] in Hsvg |- *; exact Hsvg.
Qed.

(** The summary, once there, was read off the figure. *)
Lemma finish_chart_summary w fig name auto_open s cd :
  chart (st_result s) = None ->
  chart (st_result (snd (finish_chart w fig name auto_open s))) = Some cd ->
  title_of fig name = Returns (title cd)
  /\ _detect_chart_type fig = Returns (chart_type cd)
  /\ data_points_of fig = Returns (data_points cd).
Proof.
  intros Hnone. unfold finish_chart, bindM, get_result, update, lift, ret.
  destruct s as [r tr]. cbn [st_result st_trace] in *.
  assert (Hopen : forall m : M unit,
            (forall s0, st_result (snd (m s0)) = st_result s0) ->
            chart (st_result (snd
              (let (o, s') := m (State r tr) in
               match o with
               | Returns _ =>
                   let (o0, s'0) :=
                     (Returns tt,
                      State (Result true (files (st_result s')) (errors (st_result s'))
                               (chart (st_result s'))) (st_trace s')) in
                   match o0 with
                   | Returns _ =>
                       let (o1, s'1) := (title_of fig name, s'0) in
                       match o1 with
                       | Returns a1 =>
                           let (o2, s'2) := (_detect_chart_type fig, s'1) in
                           match o2 with
                           | Returns a2 =>
                               let (o3, s'3) := (data_points_of fig, s'2) in
                               match o3 with
                               | Returns a3 =>
                                   (Returns tt,
                                    State (Result (success (st_result s'3))
                                             (files (st_result s'3))
                                             (errors (st_result s'3))
                                             (Some (ChartData a1 a2 a3)))
                                          (st_trace s'3))
                               | Raises e => (Raises e, s'3)
                               end
                           | Raises e => (Raises e, s'2)
                           end
                       | Raises e => (Raises e, s'1)
                       end
                   | Raises e => (Raises e, s'0)
                   end
               | Raises e => (Raises e, s')
               end))) = Some cd ->
            title_of fig name = Returns (title cd)
            /\ _detect_chart_type fig = Returns (chart_type cd)
            /\ data_points_of fig = Returns (data_points cd)).
  { intros m Hm. specialize (Hm (State r tr)).
    destruct (m (State r tr)) as [[[]|e] s1]; cbn [snd st_result] in Hm;
      [|cbn; rewrite Hm, Hnone; discriminate].
    destruct (title_of fig name); [|cbn; rewrite Hm, Hnone; discriminate].
    destruct (_detect_chart_type fig); [|cbn; rewrite Hm, Hnone; discriminate].
    destruct (data_points_of fig); [|cbn; rewrite Hm, Hnone; discriminate].
    cbn. intros H. inversion H. repeat split; reflexivity. }
  destruct (if auto_open then dict_get (py "html") (files r) else None) as [html|].
  - apply (Hopen (_open_in_browser w html)). apply open_in_browser_effect.
  - apply (Hopen (ret tt)). reflexivity.
Qed.

Lemma generate_chart_summary w name sql_query plotly_code auto_open export_formats r cd :
  fst (generate_chart w name sql_query plotly_code auto_open export_formats) = Returns r ->
  chart r = Some cd ->
  exists fig,
    executed w sql_query plotly_code = Returns fig
    /\ title_of fig name = Returns (title cd)
    /\ _detect_chart_type fig = Returns (chart_type cd)
    /\ data_points_of fig = Returns (data_points cd).
Proof.
  intros Hret Hcd.
  destruct (generate_chart_unfold _ _ _ _ _ _ Hret) as [o [s' [Hrun [_ [_ Hc]]]]].
  rewrite Hc in Hcd. clear Hc Hret.
  unfold generate_chart_body in Hrun. unfold bindM at 1 in Hrun.
  destruct (execute_effect w sql_query plotly_code (State (Result false [] [] None) []))
    as [tr Hex].
  rewrite Hex in Hrun. cbn [st_result] in Hrun.
  destruct (executed w sql_query plotly_code) as [fig|e];
    [|inversion Hrun; subst; discriminate].
  exists fig. split; [reflexivity|].
  assert (Hrest : forall o s',
    (export_data_formats w fig (_generate_filename w name)
       (effective_formats export_formats) ;;;;
     export_image_formats w fig (_generate_filename w name)
       (effective_formats export_formats) ;;;;
     finish_chart w fig name auto_open) (State (Result false [] [] None) tr) = (o, s') ->
    chart (st_result s') = Some cd ->
    title_of fig name = Returns (title cd)
    /\ _detect_chart_type fig = Returns (chart_type cd)
    /\ data_points_of fig = Returns (data_points cd)).
  { clear. intros o s' Hrun Hcd. unfold bindM in Hrun.
    pose proof (data_formats_chart w fig (_generate_filename w name)
                  (effective_formats export_formats)
                  (State (Result false [] [] None) tr)) as Hd.
    destruct (export_data_formats w fig (_generate_filename w name)
                (effective_formats export_formats)
                (State (Result false [] [] None) tr)) as [[[]|e] s1];
      cbn [snd st_result chart] in Hd;
      [|inversion Hrun; subst; congruence].
    pose proof (image_formats_chart w fig (_generate_filename w name)
                  (effective_formats export_formats) s1) as Hi.
    destruct (export_image_formats w fig (_generate_filename w name)
                (effective_formats export_formats) s1) as [[[]|e] s2];
      cbn [snd] in Hi; [|inversion Hrun; subst; congruence].
    apply (@finish_chart_summary w fig name auto_open s2 cd); [congruence|].
    rewrite Hrun. exact Hcd. }
  destruct fig as [|f|cls]; [|exact (Hrest o s' Hrun Hcd)..].
  cbn in Hrun. inversion Hrun; subst. discriminate.
Qed.

Lemma title_of_raises fig name t : title_of fig name <> Returns t.
Proof. destruct fig; discriminate. Qed.

(** C8: the summary that the round trip starts from is never there. After
    [success] is set the title is asked of the [Title] object of the layout
    with a [get] that the object does not have; the [AttributeError] ends the
    [try] body before [chart_data] is assigned. So whatever the inputs, a
    result that [generate_chart] returns carries no summary to compare the
    preview with. *)
Theorem generate_chart_summary_missing (w : world) (name sql_query plotly_code : pystr)
  (auto_open : bool) (export_formats : option (list pystr)) (r : result) :
  fst (generate_chart w name sql_query plotly_code auto_open export_formats) = Returns r ->
  chart r = None.
Proof.
  intros Hret. destruct (chart r) as [cd|] eqn:Hcd; [|reflexivity].
  destruct (generate_chart_summary _ _ _ _ _ _ Hret Hcd) as [fig [_ [Htitle _]]].
  exfalso. apply (title_of_raises _ _ Htitle).
Qed.

(** At the failing input: the bar figure is exported and [success] is set,
    the result has the error of the missing [get] and no summary, although
    the preview of the structured file shows the title and the two
    points. *)
Lemma generate_chart_summary_missing_witness :
  exists r,
    fst (generate_chart (studio bar_script) (py "sales")
           (py "SELECT region, total FROM sales")
           (py "fig = px.bar(df, x='region', y='total', title='Sales by region')") true None) = Returns r
    /\ success r = true
    /\ dict_get (py "json") (files r) = Some bar_json_path
    /\ errors r = [py "Chart generation failed: 'Title' object has no attribute 'get'"]
    /\ chart r = None
    /\ display_chart_quick_preview ascii_runtime
         (json_only bar_json_path (to_json bar_figure)) bar_json_path
       = Returns (join nl [chart_emoji ++ py " Sales by region";
                           py "-------------------";
                           py "Chart Type: Bar";
                           py "Data Points: 2";
                           py "X Values: north, south";
                           py "Y Values: 10, 20"]).
Proof.
  eexists. split; [vm_compute; reflexivity|].
  split; [reflexivity|]. split; [vm_compute; reflexivity|].
  split; [vm_compute; reflexivity|].
  split; [|vm_compute; reflexivity].
  eapply (@generate_chart_summary_missing (studio bar_script) (py "sales")
            (py "SELECT region, total FROM sales")
            (py "fig = px.bar(df, x='region', y='total', title='Sales by region')") true None).
  vm_compute. reflexivity.
Defined.

(** ** Cases of the test suite and of the design notes *)

Example validate_sql_accepts :
  ChartUtils.validate_sql_query (py "SELECT * FROM customers LIMIT 5") = (true, []).
Proof. vm_compute. reflexivity. Qed.

Example validate_sql_rejects :
  ChartUtils.validate_sql_query (py "DROP TABLE customers")
  = (false, py "Query contains potentially dangerous keyword: drop").
Proof. vm_compute. reflexivity. Qed.

Example validate_sql_keyword_inside_word :
  ChartUtils.validate_sql_query (py "select created_at from updates") = (true, []).
Proof. vm_compute. reflexivity. Qed.

Example validate_sql_unbalanced :
  ChartUtils.validate_sql_query (py "select count(* from t")
  = (false, py "Mismatched parentheses in query").
Proof. vm_compute. reflexivity. Qed.

Example validate_plotly_accepts :
  ChartUtils.validate_plotly_code (py "fig = px.bar(df, x='col1', y='col2')") = (true, []).
Proof. vm_compute. reflexivity. Qed.

Example validate_plotly_rejects :
  ChartUtils.validate_plotly_code (py "import os; os.system('rm -rf /')")
  = (false, py "Code contains potentially dangerous pattern: import os").
Proof. vm_compute. reflexivity. Qed.

Example validate_plotly_open_call :
  fst (ChartUtils.validate_plotly_code (py "fig = px.bar(df); open('/etc/passwd')")) = false.
Proof. vm_compute. reflexivity. Qed.

Example str_of_zero : str_of_Z 0 = py "0".
Proof. vm_compute. reflexivity. Qed.

Example cleanup_week :
  VisualizationEngine.deleted_count
    (VisualizationEngine.cleanup_old_charts 1000000%Q aged_dir 7) = 2%Z.
Proof. vm_compute. reflexivity. Qed.

Example recent_one :
  map VisualizationEngine.name (VisualizationEngine.list_recent_charts three_charts 1)
  = [py "b_20240102_000000"].
Proof. vm_compute. reflexivity. Qed.

Example preview_bar :
  display_chart_quick_preview ascii_runtime
    (json_only bar_json_path (to_json bar_figure)) bar_json_path
  = Returns (join nl [chart_emoji ++ py " Sales by region";
                      py "-------------------";
                      py "Chart Type: Bar";
                      py "Data Points: 2";
                      py "X Values: north, south";
                      py "Y Values: 10, 20"]).
Proof. vm_compute. reflexivity. Qed.

Example preview_not_an_object :
  display_chart_quick_preview ascii_runtime (fun _ => Document (JList [])) bar_json_path
  = Returns (chart_emoji ++ py " Error reading chart: 'list' object has no attribute 'get'").
Proof. vm_compute. reflexivity. Qed.

Example strip_both_sides : strip (py "  select 1 " ++ [10%N]) = py "select 1".
Proof. vm_compute. reflexivity. Qed.

Example path_join_plain :
  path_join (py "output/charts") (py "a.html") = py "output/charts/a.html".
Proof. vm_compute. reflexivity. Qed.

Example path_join_slash : path_join (py "out/") (py "a.html") = py "out/a.html".
Proof. vm_compute. reflexivity. Qed.

Example slice_negative : slice_to (-2) [1; 2; 3]%nat = [1]%nat.
Proof. reflexivity. Qed.

Example slice_beyond : slice_to 5 [1; 2; 3]%nat = [1; 2; 3]%nat.
Proof. reflexivity. Qed.

Example filename_cleaned :
  _generate_filename (studio bar_script) (py "sales by region!")
  = py "salesbyregion_20240101_120000".
Proof. vm_compute. reflexivity. Qed.

Example generate_default_formats :
  generate_chart (studio bar_script) (py "sales") (py "SELECT region, total FROM sales")
    (py "fig = px.bar(df, x='region', y='total')") true None
  = (Returns
       (Result true
          [(py "json", py "output/charts/sales_20240101_120000.json");
           (py "html", py "output/charts/sales_20240101_120000.html")]
          [py "Chart generation failed: 'Title' object has no attribute 'get'"]
          None),
     [WroteJson (py "output/charts/sales_20240101_120000.json") (to_json bar_figure);
      WroteHtml (py "output/charts/sales_20240101_120000.html");
      OpenedBrowser (py "file:///srv/agent/output/charts/sales_20240101_120000.html")]).
Proof. vm_compute. reflexivity. Qed.

Example generate_without_renderer :
  generate_chart (studio bar_script) (py "sales") (py "SELECT region, total FROM sales")
    (py "fig = px.bar(df, x='region', y='total')") false (Some [py "png"])
  = (Returns
       (Result true []
          [py "Chart generation failed: 'Title' object has no attribute 'get'"]
          None),
     [Printed (py "Warning: kaleido not installed, PNG export unavailable")]).
Proof. vm_compute. reflexivity. Qed.

Example generate_no_fig_variable :
  generate_chart (studio (Returns (None, None))) (py "sales")
    (py "SELECT region, total FROM sales") (py "px.bar(df)") true None
  = (Returns (Result false [] [py "Failed to generate figure"] None),
     [Printed (py "Warning: No 'fig' variable found in visualization code")]).
Proof. vm_compute. reflexivity. Qed.

Example generate_not_a_figure :
  fst (generate_chart (studio (Returns (Some (PyOther (py "int")), None))) (py "sales")
         (py "SELECT 1") (py "fig = 5 # px.") true None)
  = Returns (Result false []
               [py "Chart generation failed: The fig parameter must be a dict or Figure."]
               None).
Proof. vm_compute. reflexivity. Qed.

(** With no format requested nothing touches the object before [success]
    is set; the error of the summary is recorded next to it. *)
Example generate_success_then_error :
  fst (generate_chart (studio (Returns (Some (PyOther (py "int")), None))) (py "sales")
         (py "SELECT 1") (py "fig = 5 # px.") true (Some []))
  = Returns (Result true []
               [py "Chart generation failed: 'int' object has no attribute 'layout'"]
               None).
Proof. vm_compute. reflexivity. Qed.

Example table_of_region_frame :
  create_ascii_chart region_frame (py "table")
  = Returns (join nl [clipboard_emoji ++ py " Data Preview:";
                      py "----------------------------------------";
                      py "region: east | profit: 10";
                      py "region: west | profit: -5"]).
Proof. vm_compute. reflexivity. Qed.

(** A negative value is drawn with no block: [int] rounds toward zero and a
    string repeated a negative number of times is empty. *)
Example bar_chart_negative_value :
  create_ascii_chart region_frame (py "bar")
  = Returns (join nl
       [chart_emoji ++ py " profit by region (Top 10)";
        repeat_char 45%N 50;
        ljust 15 (py "east") ++ [32%N; box_bar] ++ repeat full_block 30 ++ py " 10";
        ljust 15 (py "west") ++ [32%N; box_bar] ++ repeat 32%N 30 ++ py " -5"]).
Proof. vm_compute. reflexivity. Qed.

Example bar_chart_duplicate_columns :
  create_ascii_chart (Frame [py "region"; py "total"; py "total"]
                            [[CStr (py "east"); CInt 10; CInt 20]]) (py "bar")
  = Raises (no_attribute (py "DataFrame") (py "dtype")).
Proof. vm_compute. reflexivity. Qed.

Example list_recent_charts_dangling :
  Disk.list_recent_charts dangling_disk 10
  = Raises (Disk.OSError (py "[Errno 2] No such file or directory")).
Proof. vm_compute. reflexivity. Qed.

Example bar_chart_of_labels_only :
  create_ascii_chart (Frame [py "region"] [[CStr (py "east")]]) (py "bar")
  = Returns (join nl [clipboard_emoji ++ py " Data Preview:";
                      py "----------------------------------------";
                      py "region: east"]).
Proof. vm_compute. reflexivity. Qed.

Example preview_long_series :
  display_chart_quick_preview ascii_runtime
    (fun _ => Document
       (JDict [(py "data",
                JList [JDict [(py "type", JStr (py "scatter"));
                              (py "x", JList (map JInt [1; 2; 3; 4; 5; 6]%Z));
                              (py "y", JList (map JInt [30; 10; 20; 60; 50; 40]%Z))]])]))
    bar_json_path
  = Returns (join nl [chart_emoji ++ py " Untitled Chart";
                      py "------------------";
                      py "Chart Type: Scatter";
                      py "Data Points: 6";
                      py "X Range: 1 to 6";
                      py "Y Range: 10 to 60"]).
Proof. vm_compute. reflexivity. Qed.

Example preview_missing_file :
  display_chart_quick_preview ascii_runtime (fun _ => Absent) bar_json_path
  = Returns (chart_emoji ++ py " Chart file not found").
Proof. reflexivity. Qed.

(** * Further properties of the repository *)

(** X1: the listing for a smaller limit is the start of the listing for a
    larger one. *)
Theorem list_recent_charts_prefix (d : fs) (n m : Z) :
  (0 <= n <= m)%Z ->
  VisualizationEngine.list_recent_charts d n
  = firstn (Z.to_nat n) (VisualizationEngine.list_recent_charts d m).
Proof.
  intros [Hn Hm]. unfold VisualizationEngine.list_recent_charts.
  destruct (listing d) as [l|]; [|rewrite firstn_nil; reflexivity].
  rewrite firstn_map. f_equal. unfold slice_to.
  destruct (n <? 0)%Z eqn:En; [apply Z.ltb_lt in En; lia|].
  destruct (m <? 0)%Z eqn:Em; [apply Z.ltb_lt in Em; lia|].
  rewrite firstn_firstn. f_equal. lia.
Qed.

Lemma list_recent_charts_prefix_witness :
  VisualizationEngine.list_recent_charts three_charts 1
  = firstn 1 (VisualizationEngine.list_recent_charts three_charts 2).
Proof. apply (@list_recent_charts_prefix three_charts 1 2). lia. Defined.

Lemma disk_insert_desc_In (x y : Disk.float * Disk.entry) l :
  In y (Disk.insert_desc x l) <-> y = x \/ In y l.
Proof.
  induction l as [|h t IH]; simpl.
  - intuition congruence.
  - destruct (Disk.flt (fst x) (fst h)); simpl; rewrite ?IH; intuition congruence.
Qed.

Lemma disk_sort_desc_In (y : Disk.float * Disk.entry) l :
  In y (Disk.sort_desc l) <-> In y l.
Proof.
  induction l as [|h t IH]; simpl; [tauto|].
  rewrite disk_insert_desc_In, IH. intuition congruence.
Qed.

Lemma disk_insert_desc_length (x : Disk.float * Disk.entry) l :
  List.length (Disk.insert_desc x l) = S (List.length l).
Proof.
  induction l as [|h t IH]; simpl; [reflexivity|].
  destruct (Disk.flt (fst x) (fst h)); simpl; congruence.
Qed.

Lemma disk_sort_desc_length (l : list (Disk.float * Disk.entry)) :
  List.length (Disk.sort_desc l) = List.length l.
Proof.
  induction l as [|h t IH]; simpl; [reflexivity|].
  rewrite disk_insert_desc_length. congruence.
Qed.

(** The key pass goes through when every entry can be stat'ed. *)
Lemma sort_keys_returns (l : list Disk.entry) :
  (forall f, In f l -> stat_ok f = true) ->
  exists keyed, Disk.sort_keys l = Returns keyed /\ map snd keyed = l.
Proof.
  induction l as [|f l IH]; intros Hok.
  - exists []. split; reflexivity.
  - destruct IH as [keyed [Hk Hs]]; [intros g Hg; apply Hok; right; exact Hg|].
    pose proof (Hok f (or_introl eq_refl)) as Hf. unfold stat_ok in Hf.
    cbn [Disk.sort_keys]. unfold Disk.getmtime.
    destruct (Disk.e_stat f) as [[mtime sz]|e]; [|discriminate].
    cbn [bind fst]. rewrite Hk. cbn [bind].
    eexists. split; [reflexivity|]. cbn [map snd]. rewrite Hs. reflexivity.
Qed.

Lemma for_each_returns (A B : Type) (body : A -> outcome B) (l : list A) :
  (forall a, In a l -> exists b, body a = Returns b) ->
  exists bs,
    Disk.for_each body l = Returns bs
    /\ List.length bs = List.length l
    /\ forall a, In a l -> exists b, In b bs /\ body a = Returns b.
Proof.
  induction l as [|a l IH]; intros Hok.
  - exists []. split; [reflexivity|]. split; [reflexivity|]. intros a [].
  - destruct IH as [bs [Hbs [Hlen Hin]]]; [intros x Hx; apply Hok; right; exact Hx|].
    destruct (Hok a (or_introl eq_refl)) as [b Hb].
    cbn [Disk.for_each]. rewrite Hb. cbn [bind]. rewrite Hbs. cbn [bind].
    exists (b :: bs). split; [reflexivity|]. split; [simpl; congruence|].
    intros x [<-|Hx].
    + exists b. split; [left; reflexivity | exact Hb].
    + destruct (Hin x Hx) as [b' [Hb' Hx']]. exists b'. split; [right; exact Hb' | exact Hx'].
Qed.

(** X2: where the output directory can be listed and every [.html] entry can
    be stat'ed at a time the platform has a date for, the listing for a
    limit [n >= 0] returns [min(n, h)] records, [h] being the number of
    [.html] entries; when the limit is at least [h], every [.html] entry has
    its record, with its path, time and size. *)
Theorem list_recent_charts_complete (d : Disk.disk) (l : list Disk.entry) (n : Z) :
  Disk.present d = true ->
  Disk.listdir d = Returns l ->
  (forall f, In f l -> html_entry f = true ->
     exists mtime sz,
       Disk.e_stat f = Returns (mtime, sz)
       /\ Disk.fromtimestamp d mtime = Returns tt) ->
  (0 <= n)%Z ->
  let h := List.length (filter html_entry l) in
  exists records,
    Disk.list_recent_charts d n = Returns records
    /\ List.length records = Nat.min (Z.to_nat n) h
    /\ ((Z.of_nat h <= n)%Z ->
        forall f, In f l -> html_entry f = true ->
          exists r, In r records
                    /\ Disk.html_path r = path_join (Disk.output_dir d) (Disk.e_name f)
                    /\ Disk.e_stat f = Returns (Disk.modified r, Disk.size r)).
Proof.
  intros Hyes Hl Hstat Hn h. unfold Disk.list_recent_charts.
  rewrite Hyes, Hl. cbn [negb bind].
  change (filter (fun f => endswith (Disk.e_name f) (py ".html")) l)
    with (filter html_entry l).
  assert (Hhtml : forall f, In f (filter html_entry l) ->
            exists mtime sz,
              Disk.e_stat f = Returns (mtime, sz)
              /\ Disk.fromtimestamp d mtime = Returns tt).
  { intros f Hf. apply filter_In in Hf. apply Hstat; tauto. }
  destruct (sort_keys_returns (filter html_entry l)) as [keyed [Hkeyed Hsnd]].
  { intros f Hf. destruct (Hhtml f Hf) as [mtime [sz [Hst _]]].
    unfold stat_ok. rewrite Hst. reflexivity. }
  rewrite Hkeyed. cbn [bind].
  set (sorted := map snd (Disk.sort_desc keyed)).
  assert (Hin : forall f, In f sorted <-> In f (filter html_entry l)).
  { intros f. unfold sorted. rewrite <- Hsnd, !in_map_iff. split.
    - intros [x [Hx Hx']]. exists x. split; [exact Hx|]. apply disk_sort_desc_In. exact Hx'.
    - intros [x [Hx Hx']]. exists x. split; [exact Hx|]. apply disk_sort_desc_In. exact Hx'. }
  assert (Hlen : List.length sorted = h).
  { unfold sorted, h. rewrite length_map, disk_sort_desc_length, <- Hsnd, length_map.
    reflexivity. }
  assert (Hbody : forall f, In f sorted ->
            exists r, Disk.chart_info_of d l f = Returns r
                      /\ Disk.html_path r = path_join (Disk.output_dir d) (Disk.e_name f)
                      /\ Disk.e_stat f = Returns (Disk.modified r, Disk.size r)).
  { intros f Hf. destruct (Hhtml f (proj1 (Hin f) Hf)) as [mtime [sz [Hst Hdate]]].
    unfold Disk.chart_info_of, Disk.getmtime, Disk.getsize. rewrite Hst. cbn [bind fst snd].
    rewrite Hdate. cbn [bind]. eexists. split; [reflexivity|]. split; reflexivity. }
  unfold slice_to. destruct (n <? 0)%Z eqn:En; [apply Z.ltb_lt in En; lia|].
  destruct (@for_each_returns _ _ (Disk.chart_info_of d l) (firstn (Z.to_nat n) sorted))
    as [records [Hrec [Hreclen Hrecin]]].
  { intros f Hf. destruct (Hbody f (firstn_incl _ _ _ Hf)) as [r [Hr _]].
    exists r. exact Hr. }
  exists records. split; [exact Hrec|]. split.
  - rewrite Hreclen, length_firstn, Hlen. reflexivity.
  - intros Hall f Hf Hh.
    assert (Hs : In f (firstn (Z.to_nat n) sorted)).
    { rewrite firstn_all2; [|rewrite Hlen; lia]. apply Hin. apply filter_In. tauto. }
    destruct (Hrecin f Hs) as [r [Hr Hfr]]. exists r. split; [exact Hr|].
    destruct (Hbody f (firstn_incl _ _ _ Hs)) as [r' [Hr' Hfields]].
    rewrite Hfr in Hr'. apply returns_inj in Hr'. subst r'. exact Hfields.
Qed.

Lemma list_recent_charts_complete_witness :
  exists records,
    Disk.list_recent_charts sound_disk 10 = Returns records
    /\ List.length records = 3%nat.
Proof.
  destruct (@list_recent_charts_complete sound_disk _ 10 eq_refl eq_refl)
    as [records [Hrec [Hlen _]]].
  - intros f Hin _. simpl in Hin.
    destruct Hin as [<-|[<-|[<-|[<-|[]]]]]; do 2 eexists; split; reflexivity.
  - lia.
  - exists records. split; [exact Hrec | exact Hlen].
Defined.

(** What a run of [cleanup_old_charts] leaves and counts, entry by entry. *)
Lemma cleanup_old_charts_filter (now : Q) (d : fs) (l : list file) (keep_days : Z) :
  listing d = Some l ->
  NoDup (map f_name l) ->
  let st := VisualizationEngine.cleanup_old_charts now d keep_days in
  VisualizationEngine.remaining st
  = filter (fun f => negb (evicted (cutoff_of now keep_days) f)) l
  /\ VisualizationEngine.deleted_count st
     = Z.of_nat (List.length (filter (evicted (cutoff_of now keep_days)) l)).
Proof.
  intros Hl Hnd. unfold VisualizationEngine.cleanup_old_charts. rewrite Hl.
  apply (@cleanup_loop (output_dir d) (cutoff_of now keep_days) l []
           (VisualizationEngine.CleanupState 0 l [])); [exact Hnd | reflexivity | reflexivity].
Qed.

Lemma filter_filter_same (A : Type) (f : A -> bool) (l : list A) :
  filter f (filter f l) = filter f l.
Proof.
  induction l as [|x l IH]; simpl; [reflexivity|].
  destruct (f x) eqn:E; simpl; rewrite ?E, IH; reflexivity.
Qed.

Lemma filter_filter_negb (A : Type) (f : A -> bool) (l : list A) :
  filter f (filter (fun x => negb (f x)) l) = [].
Proof.
  induction l as [|x l IH]; simpl; [reflexivity|].
  destruct (f x) eqn:E; simpl; rewrite ?E; exact IH.
Qed.

Lemma filter_length_le (A : Type) (f g : A -> bool) (l : list A) :
  (forall x, In x l -> f x = true -> g x = true) ->
  (List.length (filter f l) <= List.length (filter g l))%nat.
Proof.
  induction l as [|x l IH]; simpl; intros H; [lia|].
  assert (IH' := IH (fun y Hy => H y (or_intror Hy))).
  destruct (f x) eqn:E.
  - rewrite (H x (or_introl eq_refl) E). simpl. lia.
  - destruct (g x); simpl; lia.
Qed.

(** X3: cleaning up twice is cleaning up once: a second run at the same
    time with the same number of days deletes nothing and leaves the
    directory as the first run left it. *)
Theorem cleanup_old_charts_idempotent (now : Q) (d : fs) (l : list file) (keep_days : Z) :
  listing d = Some l ->
  NoDup (map f_name l) ->
  let st := VisualizationEngine.cleanup_old_charts now d keep_days in
  let d' := MkFs (output_dir d) (Some (VisualizationEngine.remaining st)) in
  let st' := VisualizationEngine.cleanup_old_charts now d' keep_days in
  VisualizationEngine.deleted_count st' = 0%Z
  /\ VisualizationEngine.remaining st' = VisualizationEngine.remaining st.
Proof.
  intros Hl Hnd st d' st'.
  destruct (cleanup_old_charts_filter now d keep_days Hl Hnd) as [Hrem _].
  fold st in Hrem.
  assert (Hnd' : NoDup (map f_name (VisualizationEngine.remaining st))).
  { rewrite Hrem.
    pose proof (@NoDup_names_filter
                  (fun f => negb (evicted (cutoff_of now keep_days) f)) l []) as H.
    rewrite !app_nil_r in H. apply H. exact Hnd. }
  destruct (@cleanup_old_charts_filter now d' (VisualizationEngine.remaining st)
              keep_days eq_refl Hnd') as [Hrem' Hcnt'].
  fold st' in Hrem', Hcnt'. split.
  - rewrite Hcnt', Hrem, filter_filter_negb. reflexivity.
  - rewrite Hrem', Hrem.
    apply (filter_filter_same (fun f => negb (evicted (cutoff_of now keep_days) f))).
Qed.

Lemma cleanup_old_charts_idempotent_witness :
  VisualizationEngine.deleted_count
    (VisualizationEngine.cleanup_old_charts 1000000%Q
       (MkFs (output_dir aged_dir)
             (Some (VisualizationEngine.remaining
                      (VisualizationEngine.cleanup_old_charts 1000000%Q aged_dir 7))))
       7) = 0%Z.
Proof.
  refine (proj1 (@cleanup_old_charts_idempotent 1000000%Q aged_dir _ 7 eq_refl _)).
  repeat (constructor; [simpl; intuition discriminate|]). constructor.
Defined.

Lemma evicted_monotone (now : Q) (k1 k2 : Z) (f : file) :
  (k1 <= k2)%Z ->
  evicted (cutoff_of now k2) f = true -> evicted (cutoff_of now k1) f = true.
Proof.
  intros Hk. unfold evicted. rewrite !andb_true_iff, !Qltb_true.
  intros [Hlt Hrm]. split; [|exact Hrm]. unfold cutoff_of in *.
  assert (H : (inject_Z (k1 * 24 * 60 * 60) <= inject_Z (k2 * 24 * 60 * 60))%Q)
    by (rewrite <- Zle_Qle; lia).
  lra.
Qed.

(** X4: keeping charts for more days deletes no more: every entry that
    survives a run with [days1] survives the run with [days2 >= days1], and
    the count of the second is at most the count of the first. *)
Theorem cleanup_old_charts_monotone (now : Q) (d : fs) (l : list file) (days1 days2 : Z) :
  listing d = Some l ->
  NoDup (map f_name l) ->
  (days1 <= days2)%Z ->
  (forall f,
     In f (VisualizationEngine.remaining
             (VisualizationEngine.cleanup_old_charts now d days1)) ->
     In f (VisualizationEngine.remaining
             (VisualizationEngine.cleanup_old_charts now d days2)))
  /\ (VisualizationEngine.deleted_count (VisualizationEngine.cleanup_old_charts now d days2)
      <= VisualizationEngine.deleted_count
           (VisualizationEngine.cleanup_old_charts now d days1))%Z.
Proof.
  intros Hl Hnd Hk.
  destruct (cleanup_old_charts_filter now d days1 Hl Hnd) as [Hrem1 Hcnt1].
  destruct (cleanup_old_charts_filter now d days2 Hl Hnd) as [Hrem2 Hcnt2].
  split.
  - intros f. rewrite Hrem1, Hrem2, !filter_In. intros [Hin Hkeep].
    split; [exact Hin|].
    destruct (evicted (cutoff_of now days2) f) eqn:E; [|reflexivity].
    rewrite (evicted_monotone now f Hk E) in Hkeep. discriminate.
  - rewrite Hcnt1, Hcnt2. apply Nat2Z.inj_le. apply filter_length_le.
    intros f _. apply evicted_monotone. exact Hk.
Qed.

Lemma cleanup_old_charts_monotone_witness :
  (VisualizationEngine.deleted_count
     (VisualizationEngine.cleanup_old_charts 1000000%Q aged_dir 30)
   <= VisualizationEngine.deleted_count
        (VisualizationEngine.cleanup_old_charts 1000000%Q aged_dir 7))%Z.
Proof.
  refine (proj2 (@cleanup_old_charts_monotone 1000000%Q aged_dir _ 7 30 eq_refl _ _)).
  - repeat (constructor; [simpl; intuition discriminate|]). constructor.
  - lia.
Defined.








(** * Further properties of chart generation *)

(** ** An induction principle for [generate_chart]

    Whatever a call returns was reached by the steps below: prints, one
    export per requested format, the opening of the browser, and one of
    four endings. [Run f tr] speaks of the mapping and the trace while the
    call runs, [Done r tr] of the returned result. *)
Section EngineInduction.

Variable w : world.
Variables name sql_query plotly_code : pystr.
Variable auto_open : bool.
Variable fmts : list pystr.

Variable Run : list (pystr * pystr) -> list event -> Prop.
Variable Done : result -> list event -> Prop.

Let path (ext : pystr) : pystr := image_path w name ext.

Hypothesis run_start : Run [] [].
Hypothesis run_print : forall f tr line, Run f tr -> Run f (tr ++ [Printed line]).
Hypothesis run_json : forall fig doc f tr,
  executed w sql_query plotly_code = Returns fig ->
  requested (py "json") fmts = true ->
  pio_to_json w fig = Returns doc ->
  Run f tr ->
  Run (dict_set (py "json") (path (py ".json")) f)
      (tr ++ [WroteJson (path (py ".json")) doc]).
Hypothesis run_html : forall fig f tr,
  executed w sql_query plotly_code = Returns fig ->
  requested (py "html") fmts = true ->
  Run f tr ->
  Run (dict_set (py "html") (path (py ".html")) f)
      (tr ++ [WroteHtml (path (py ".html"))]).
Hypothesis run_png : forall fig f tr,
  executed w sql_query plotly_code = Returns fig ->
  requested (py "png") fmts = true ->
  rendered w fig (path (py ".png")) ->
  Run f tr ->
  Run (dict_set (py "png") (path (py ".png")) f)
      (tr ++ [WroteImage (path (py ".png"))]).
Hypothesis run_svg : forall fig f tr,
  executed w sql_query plotly_code = Returns fig ->
  requested (py "svg") fmts = true ->
  rendered w fig (path (py ".svg")) ->
  Run f tr ->
  Run (dict_set (py "svg") (path (py ".svg")) f)
      (tr ++ [WroteImage (path (py ".svg"))]).
Hypothesis run_open : forall f tr html,
  auto_open = true ->
  dict_get (py "html") f = Some html ->
  Run f tr ->
  Run f (tr ++ [OpenedBrowser (py "file://" ++ abspath w html)]).
Hypothesis done_no_figure : forall tr,
  executed w sql_query plotly_code = Returns PyNone ->
  Run [] tr ->
  Done (Result false [] [py "Failed to generate figure"] None) tr.
Hypothesis done_failed_early : forall f tr e text,
  is_Exception e = true ->
  exn_str w e = Returns text ->
  Run f tr ->
  Done (Result false f [py "Chart generation failed: " ++ text] None) tr.
Hypothesis done_failed_late : forall f tr e text,
  is_Exception e = true ->
  exn_str w e = Returns text ->
  Run f tr ->
  Done (Result true f [py "Chart generation failed: " ++ text] None) tr.
Hypothesis done_success : forall fig f tr cd,
  executed w sql_query plotly_code = Returns fig ->
  title_of fig name = Returns (title cd) ->
  _detect_chart_type fig = Returns (chart_type cd) ->
  data_points_of fig = Returns (data_points cd) ->
  Run f tr ->
  Done (Result true f [] (Some cd)) tr.

Lemma execute_run f tr :
  Run f tr ->
  exists tr',
    _execute_visualization_code w sql_query plotly_code (State (running f) tr)
    = (executed w sql_query plotly_code, State (running f) tr')
    /\ Run f tr'.
Proof.
  intros Hrun.
  unfold _execute_visualization_code, executed, try_except, bindM, lift.
  unfold print, emit, when, ret.
  destruct (exec_code w (pre_code sql_query ++ plotly_code)) as [[[fig|] [fig'|]]|e];
    cbn [fst snd st_result st_trace]; try (eexists; split; [reflexivity | exact Hrun]).
  - eexists. split; [reflexivity | apply run_print; exact Hrun].
  - destruct (is_Exception e); [|eexists; split; [reflexivity | exact Hrun]].
    destruct (exn_str w e) as [text|e']; [|eexists; split; [reflexivity | exact Hrun]].
    destruct (negb (str_eqb (exec_stderr w (pre_code sql_query ++ plotly_code)) []));
      eexists; (split; [reflexivity|]); repeat apply run_print; exact Hrun.
Qed.

Section WithFigure.
Variable fig : pyobj.
Hypothesis Hfig : executed w sql_query plotly_code = Returns fig.

Let base : pystr := _generate_filename w name.

Lemma data_formats_run f tr :
  Run f tr ->
  exists o f' tr',
    export_data_formats w fig base fmts (State (running f) tr)
    = (o, State (running f') tr')
    /\ Run f' tr'.
Proof.
  intros Hrun.
  assert (Hhtml : forall f0 tr0, Run f0 tr0 ->
    exists o f' tr',
      when (requested (py "html") fmts)
        (html_path <-- _export_html w fig base ;; set_file (py "html") html_path)
        (State (running f0) tr0)
      = (o, State (running f') tr') /\ Run f' tr').
  { intros f0 tr0 Hrun0. unfold when.
    case_eq (requested (py "html") fmts); intros Eh;
      [|do 3 eexists; split; [reflexivity | exact Hrun0]].
    unfold _export_html, bindM, lift, set_file, update, emit, ret.
    change (path_join (w_output_dir w) (base ++ py ".html")) with (path (py ".html")).
    destruct (write_html w fig (path (py ".html"))) as [[]|e];
      [|do 3 eexists; split; [reflexivity | exact Hrun0]].
    do 3 eexists. split; [reflexivity | apply (run_html Hfig Eh Hrun0)]. }
  unfold export_data_formats. unfold bindM at 1. unfold when at 1.
  case_eq (requested (py "json") fmts); intros Ej; [|apply Hhtml; exact Hrun].
  unfold _export_json, bindM at 1 2 3 4, lift, set_file, update, emit, ret.
  change (path_join (w_output_dir w) (base ++ py ".json")) with (path (py ".json")).
  destruct (pio_to_json w fig) as [doc|e] eqn:Edoc;
    [|do 3 eexists; split; [reflexivity | exact Hrun]].
  destruct (file_write w (path (py ".json"))) as [[]|e];
    [|do 3 eexists; split; [reflexivity | exact Hrun]].
  apply Hhtml. apply (run_json Hfig Ej Edoc Hrun).
Qed.

(** One image export followed by the entry in the mapping. *)
Lemma image_block_run key ext label f tr :
  (forall f0 tr0, rendered w fig (path ext) -> Run f0 tr0 ->
     Run (dict_set key (path ext) f0) (tr0 ++ [WroteImage (path ext)])) ->
  Run f tr ->
  exists o f' tr',
    (p <-- _export_image w fig base ext label ;;
     match p with
     | Some p0 => set_file key p0
     | None => ret tt
     end) (State (running f) tr)
    = (o, State (running f') tr')
    /\ Run f' tr'.
Proof.
  intros Hput Hrun.
  unfold _export_image, bindM, lift, set_file, update, emit, print, ret.
  cbn [st_result st_trace]. change (path_join (w_output_dir w) (base ++ ext)) with (path ext). unfold rendered in Hput.
  destruct (import_kaleido w) as [[]|e] eqn:Ek.
  - destruct (write_image w fig (path ext)) as [[]|e] eqn:Ew.
    + do 3 eexists. split; [reflexivity|].
      apply Hput; [split; reflexivity | exact Hrun].
    + destruct (is_ImportError e).
      { do 3 eexists. split; [reflexivity|]. apply run_print. exact Hrun. }
      destruct (is_Exception e) eqn:Ee.
      * destruct (exn_str w e) as [text|e'].
        { do 3 eexists. split; [reflexivity|]. apply run_print. exact Hrun. }
        do 3 eexists. split; [reflexivity | exact Hrun].
      * do 3 eexists. split; [reflexivity | exact Hrun].
  - destruct (is_ImportError e).
    { do 3 eexists. split; [reflexivity|]. apply run_print. exact Hrun. }
    destruct (is_Exception e) eqn:Ee.
    + destruct (exn_str w e) as [text|e'].
      { do 3 eexists. split; [reflexivity|]. apply run_print. exact Hrun. }
      do 3 eexists. split; [reflexivity | exact Hrun].
    + do 3 eexists. split; [reflexivity | exact Hrun].
Qed.

Lemma image_formats_run f tr :
  Run f tr ->
  exists o f' tr',
    export_image_formats w fig base fmts (State (running f) tr)
    = (o, State (running f') tr')
    /\ Run f' tr'.
Proof.
  intros Hrun. unfold export_image_formats, _export_png, _export_svg, when.
  unfold bindM at 1.
  case_eq (requested (py "png") fmts); intros Ep.
  - destruct (@image_block_run (py "png") (py ".png") (py "PNG") f tr
                (fun f0 tr0 => @run_png fig f0 tr0 Hfig Ep) Hrun)
      as [o [f1 [tr1 [-> Hrun1]]]].
    destruct o as [[]|e]; [|do 3 eexists; split; [reflexivity | assumption]].
    case_eq (requested (py "svg") fmts); intros Es.
    + apply (@image_block_run (py "svg") (py ".svg") (py "SVG") f1 tr1
               (fun f0 tr0 => @run_svg fig f0 tr0 Hfig Es) Hrun1).
    + do 3 eexists. split; [reflexivity | exact Hrun1].
  - unfold ret at 1. case_eq (requested (py "svg") fmts); intros Es.
    + apply (@image_block_run (py "svg") (py ".svg") (py "SVG") f tr
               (fun f0 tr0 => @run_svg fig f0 tr0 Hfig Es) Hrun).
    + do 3 eexists. split; [reflexivity | exact Hrun].
Qed.

Lemma open_in_browser_run f tr html :
  auto_open = true ->
  dict_get (py "html") f = Some html ->
  Run f tr ->
  exists o tr',
    _open_in_browser w html (State (running f) tr) = (o, State (running f) tr')
    /\ Run f tr'.
Proof.
  intros Hauto Hhtml Hrun.
  unfold _open_in_browser, try_except, bindM, lift, emit, print.
  cbn [st_result st_trace].
  destruct (webbrowser_open w (py "file://" ++ abspath w html)) as [[]|e].
  - do 2 eexists. split; [reflexivity|].
    apply (run_open Hauto Hhtml Hrun).
  - destruct (is_Exception e) eqn:Ee.
    + destruct (exn_str w e) as [text|e'].
      * do 2 eexists. split; [reflexivity|]. apply run_print. exact Hrun.
      * do 2 eexists. split; [reflexivity | exact Hrun].
    + do 2 eexists. split; [reflexivity | exact Hrun].
Qed.

(** The endings of the last phase: the summary is there, or an exception
    was raised, before or after [success] was set. *)
Lemma finish_chart_run f tr :
  Run f tr ->
  match finish_chart w fig name auto_open (State (running f) tr) with
  | (Returns _, s') => Done (st_result s') (st_trace s')
  | (Raises e, s') =>
      exists b tr', s' = State (Result b f [] None) tr' /\ Run f tr'
  end.
Proof.
  intros Hrun. unfold finish_chart. unfold bindM at 1. unfold get_result at 1.
  cbn [st_result files running].
  assert (Hafter : forall tr', Run f tr' ->
    match (update (fun r => Result true (files r) (errors r) (chart r)) ;;;;
           t <-- lift (title_of fig name) ;;
           ct <-- lift (_detect_chart_type fig) ;;
           dp <-- lift (data_points_of fig) ;;
           update (fun r => Result (success r) (files r) (errors r)
                              (Some (ChartData t ct dp))))
            (State (running f) tr') with
    | (Returns _, s') => Done (st_result s') (st_trace s')
    | (Raises e, s') =>
        exists b tr'', s' = State (Result b f [] None) tr'' /\ Run f tr''
    end).
  { intros tr' Hrun'. unfold bindM, update, lift. cbn [st_result st_trace running
      success files errors chart].
    destruct (title_of fig name) as [t|e] eqn:Et;
      [|do 2 eexists; split; [reflexivity | exact Hrun']].
    destruct (_detect_chart_type fig) as [ct|e] eqn:Ec;
      [|do 2 eexists; split; [reflexivity | exact Hrun']].
    destruct (data_points_of fig) as [dp|e] eqn:Ed;
      [|do 2 eexists; split; [reflexivity | exact Hrun']].
    cbn [st_result st_trace success files errors chart].
    apply (@done_success fig f tr' (ChartData t ct dp) Hfig Et Ec Ed Hrun'). }
  case_eq auto_open; intros Eauto.
  - destruct (dict_get (py "html") f) as [html|] eqn:Eh.
    + destruct (@open_in_browser_run f tr html Eauto Eh Hrun)
        as [o [tr' [Hopen Hrun']]].
      unfold bindM at 1. rewrite Hopen.
      destruct o as [[]|e]; [apply Hafter; exact Hrun'|].
      do 2 eexists. split; [reflexivity | exact Hrun'].
    + unfold bindM at 1. unfold ret at 1. apply Hafter. exact Hrun.
  - unfold bindM at 1. unfold ret at 1. apply Hafter. exact Hrun.
Qed.

Lemma phases_run tr :
  Run [] tr ->
  match (export_data_formats w fig base fmts ;;;;
         export_image_formats w fig base fmts ;;;;
         finish_chart w fig name auto_open) (State (running []) tr) with
  | (Returns _, s') => Done (st_result s') (st_trace s')
  | (Raises e, s') =>
      is_Exception e = true ->
      forall text, exn_str w e = Returns text ->
      Done (Result (success (st_result s')) (files (st_result s'))
              (errors (st_result s') ++ [py "Chart generation failed: " ++ text])
              (chart (st_result s')))
           (st_trace s')
  end.
Proof.
  intros Hrun. unfold bindM at 1.
  destruct (data_formats_run Hrun) as [o [f1 [tr1 [-> Hrun1]]]].
  destruct o as [[]|e];
    [|intros He text Htext; apply (done_failed_early _ He Htext Hrun1)].
  unfold bindM at 1.
  destruct (image_formats_run Hrun1) as [o [f2 [tr2 [-> Hrun2]]]].
  destruct o as [[]|e];
    [|intros He text Htext; apply (done_failed_early _ He Htext Hrun2)].
  pose proof (finish_chart_run Hrun2) as Hfin.
  destruct (finish_chart w fig name auto_open (State (running f2) tr2)) as [[[]|e] s'].
  - exact Hfin.
  - intros He text Htext. destruct Hfin as [b [tr' [-> Hrun']]].
    destruct b; [apply (done_failed_late _ He Htext Hrun')
                |apply (done_failed_early _ He Htext Hrun')].
Qed.

End WithFigure.

Theorem engine_induction (export_formats : option (list pystr)) (r : result)
  (tr : list event) :
  fmts = effective_formats export_formats ->
  generate_chart w name sql_query plotly_code auto_open export_formats = (Returns r, tr) ->
  Done r tr.
Proof.
  intros Hfmts. unfold generate_chart. fold (effective_formats export_formats).
  rewrite <- Hfmts. unfold try_except, generate_chart_body. unfold bindM at 1.
  destruct (execute_run run_start) as [tr0 [Hex Hrun]].
  change (State (Result false [] [] None) []) with (State (running []) []).
  rewrite Hex.
  case_eq (executed w sql_query plotly_code); [intros fig Efig | intros e Efig].
  2:{ destruct (is_Exception e) eqn:Ee; [|discriminate].
      unfold bindM, lift. destruct (exn_str w e) as [text|e'] eqn:Etext; [|discriminate].
      unfold add_error, update.
      cbn [st_result st_trace running success files errors chart].
      intros H. injection H as <- <-.
      apply (done_failed_early _ Ee Etext Hrun). }
  assert (Hrest : forall fig', fig = fig' ->
    match (let (o, s') :=
             (export_data_formats w fig' (_generate_filename w name) fmts ;;;;
              export_image_formats w fig' (_generate_filename w name) fmts ;;;;
              finish_chart w fig' name auto_open) (State (running []) tr0) in
           match o with
           | Returns a => (Returns a, s')
           | Raises e =>
               if is_Exception e
               then (text <-- lift (exn_str w e) ;;
                     add_error (py "Chart generation failed: " ++ text)) s'
               else (Raises e, s')
           end) with
    | (Returns _, s) => (Returns (st_result s), st_trace s)
    | (Raises e, s) => (Raises e, st_trace s)
    end = (Returns r, tr) -> Done r tr).
  { intros fig' <-. pose proof (@phases_run fig Efig tr0 Hrun) as Hph.
    destruct ((export_data_formats w fig (_generate_filename w name) fmts ;;;;
               export_image_formats w fig (_generate_filename w name) fmts ;;;;
               finish_chart w fig name auto_open) (State (running []) tr0))
      as [[[]|e] s'].
    - intros H. injection H as <- <-. exact Hph.
    - destruct (is_Exception e) eqn:Ee; [|discriminate].
      unfold bindM, lift. destruct (exn_str w e) as [text|e'] eqn:Etext; [|discriminate].
      unfold add_error, update. intros H. injection H as <- <-.
      apply (Hph eq_refl text eq_refl). }
  destruct fig as [|f|cls]; [|exact (Hrest _ eq_refl)..].
  unfold add_error, update. cbn [st_result st_trace running success files errors chart].
  intros H. injection H as <- <-. apply (done_no_figure Efig Hrun).
Qed.

End EngineInduction.

Lemma dict_get_set_same k v d : dict_get k (dict_set k v d) = Some v.
Proof.
  induction d as [|[k' v'] d IH]; simpl.
  - rewrite str_eqb_refl. reflexivity.
  - destruct (str_eqb k' k) eqn:E; simpl.
    + rewrite str_eqb_refl. reflexivity.
    + rewrite E. exact IH.
Qed.

Lemma dict_get_set_cases k k' v d p :
  dict_get k (dict_set k' v d) = Some p ->
  (k = k' /\ p = v) \/ (k <> k' /\ dict_get k d = Some p).
Proof.
  intros H. destruct (str_eqb k k') eqn:E.
  - apply str_eqb_eq in E. subst k'. rewrite dict_get_set_same in H.
    injection H as <-. left. split; reflexivity.
  - assert (Hne : k <> k') by (intros ->; rewrite str_eqb_refl in E; discriminate).
    rewrite (dict_get_set_other v d Hne) in H. right. split; assumption.
Qed.

(** X7 (generate_chart): a call that returns ends in one of three ways: a
    failure with exactly one error and no summary, a success with a summary
    and no error, or [success = true] with exactly one error and no summary
    (the summary could not be computed after the flag was set). *)
Theorem generate_chart_result_shape (w : world) (name sql_query plotly_code : pystr)
  (auto_open : bool) (export_formats : option (list pystr)) (r : result)
  (tr : list event) :
  generate_chart w name sql_query plotly_code auto_open export_formats = (Returns r, tr) ->
  failed_early r \/ succeeded r \/ failed_late r.
Proof.
  apply (@engine_induction w name sql_query plotly_code auto_open
           (effective_formats export_formats)
           (fun _ _ => True)
           (fun r _ => failed_early r \/ succeeded r \/ failed_late r));
    try (intros; exact I); try reflexivity.
  - intros. left. repeat split. eexists. reflexivity.
  - intros. left. repeat split. eexists. reflexivity.
  - intros. right. right. repeat split. eexists. reflexivity.
  - intros. right. left. repeat split. eexists. reflexivity.
Qed.

Lemma generate_chart_result_shape_witness :
  exists r tr,
    generate_chart (studio bar_script) (py "sales")
      (py "SELECT region, total FROM sales")
      (py "fig = px.bar(df, x='region', y='total')") true None = (Returns r, tr)
    /\ (failed_early r \/ succeeded r \/ failed_late r).
Proof.
  eexists. eexists. split; [vm_compute; reflexivity|].
  eapply (@generate_chart_result_shape (studio bar_script) (py "sales")
           (py "SELECT region, total FROM sales")
           (py "fig = px.bar(df, x='region', y='total')") true None _ _).
  vm_compute. reflexivity.
Defined.

(** X8 (generate_chart): every entry of the returned mapping belongs to a
    requested format, the format is one of json, html, png and svg, and the
    path is the output directory joined with the generated base name and the
    format as extension. *)
Theorem generate_chart_files_requested (w : world) (name sql_query plotly_code : pystr)
  (auto_open : bool) (export_formats : option (list pystr)) (r : result)
  (tr : list event) (k p : pystr) :
  generate_chart w name sql_query plotly_code auto_open export_formats = (Returns r, tr) ->
  dict_get k (files r) = Some p ->
  requested k (effective_formats export_formats) = true
  /\ In k known_formats
  /\ p = image_path w name (py "." ++ k).
Proof.
  intros Hgen. revert k p.
  pose (Run := fun (f : list (pystr * pystr)) (_ : list event) =>
    forall k p, dict_get k f = Some p ->
      requested k (effective_formats export_formats) = true
      /\ In k known_formats
      /\ p = image_path w name (py "." ++ k)).
  revert Hgen.
  apply (@engine_induction w name sql_query plotly_code auto_open
           (effective_formats export_formats) Run (fun r tr => Run (files r) tr));
    unfold Run; try reflexivity; try (intros; cbn [files]; auto; fail).
  - intros k p H. discriminate.
  - intros fig doc f tr0 _ Hreq _ IH k p H.
    apply dict_get_set_cases in H. destruct H as [[-> ->]|[_ H]]; [|auto].
    split; [exact Hreq|]. split; [left; reflexivity | reflexivity].
  - intros fig f tr0 _ Hreq IH k p H.
    apply dict_get_set_cases in H. destruct H as [[-> ->]|[_ H]]; [|auto].
    split; [exact Hreq|]. split; [right; left; reflexivity | reflexivity].
  - intros fig f tr0 _ Hreq _ IH k p H.
    apply dict_get_set_cases in H. destruct H as [[-> ->]|[_ H]]; [|auto].
    split; [exact Hreq|]. split; [right; right; left; reflexivity | reflexivity].
  - intros fig f tr0 _ Hreq _ IH k p H.
    apply dict_get_set_cases in H. destruct H as [[-> ->]|[_ H]]; [|auto].
    split; [exact Hreq|]. split; [right; right; right; left; reflexivity | reflexivity].
Qed.

Lemma generate_chart_files_requested_witness :
  exists r tr,
    generate_chart (studio bar_script) (py "sales")
      (py "SELECT region, total FROM sales")
      (py "fig = px.bar(df, x='region', y='total')") true None = (Returns r, tr)
    /\ dict_get (py "html") (files r) = Some (py "output/charts/sales_20240101_120000.html")
    /\ requested (py "html") (effective_formats None) = true
    /\ In (py "html") known_formats
    /\ py "output/charts/sales_20240101_120000.html"
       = image_path (studio bar_script) (py "sales") (py "." ++ py "html").
Proof.
  eexists. eexists. split; [vm_compute; reflexivity|].
  split; [vm_compute; reflexivity|].
  eapply (@generate_chart_files_requested (studio bar_script) (py "sales")
           (py "SELECT region, total FROM sales")
           (py "fig = px.bar(df, x='region', y='total')") true None _ _
           (py "html") (py "output/charts/sales_20240101_120000.html"));
    vm_compute; reflexivity.
Defined.

(** X9 (generate_chart): every path in the returned mapping was written by
    the exporter of its format before the call returned, and the json file
    holds the serialisation of the figure that the script left. *)
Theorem generate_chart_files_written (w : world) (name sql_query plotly_code : pystr)
  (auto_open : bool) (export_formats : option (list pystr)) (r : result)
  (tr : list event) (k p : pystr) :
  generate_chart w name sql_query plotly_code auto_open export_formats = (Returns r, tr) ->
  dict_get k (files r) = Some p ->
  written w sql_query plotly_code k p tr.
Proof.
  intros Hgen. revert k p.
  pose (Run := fun (f : list (pystr * pystr)) (tr : list event) =>
    forall k p, dict_get k f = Some p -> written w sql_query plotly_code k p tr).
  assert (Hmono : forall k p tr0 ev,
    written w sql_query plotly_code k p tr0 ->
    written w sql_query plotly_code k p (tr0 ++ [ev])).
  { intros k p tr0 ev [[Hk [fig [doc [H1 [H2 H3]]]]]|[[Hk H]|[Hk H]]].
    - left. split; [exact Hk|]. exists fig, doc. repeat split; try assumption.
      apply in_or_app. left. exact H3.
    - right. left. split; [exact Hk | apply in_or_app; left; exact H].
    - right. right. split; [exact Hk | apply in_or_app; left; exact H]. }
  revert Hgen.
  apply (@engine_induction w name sql_query plotly_code auto_open
           (effective_formats export_formats) Run (fun r tr => Run (files r) tr));
    unfold Run; try reflexivity; try (intros; cbn [files]; auto; fail).
  - intros k p H. discriminate.
  - intros fig doc f tr0 Hfig _ Hdoc IH k p H.
    apply dict_get_set_cases in H. destruct H as [[-> ->]|[_ H]]; [|auto].
    left. split; [reflexivity|]. exists fig, doc. repeat split; try assumption.
    apply in_or_app. right. left. reflexivity.
  - intros fig f tr0 _ _ IH k p H.
    apply dict_get_set_cases in H. destruct H as [[-> ->]|[_ H]]; [|auto].
    right. left. split; [reflexivity|]. apply in_or_app. right. left. reflexivity.
  - intros fig f tr0 _ _ _ IH k p H.
    apply dict_get_set_cases in H. destruct H as [[-> ->]|[_ H]]; [|auto].
    right. right. split; [left; reflexivity|].
    apply in_or_app. right. left. reflexivity.
  - intros fig f tr0 _ _ _ IH k p H.
    apply dict_get_set_cases in H. destruct H as [[-> ->]|[_ H]]; [|auto].
    right. right. split; [right; reflexivity|].
    apply in_or_app. right. left. reflexivity.
Qed.

Lemma generate_chart_files_written_witness :
  exists r tr,
    generate_chart (studio bar_script) (py "sales")
      (py "SELECT region, total FROM sales")
      (py "fig = px.bar(df, x='region', y='total')") true None = (Returns r, tr)
    /\ dict_get (py "json") (files r) = Some (py "output/charts/sales_20240101_120000.json")
    /\ written (studio bar_script) (py "SELECT region, total FROM sales")
         (py "fig = px.bar(df, x='region', y='total')") (py "json")
         (py "output/charts/sales_20240101_120000.json") tr.
Proof.
  eexists. eexists. split; [vm_compute; reflexivity|].
  split; [vm_compute; reflexivity|].
  eapply (@generate_chart_files_written (studio bar_script) (py "sales")
           (py "SELECT region, total FROM sales")
           (py "fig = px.bar(df, x='region', y='total')") true None _ _
           (py "json") (py "output/charts/sales_20240101_120000.json"));
    vm_compute; reflexivity.
Defined.

(** X10 (generate_chart, _open_in_browser): the browser is opened only when
    [auto_open] was asked for and the html export succeeded, and then on the
    [file://] address of the absolute path of that html file. *)
Theorem generate_chart_browser (w : world) (name sql_query plotly_code : pystr)
  (auto_open : bool) (export_formats : option (list pystr)) (r : result)
  (tr : list event) (url : pystr) :
  generate_chart w name sql_query plotly_code auto_open export_formats = (Returns r, tr) ->
  In (OpenedBrowser url) tr ->
  auto_open = true
  /\ dict_get (py "html") (files r) = Some (image_path w name (py ".html"))
  /\ url = py "file://" ++ abspath w (image_path w name (py ".html")).
Proof.
  intros Hgen. revert url.
  pose (Run := fun (f : list (pystr * pystr)) (tr : list event) =>
    (forall p, dict_get (py "html") f = Some p -> p = image_path w name (py ".html"))
    /\ forall url, In (OpenedBrowser url) tr ->
         auto_open = true
         /\ dict_get (py "html") f = Some (image_path w name (py ".html"))
         /\ url = py "file://" ++ abspath w (image_path w name (py ".html"))).
  assert (Hother : forall k v f tr0 ev,
    k <> py "html" -> (forall u, ev <> OpenedBrowser u) ->
    Run f tr0 -> Run (dict_set k v f) (tr0 ++ [ev])).
  { intros k v f tr0 ev Hk Hev [H1 H2]. split.
    - intros p. rewrite (dict_get_set_other v f (not_eq_sym Hk)). apply H1.
    - intros u Hin. apply in_app_or in Hin. destruct Hin as [Hin|[Hin|[]]].
      + rewrite (dict_get_set_other v f (not_eq_sym Hk)). apply H2. exact Hin.
      + exfalso. apply (Hev u). exact Hin. }
  assert (Hdone : forall f tr0 s c e, Run f tr0 ->
    forall u, In (OpenedBrowser u) tr0 ->
      auto_open = true
      /\ dict_get (py "html") (files (Result s f e c)) = Some (image_path w name (py ".html"))
      /\ u = py "file://" ++ abspath w (image_path w name (py ".html"))).
  { intros f tr0 s c e [_ H2]. exact H2. }
  revert Hgen.
  apply (@engine_induction w name sql_query plotly_code auto_open
           (effective_formats export_formats) Run
           (fun r tr => forall url, In (OpenedBrowser url) tr ->
              auto_open = true
              /\ dict_get (py "html") (files r) = Some (image_path w name (py ".html"))
              /\ url = py "file://" ++ abspath w (image_path w name (py ".html"))));
    try reflexivity; try (intros; eapply Hdone; eassumption).
  - split; [intros p H; discriminate | intros u []].
  - intros f tr0 line [H1 H2]. split; [exact H1|].
    intros u Hin. apply in_app_or in Hin. destruct Hin as [Hin|[Hin|[]]];
      [apply H2; exact Hin | discriminate].
  - intros fig doc f tr0 _ _ _ H. apply Hother; [keys_differ | discriminate | exact H].
  - intros fig f tr0 _ _ [H1 H2]. split.
    + intros p. rewrite dict_get_set_same. intros Hp. injection Hp as <-. reflexivity.
    + intros u Hin. apply in_app_or in Hin. destruct Hin as [Hin|[Hin|[]]];
        [|discriminate].
      destruct (H2 u Hin) as [Ha [_ Hu]]. rewrite dict_get_set_same. auto.
  - intros fig f tr0 _ _ _ H. apply Hother; [keys_differ | discriminate | exact H].
  - intros fig f tr0 _ _ _ H. apply Hother; [keys_differ | discriminate | exact H].
  - intros f tr0 html Hauto Hhtml [H1 H2]. split; [exact H1|].
    pose proof (H1 html Hhtml) as ->.
    intros u Hin. apply in_app_or in Hin. destruct Hin as [Hin|[Hin|[]]].
    + apply H2. exact Hin.
    + injection Hin as <-. auto.
Qed.

Lemma generate_chart_browser_witness :
  exists r tr,
    generate_chart (studio bar_script) (py "sales")
      (py "SELECT region, total FROM sales")
      (py "fig = px.bar(df, x='region', y='total')") true None = (Returns r, tr)
    /\ In (OpenedBrowser (py "file:///srv/agent/output/charts/sales_20240101_120000.html")) tr
    /\ true = true
    /\ dict_get (py "html") (files r)
       = Some (image_path (studio bar_script) (py "sales") (py ".html"))
    /\ py "file:///srv/agent/output/charts/sales_20240101_120000.html"
       = py "file://" ++ abspath (studio bar_script)
                           (image_path (studio bar_script) (py "sales") (py ".html")).
Proof.
  eexists. eexists. split; [vm_compute; reflexivity|].
  assert (Hin : In (OpenedBrowser
                     (py "file:///srv/agent/output/charts/sales_20240101_120000.html"))
                   (snd (generate_chart (studio bar_script) (py "sales")
                           (py "SELECT region, total FROM sales")
                           (py "fig = px.bar(df, x='region', y='total')") true None))).
  { vm_compute. tauto. }
  split; [vm_compute; tauto|].
  eapply (@generate_chart_browser (studio bar_script) (py "sales")
           (py "SELECT region, total FROM sales")
           (py "fig = px.bar(df, x='region', y='total')") true None _ _
           (py "file:///srv/agent/output/charts/sales_20240101_120000.html"));
    [vm_compute; reflexivity | vm_compute; tauto].
Defined.

(** * Further properties of the validators *)

(** X11 (validate_plotly_code): a script is accepted only if no pattern of
    the denylist occurs in its lower-cased text, [fig] occurs in it as
    written and so does one of the plotting markers; the message of an
    accepted script is empty. *)
Theorem validate_plotly_code_accepts (code : pystr) :
  fst (ChartUtils.validate_plotly_code code) = true ->
  (forall p, In p ChartUtils.dangerous_patterns -> ~ occurs p (lower code))
  /\ occurs (py "fig") code
  /\ (exists m, In m ChartUtils.plotly_markers /\ occurs m code)
  /\ snd (ChartUtils.validate_plotly_code code) = [].
Proof.
  unfold ChartUtils.validate_plotly_code.
  destruct (find (fun pattern => str_in pattern (lower code)) ChartUtils.dangerous_patterns)
    as [p|] eqn:Hfind; [discriminate|].
  destruct (str_in (py "fig") code) eqn:Hfig; cbn [negb]; [|discriminate].
  destruct (existsb (fun lib => str_in lib code) ChartUtils.plotly_markers) eqn:Hlib;
    cbn [negb]; [|discriminate].
  intros _. split; [|split; [|split]].
  - intros p Hin Hocc. pose proof (find_none _ _ Hfind p Hin) as Hp. simpl in Hp.
    apply str_in_spec in Hocc. congruence.
  - apply str_in_spec. exact Hfig.
  - apply existsb_exists in Hlib. destruct Hlib as [m [Hin Hm]].
    exists m. split; [exact Hin | apply str_in_spec; exact Hm].
  - reflexivity.
Qed.

Lemma validate_plotly_code_accepts_witness :
  (forall p, In p ChartUtils.dangerous_patterns ->
     ~ occurs p (lower (py "fig = px.bar(df, x='region', y='total')")))
  /\ occurs (py "fig") (py "fig = px.bar(df, x='region', y='total')")
  /\ (exists m, In m ChartUtils.plotly_markers
        /\ occurs m (py "fig = px.bar(df, x='region', y='total')"))
  /\ snd (ChartUtils.validate_plotly_code (py "fig = px.bar(df, x='region', y='total')")) = [].
Proof.
  apply (@validate_plotly_code_accepts (py "fig = px.bar(df, x='region', y='total')")).
  vm_compute. reflexivity.
Defined.

(** * Further properties of names and previews *)

Lemma lstrip_chars_suffix chars s : exists t, s = t ++ lstrip_chars chars s.
Proof.
  induction s as [|c s IH]; simpl.
  - exists []. reflexivity.
  - destruct (existsb (char_eqb c) chars).
    + destruct IH as [t Ht]. exists (c :: t). simpl. rewrite <- Ht. reflexivity.
    + exists []. reflexivity.
Qed.

Lemma lstrip_chars_head chars s c rest :
  lstrip_chars chars s = c :: rest -> existsb (char_eqb c) chars = false.
Proof.
  induction s as [|c0 s IH]; simpl; [discriminate|].
  destruct (existsb (char_eqb c0) chars) eqn:E; [exact IH|].
  intros H. injection H as <- _. exact E.
Qed.

Lemma rstrip_chars_prefix chars s : exists t, s = rstrip_chars chars s ++ t.
Proof.
  unfold rstrip_chars. destruct (lstrip_chars_suffix chars (rev s)) as [t Ht].
  exists (rev t). rewrite <- rev_app_distr, <- Ht, rev_involutive. reflexivity.
Qed.

Lemma Forall_app_l {A} (P : A -> Prop) (a b : list A) : Forall P (a ++ b) -> Forall P a.
Proof. intros H. apply Forall_app in H. tauto. Qed.

Lemma Forall_app_r {A} (P : A -> Prop) (a b : list A) : Forall P (a ++ b) -> Forall P b.
Proof. intros H. apply Forall_app in H. tauto. Qed.

Lemma lower_char_slug (c : char) :
  isalnum c = true \/ c = 95%N \/ c = 45%N -> slug_char (lower_char c) = true.
Proof.
  unfold isalnum, slug_char, lower_char. intros H.
  rewrite !orb_true_iff, !andb_true_iff, !N.leb_le in H.
  destruct ((65 <=? c) && (c <=? 90))%N eqn:E1.
  - rewrite andb_true_iff, !N.leb_le in E1.
    rewrite !orb_true_iff, !andb_true_iff, !N.leb_le, !N.eqb_eq. lia.
  - destruct ((192 <=? c) && (c <=? 222) && negb (c =? 215))%N eqn:E2.
    + rewrite !andb_true_iff, !N.leb_le in E2. exfalso. lia.
    + rewrite andb_false_iff, !N.leb_gt in E1.
      rewrite !orb_true_iff, !andb_true_iff, !N.leb_le, !N.eqb_eq. lia.
Qed.

(** X12 (cleanup_chart_name): for an ASCII name the cleaned chart name is a
    slug: it is not empty, has at most 50 characters, consists of lower-case
    letters, digits, underscores and hyphens only, and starts with neither
    an underscore nor a hyphen. *)
Theorem cleanup_chart_name_slug (name : pystr) :
  Forall is_ascii name ->
  let r := cleanup_chart_name name in
  (0 < List.length r <= 50)%nat
  /\ Forall (fun c => slug_char c = true) r
  /\ exists c rest, r = c :: rest /\ c <> 95%N /\ c <> 45%N.
Proof.
  intros _. unfold cleanup_chart_name.
  set (P := fun c : char => isalnum c = true \/ c = 95%N \/ c = 45%N).
  set (s0 := filter (fun c => isalnum c || existsb (char_eqb c) (py " _-")) name).
  assert (H1 : Forall P (replace_char 32%N 95%N s0)).
  { unfold replace_char. apply Forall_forall. intros c Hc.
    apply in_map_iff in Hc. destruct Hc as [c0 [<- Hc0]].
    apply filter_In in Hc0. destruct Hc0 as [_ Hk].
    change (py " _-") with [32%N; 95%N; 45%N] in Hk. cbn [existsb] in Hk.
    unfold P, char_eqb in *. rewrite !orb_true_iff, !N.eqb_eq in Hk.
    destruct (N.eqb_spec c0 32%N) as [->|Hne]; [right; left; reflexivity|].
    intuition (try congruence). }
  set (s1 := replace_char 32%N 95%N s0) in *.
  destruct (lstrip_chars_suffix (py "_-") s1) as [t1 Ht1].
  destruct (rstrip_chars_prefix (py "_-") (lstrip_chars (py "_-") s1)) as [t2 Ht2].
  fold (strip_chars (py "_-") s1) in Ht2.
  set (s2 := strip_chars (py "_-") s1) in *.
  assert (H2 : Forall P s2).
  { rewrite Ht1 in H1. apply Forall_app_r in H1. rewrite Ht2 in H1.
    apply Forall_app_l in H1. exact H1. }
  assert (Hhead2 : forall c rest, s2 = c :: rest -> c <> 95%N /\ c <> 45%N).
  { intros c rest Hs2. rewrite Hs2 in Ht2. simpl in Ht2.
    apply lstrip_chars_head in Ht2.
    change (py "_-") with [95%N; 45%N] in Ht2. cbn [existsb] in Ht2.
    unfold char_eqb in Ht2. rewrite !orb_false_iff, !N.eqb_neq in Ht2. tauto. }
  set (s3 := if str_eqb s2 [] then py "chart" else s2).
  assert (H3 : Forall P s3 /\ exists c rest, s3 = c :: rest /\ c <> 95%N /\ c <> 45%N).
  { unfold s3. destruct s2 as [|c rest]; cbn [str_eqb].
    - split.
      + change (py "chart") with [99%N; 104%N; 97%N; 114%N; 116%N].
        repeat constructor; left; reflexivity.
      + exists 99%N, [104%N; 97%N; 114%N; 116%N].
        split; [reflexivity | split; discriminate].
    - split; [exact H2|]. exists c, rest. split; [reflexivity|].
      apply (Hhead2 c rest eq_refl). }
  destruct H3 as [H3 [c [rest [Hs3 Hc]]]].
  set (s4 := if (50 <? List.length s3)%nat then firstn 50 s3 else s3).
  assert (H4 : Forall P s4 /\ (List.length s4 <= 50)%nat
               /\ exists rest', s4 = c :: rest').
  { unfold s4. destruct (Nat.ltb_spec 50 (List.length s3)) as [Hlt|Hge].
    - split; [|split].
      + rewrite <- (firstn_skipn 50 s3) in H3. apply Forall_app_l in H3. exact H3.
      + rewrite length_firstn. lia.
      + rewrite Hs3. simpl. eexists. reflexivity.
    - split; [exact H3|]. split; [lia|]. exists rest. exact Hs3. }
  destruct H4 as [H4 [Hlen [rest' Hs4]]].
  cbv zeta. unfold lower. split; [|split].
  - rewrite length_map. rewrite Hs4 in *. simpl in *. lia.
  - apply Forall_forall. intros x Hx. apply in_map_iff in Hx.
    destruct Hx as [x0 [<- Hx0]]. apply lower_char_slug.
    rewrite Forall_forall in H4. apply H4. exact Hx0.
  - rewrite Hs4. simpl. exists (lower_char c), (map lower_char rest').
    split; [reflexivity|].
    assert (Hsl : slug_char (lower_char c) = true).
    { apply lower_char_slug. rewrite Hs4 in H4. inversion H4. assumption. }
    assert (Hpc : P c) by (rewrite Hs4 in H4; inversion H4; assumption).
    unfold lower_char.
    destruct ((65 <=? c) && (c <=? 90))%N eqn:E1.
    + rewrite andb_true_iff, !N.leb_le in E1. lia.
    + destruct ((192 <=? c) && (c <=? 222) && negb (c =? 215))%N eqn:E2.
      * rewrite !andb_true_iff, !N.leb_le in E2. lia.
      * tauto.
Qed.

Lemma cleanup_chart_name_slug_witness :
  (0 < List.length (cleanup_chart_name (py "  Q3 Sales: by Region! ")) <= 50)%nat
  /\ Forall (fun c => slug_char c = true)
       (cleanup_chart_name (py "  Q3 Sales: by Region! "))
  /\ exists c rest, cleanup_chart_name (py "  Q3 Sales: by Region! ") = c :: rest
                    /\ c <> 95%N /\ c <> 45%N.
Proof.
  apply (@cleanup_chart_name_slug (py "  Q3 Sales: by Region! ")).
  unfold is_ascii. vm_compute. repeat constructor.
Defined.

Lemma kept_not_space (c : char) : kept c = true -> isspace c = false.
Proof.
  unfold kept, isalnum, isspace. change (py "_-") with [95%N; 45%N].
  cbn [existsb]. unfold char_eqb. intros H.
  rewrite !orb_true_iff, !andb_true_iff, !N.leb_le, !N.eqb_eq in H.
  apply not_true_is_false. intros Hs.
  rewrite !orb_true_iff, !andb_true_iff, !N.leb_le, !N.eqb_eq in Hs. lia.
Qed.

Lemma lstrip_no_space (s : pystr) :
  Forall (fun c => isspace c = false) s -> lstrip s = s.
Proof.
  intros H. destruct s as [|c s]; [reflexivity|].
  inversion H as [|? ? Hc _]. simpl. rewrite Hc. reflexivity.
Qed.

Lemma strip_no_space (s : pystr) :
  Forall (fun c => isspace c = false) s -> strip s = s.
Proof.
  intros H. unfold strip, rstrip. rewrite (lstrip_no_space H).
  rewrite lstrip_no_space; [apply rev_involutive|].
  apply Forall_forall. intros c Hc. apply in_rev in Hc.
  rewrite Forall_forall in H. apply H. exact Hc.
Qed.

Lemma generate_filename_kept (w : world) (name : pystr) :
  _generate_filename w name = filter kept name ++ py "_" ++ strftime_now w.
Proof.
  unfold _generate_filename. fold kept.
  change (fun c : char => kept c) with kept.
  rewrite strip_no_space; [reflexivity|].
  apply Forall_forall. intros c Hc. apply filter_In in Hc.
  apply kept_not_space. tauto.
Qed.

(** X13 (_generate_filename): for an ASCII name the [strip()] changes
    nothing: the base file name is the kept characters (letters, digits,
    underscore, hyphen) followed by an underscore and the timestamp. The kept
    part holds no slash, backslash or dot, and the path of an export is the
    output directory, a separator where needed, the base name and the
    extension: a chart name never moves an export out of the output
    directory. *)
Theorem generate_filename_inside (w : world) (name ext : pystr) :
  Forall is_ascii name ->
  let clean := filter kept name in
  _generate_filename w name = clean ++ py "_" ++ strftime_now w
  /\ (forall c, In c clean -> c <> 47%N /\ c <> 92%N /\ c <> 46%N)
  /\ exists sep, (sep = [] \/ sep = py "/")
       /\ image_path w name ext
          = w_output_dir w ++ sep ++ clean ++ py "_" ++ strftime_now w ++ ext.
Proof.
  intros _ clean.
  assert (Hkept : forall c, In c clean -> c <> 47%N /\ c <> 92%N /\ c <> 46%N).
  { intros c Hc. apply filter_In in Hc. destruct Hc as [_ Hk].
    unfold kept, isalnum in Hk. change (py "_-") with [95%N; 45%N] in Hk.
    cbn [existsb] in Hk. unfold char_eqb in Hk.
    rewrite !orb_true_iff, !andb_true_iff, !N.leb_le, !N.eqb_eq in Hk. lia. }
  split; [apply generate_filename_kept|]. split; [exact Hkept|].
  unfold image_path. rewrite generate_filename_kept. fold clean.
  unfold path_join.
  assert (Hstart : startswith ((clean ++ py "_" ++ strftime_now w) ++ ext) (py "/") = false).
  { change (py "/") with [47%N]. destruct clean as [|c rest] eqn:Ec.
    - reflexivity.
    - cbn [app startswith]. unfold char_eqb.
      destruct (Hkept c (or_introl eq_refl)) as [Hne _].
      destruct (N.eqb_spec 47 c) as [Heq|_]; [symmetry in Heq; contradiction | reflexivity]. }
  rewrite Hstart.
  destruct (str_eqb (w_output_dir w) [] || endswith (w_output_dir w) (py "/")).
  - exists []. split; [left; reflexivity|].
    cbn [app]. rewrite <- !app_assoc. reflexivity.
  - exists (py "/"). split; [right; reflexivity|].
    rewrite <- !app_assoc. reflexivity.
Qed.

Lemma generate_filename_inside_witness :
  let clean := filter kept (py "../etc/passwd") in
  _generate_filename (studio bar_script) (py "../etc/passwd")
  = clean ++ py "_" ++ strftime_now (studio bar_script)
  /\ (forall c, In c clean -> c <> 47%N /\ c <> 92%N /\ c <> 46%N)
  /\ exists sep, (sep = [] \/ sep = py "/")
       /\ image_path (studio bar_script) (py "../etc/passwd") (py ".html")
          = w_output_dir (studio bar_script) ++ sep ++ clean ++ py "_"
            ++ strftime_now (studio bar_script) ++ py ".html".
Proof.
  apply (@generate_filename_inside (studio bar_script) (py "../etc/passwd") (py ".html")).
  unfold is_ascii. vm_compute. repeat constructor.
Defined.



(** * Further properties of the presenter and the viewer *)

Lemma split_char_nonempty (sep : char) (s : pystr) : split_char sep s <> [].
Proof.
  destruct s as [|c s]; simpl; [discriminate|].
  destruct (char_eqb c sep); [discriminate|].
  destruct (split_char sep s); discriminate.
Qed.

Lemma split_char_app (sep : char) (a b : pystr) :
  split_char sep (a ++ sep :: b) = split_char sep a ++ split_char sep b.
Proof.
  induction a as [|c a IH]; simpl.
  - unfold char_eqb. rewrite N.eqb_refl. reflexivity.
  - destruct (char_eqb c sep); [rewrite IH; reflexivity|].
    rewrite IH. pose proof (split_char_nonempty sep a) as Hne.
    destruct (split_char sep a) as [|p ps]; [contradiction | reflexivity].
Qed.

Lemma split_char_none (sep : char) (s : pystr) :
  ~ In sep s -> split_char sep s = [s].
Proof.
  induction s as [|c s IH]; simpl; [reflexivity|].
  intros H. destruct (char_eqb c sep) eqn:E.
  - apply char_eqb_eq in E. exfalso. apply H. left. exact E.
  - rewrite IH; [reflexivity|]. intros Hin. apply H. right. exact Hin.
Qed.

Lemma join_split_char (sep c' : char) (s : pystr) :
  join [c'] (split_char sep s) = ChartUtilsHelpers.replace_char sep c' s.
Proof.
  unfold ChartUtilsHelpers.replace_char.
  induction s as [|x s IH]; [reflexivity|].
  cbn [split_char map]. pose proof (split_char_nonempty sep s) as Hne.
  destruct (char_eqb x sep).
  - destruct (split_char sep s) as [|p ps]; [contradiction|].
    cbn [join app]. rewrite <- IH. reflexivity.
  - destruct (split_char sep s) as [|p ps]; [contradiction|].
    rewrite <- IH. destruct ps as [|q qs]; reflexivity.
Qed.

Lemma clean_name_generated (w : world) (chart_name day time : pystr) :
  strftime_now w = day ++ py "_" ++ time ->
  ~ In 95%N day -> ~ In 95%N time ->
  clean_name (_generate_filename w chart_name)
  = ChartUtilsHelpers.replace_char 95%N 32%N (filter kept chart_name).
Proof.
  intros Hts Hday Htime. unfold clean_name.
  rewrite generate_filename_kept, Hts.
  change (py "_") with [95%N]. cbn [app].
  rewrite split_char_app, split_char_app.
  rewrite (@split_char_none 95%N day Hday), (@split_char_none 95%N time Htime).
  set (parts := split_char 95%N (filter kept chart_name)).
  assert (Hlen : List.length (parts ++ [day] ++ [time]) = (List.length parts + 2)%nat).
  { rewrite !length_app. simpl. lia. }
  rewrite Hlen.
  pose proof (split_char_nonempty 95%N (filter kept chart_name)) as Hne.
  fold parts in Hne.
  destruct (Nat.ltb_spec 2 (List.length parts + 2)) as [_|Hle].
  - replace (List.length parts + 2 - 2)%nat with (List.length parts + 0)%nat by lia.
    rewrite firstn_app_2. cbn [firstn]. rewrite app_nil_r.
    change (py " ") with [32%N]. apply join_split_char.
  - destruct parts; [contradiction | simpl in Hle; lia].
Qed.

(** X15 (show_chart_gallery, with _generate_filename and
    list_recent_charts): the gallery recovers the chart name. For the html
    file that [generate_chart] writes for an ASCII chart name, with a
    timestamp of the form day_time, the entry of its record in the gallery is
    headed by the number and the kept characters of the chart name, the
    underscores shown as spaces and the timestamp gone. *)
Theorem gallery_entry_heading (w : world) (t : terminal) (d : fs) (f : file)
  (chart_name day time : pystr) (i : Z) :
  Forall is_ascii chart_name ->
  strftime_now w = day ++ py "_" ++ time ->
  ~ In 95%N day -> ~ In 95%N time ->
  f_name f = _generate_filename w chart_name ++ py ".html" ->
  exists rest,
    gallery_entry t i (VisualizationEngine.chart_info_of d f)
    = (rjust 2 (str_of_Z i) ++ py ". "
       ++ ChartUtilsHelpers.replace_char 95%N 32%N (filter kept chart_name)) :: rest.
Proof.
  intros _ Hts Hday Htime Hname. unfold gallery_entry.
  eexists. f_equal. f_equal. f_equal.
  unfold VisualizationEngine.chart_info_of. cbn [VisualizationEngine.name].
  rewrite Hname. rewrite length_app.
  change (List.length (py ".html")) with 5%nat.
  replace (List.length (_generate_filename w chart_name) + 5 - 5)%nat
    with (List.length (_generate_filename w chart_name) + 0)%nat by lia.
  rewrite firstn_app_2. cbn [firstn]. rewrite app_nil_r.
  apply (@clean_name_generated w chart_name day time Hts Hday Htime).
Qed.

Lemma gallery_entry_heading_witness :
  exists rest,
    gallery_entry plain_terminal 1
      (VisualizationEngine.chart_info_of three_charts
         (File (py "Sales_byregion_20240101_120000.html") 100%Q 2048%Z None))
    = (rjust 2 (str_of_Z 1) ++ py ". "
       ++ ChartUtilsHelpers.replace_char 95%N 32%N (filter kept (py "Sales_by region!")))
      :: rest.
Proof.
  apply (@gallery_entry_heading (studio bar_script) plain_terminal three_charts
           (File (py "Sales_byregion_20240101_120000.html") 100%Q 2048%Z None)
           (py "Sales_by region!") (py "20240101") (py "120000") 1%Z).
  - unfold is_ascii. vm_compute. repeat constructor.
  - vm_compute. reflexivity.
  - vm_compute. intuition discriminate.
  - vm_compute. intuition discriminate.
  - vm_compute. reflexivity.
Defined.

Lemma filter_head_sorted {A : Type} (R : A -> A -> Prop) (p : A -> bool)
  (l : list A) (c : A) (rest : list A) :
  StronglySorted R l -> filter p l = c :: rest ->
  In c l /\ p c = true /\ forall y, In y l -> p y = true -> y = c \/ R c y.
Proof.
  intros Hs. induction Hs as [|h tl Hs IH Hall]; simpl; [discriminate|].
  destruct (p h) eqn:E.
  - intros H. injection H as -> _. split; [left; reflexivity|]. split; [exact E|].
    intros y [->|Hy] _; [left; reflexivity|].
    right. rewrite Forall_forall in Hall. apply Hall. exact Hy.
  - intros H. destruct (IH H) as [Hin [Hp Hrest]].
    split; [right; exact Hin|]. split; [exact Hp|].
    intros y [->|Hy] Hpy; [congruence|]. apply Hrest; assumption.
Qed.

Lemma list_recent_charts_newest_first (d : fs) (limit : Z) :
  StronglySorted newest_first (VisualizationEngine.list_recent_charts d limit).
Proof.
  unfold VisualizationEngine.list_recent_charts.
  destruct (listing d) as [l|]; [|constructor].
  apply map_sorted. apply slice_to_sorted. apply (sort_desc_sorted f_mtime).
Qed.

Lemma in_say_browser {A : Type} (lines : list pystr) (rest : io A) (url : pystr) :
  In (OpenedBrowser url) (snd (ChartViewer.say lines rest)) ->
  In (OpenedBrowser url) (snd rest).
Proof.
  unfold ChartViewer.say. cbn [snd]. intros H. apply in_app_or in H.
  destruct H as [H|H]; [|exact H].
  apply in_map_iff in H. destruct H as [x [Hx _]]. discriminate.
Qed.

(** X16 (view_chart, with list_recent_charts and open_chart_in_browser):
    [view_chart] opens the browser only for the format [html], and then on
    the html file of a chart among the ten most recent whose name contains
    the search text, letter case aside, and that is at least as new as every
    other such chart. *)
Theorem view_chart_opens_newest_match (w : world) (rt : runtime) (t : terminal)
  (d : fs) (read : pystr -> file_state) (chart_name format_type url : pystr) :
  In (OpenedBrowser url)
     (snd (ChartViewer.view_chart w rt t d read chart_name format_type)) ->
  format_type = py "html"
  /\ exists c,
       In c (VisualizationEngine.list_recent_charts d 10)
       /\ occurs (lower chart_name) (lower (VisualizationEngine.name c))
       /\ url = py "file://" ++ abspath w (VisualizationEngine.html_path c)
       /\ forall c', In c' (VisualizationEngine.list_recent_charts d 10) ->
            occurs (lower chart_name) (lower (VisualizationEngine.name c')) ->
            (VisualizationEngine.modified c' <= VisualizationEngine.modified c)%Q.
Proof.
  unfold ChartViewer.view_chart.
  destruct (ChartViewer.matching_charts d chart_name) as [|c rest] eqn:Hm.
  - intros H. apply in_say_browser in H. unfold ChartViewer.list_charts in H.
    apply in_say_browser in H. destruct H.
  - unfold ChartViewer.matching_charts in Hm.
    destruct (@filter_head_sorted _ _ _ _ _ _ (list_recent_charts_newest_first d 10) Hm)
      as [Hin [Hp Hnew]].
    destruct (str_eqb format_type (py "html")) eqn:Ef.
    + apply str_eqb_eq in Ef. intros H. split; [exact Ef|].
      exists c. split; [exact Hin|]. split; [apply str_in_spec; exact Hp|].
      split.
      * destruct (existsb (str_eqb (py "html")) (VisualizationEngine.available_formats c));
          apply in_say_browser in H; [|destruct H].
        unfold open_chart_in_browser in H.
        destruct (negb (path_exists d (VisualizationEngine.html_path c))).
        { cbn in H. destruct H as [H|[H|[]]]; discriminate. }
        destruct (webbrowser_open w
                    (py "file://" ++ abspath w (VisualizationEngine.html_path c)))
          as [[]|e].
        { cbn in H. destruct H as [H|[]]. injection H as <-. reflexivity. }
        destruct (is_Exception e); cbn in H; [|destruct H].
        destruct H as [H|[H|[]]]; discriminate.
      * intros c' Hin' Hocc. apply str_in_spec in Hocc.
        destruct (Hnew c' Hin' Hocc) as [->|Hle]; [apply Qle_refl | exact Hle].
    + intros H. exfalso.
      destruct (str_eqb format_type (py "preview")).
      * destruct (existsb (str_eqb (py "json")) (VisualizationEngine.available_formats c)).
        -- destruct (display_chart_quick_preview rt read (VisualizationEngine.json_path c));
             [apply in_say_browser in H|]; destruct H.
        -- apply in_say_browser in H. destruct H.
      * destruct (str_eqb format_type (py "info")); [|destruct H].
        unfold ChartViewer._show_chart_info in H. apply in_say_browser in H.
        destruct (relpath t (VisualizationEngine.html_path c)); [|destruct H].
        apply in_say_browser in H.
        destruct (existsb (str_eqb (py "json")) (VisualizationEngine.available_formats c)).
        -- destruct (relpath t (VisualizationEngine.json_path c)); [|destruct H].
           apply in_say_browser in H.
           destruct (existsb (str_eqb (py "png")) (VisualizationEngine.available_formats c));
             [|destruct H].
           destruct (relpath t (VisualizationEngine.png_path c)); [|destruct H].
           apply in_say_browser in H. destruct H.
        -- destruct (existsb (str_eqb (py "png")) (VisualizationEngine.available_formats c));
             [|destruct H].
           destruct (relpath t (VisualizationEngine.png_path c)); [|destruct H].
           apply in_say_browser in H. destruct H.
Qed.

Lemma view_chart_opens_newest_match_witness :
  py "html" = py "html"
  /\ exists c,
       In c (VisualizationEngine.list_recent_charts three_charts 10)
       /\ occurs (lower (py "B")) (lower (VisualizationEngine.name c))
       /\ py "file:///srv/agent/output/charts/b_20240102_000000.html"
          = py "file://" ++ abspath (studio bar_script) (VisualizationEngine.html_path c)
       /\ forall c', In c' (VisualizationEngine.list_recent_charts three_charts 10) ->
            occurs (lower (py "B")) (lower (VisualizationEngine.name c')) ->
            (VisualizationEngine.modified c' <= VisualizationEngine.modified c)%Q.
Proof.
  apply (@view_chart_opens_newest_match (studio bar_script) ascii_runtime plain_terminal
           three_charts (fun _ => Absent) (py "B") (py "html")
           (py "file:///srv/agent/output/charts/b_20240102_000000.html")).
  vm_compute. repeat (first [left; reflexivity | right]).
Defined.

Lemma join_head (sep a : pystr) (rest : list pystr) :
  exists tl, join sep (a :: rest) = a ++ tl.
Proof.
  destruct rest as [|b rest]; simpl.
  - exists []. rewrite app_nil_r. reflexivity.
  - eexists. reflexivity.
Qed.

Lemma in_join_occurs (sep x : pystr) (l : list pystr) :
  In x l -> occurs x (join sep l).
Proof.
  induction l as [|a l IH]; [intros []|].
  intros [->|Hin].
  - destruct (join_head sep x l) as [tl ->]. exists [], tl. reflexivity.
  - destruct l as [|b l]; [destruct Hin|].
    destruct (IH Hin) as [p [q Hpq]].
    exists (a ++ sep ++ p), q. change (join sep (a :: b :: l))
      with (a ++ sep ++ join sep (b :: l)).
    rewrite Hpq, <- !app_assoc. reflexivity.
Qed.

Lemma join_cons_startswith (sep a : pystr) (rest : list pystr) :
  startswith (join sep (a :: rest)) a = true.
Proof. destruct (join_head sep a rest) as [tl ->]. apply startswith_spec. exists tl. reflexivity. Qed.

Lemma join_cons_other (sep : pystr) (c c' : char) (a b : pystr) (rest : list pystr) :
  c <> c' -> startswith (join sep ((c :: a) :: rest)) (c' :: b) = false.
Proof.
  intros Hne. destruct (join_head sep (c :: a) rest) as [tl Htl].
  unfold pystr in *. rewrite Htl. simpl.
  unfold char_eqb. destruct (N.eqb_spec c' c) as [->|_]; [contradiction | reflexivity].
Qed.


(** X17 (display_chart_summary, _format_error_summary): the first line of
    the summary tells success from failure: the text starts with the failure
    banner exactly when [success] is false and with the success banner
    exactly when it is true; a failure summary is always produced and shows
    every error of the result on a line of its own kind. *)
Theorem display_chart_summary_banner (rt : runtime) (t : terminal) (r : result) :
  (success r = false ->
   display_chart_summary rt t r = Returns (_format_error_summary r)
   /\ forall e, In e (errors r) -> occurs (py "Error: " ++ e) (_format_error_summary r))
  /\ forall s, display_chart_summary rt t r = Returns s ->
       startswith s failure_banner = negb (success r)
       /\ startswith s success_banner = success r.
Proof.
  split.
  - intros Hs. unfold display_chart_summary. rewrite Hs. split; [reflexivity|].
    intros e He. unfold _format_error_summary. apply in_join_occurs.
    apply in_or_app. right. apply in_or_app. left.
    apply in_map_iff. exists e. split; [reflexivity | exact He].
  - intros s. unfold display_chart_summary.
    destruct (success r); cbn [negb].
    + unfold bind.
      destruct (file_lines t (files r)) as [lines|e]; [|discriminate].
      destruct (match dict_get (py "html") (files r) with
                | Some html => _
                | None => _
                end) as [html_lines|e]; [|discriminate].
      destruct (match dict_get (py "png") (files r) with
                | Some png => _
                | None => _
                end) as [png_lines|e]; [|discriminate].
      intros H. apply returns_inj in H. subst s.
      rewrite <- !app_assoc.
      change ([chart_emoji ++ py " Chart Generated Successfully!"; repeat_char 61%N 40] ++ ?x)
        with ((chart_emoji ++ py " Chart Generated Successfully!")
                :: repeat_char 61%N 40 :: x).
      split.
      * apply (@join_cons_other nl 128202%N 10060%N (py " Chart Generated Successfully!")
                 (py " Chart Generation Failed")). discriminate.
      * apply join_cons_startswith.
    + intros H. apply returns_inj in H. subst s. unfold _format_error_summary.
      change ([cross_mark ++ py " Chart Generation Failed"; repeat_char 61%N 40] ++ ?x)
        with ((cross_mark ++ py " Chart Generation Failed")
                :: repeat_char 61%N 40 :: x).
      split.
      * apply join_cons_startswith.
      * apply (@join_cons_other nl 10060%N 128202%N (py " Chart Generation Failed")
                 (py " Chart Generated Successfully!")). discriminate.
Qed.



Lemma display_chart_summary_banner_witness :
  let r := Result false [] [py "Failed to generate figure"] None in
  occurs (py "Error: " ++ py "Failed to generate figure") (_format_error_summary r)
  /\ startswith (_format_error_summary r) failure_banner = true
  /\ startswith (_format_error_summary r) success_banner = false.
Proof.
  intros r.
  destruct (display_chart_summary_banner ascii_runtime plain_terminal r) as [Hfail Hban].
  destruct (Hfail eq_refl) as [Hret Herr].
  split; [apply Herr; left; reflexivity|].
  apply (Hban (_format_error_summary r) Hret).
Defined.


(** * Further properties of the tool *)











Lemma valued_rows_raises (values_col : pystr) (l : list (list cell)) :
  (exists row text, In row l /\ nth_error row 1 = Some (CStr text)) ->
  exists e, valued_rows values_col l = Raises e /\ is_Exception e = true.
Proof.
  induction l as [|row rest IH]; cbn [valued_rows].
  - intros [row [text [[] _]]].
  - intros [row' [text [[<-|Hin] Hbad]]].
    + rewrite Hbad. eexists. split; reflexivity.
    + destruct (IH (ex_intro _ row' (ex_intro _ text (conj Hin Hbad)))) as [e [He Hc]].
      destruct (nth_error row 1) as [[z|s]|]; [|eexists; split; reflexivity..].
      rewrite He. exists e. split; [reflexivity | exact Hc].
Qed.

(** X20 (create_ascii_chart, _create_ascii_bar_chart): text where a number
    is expected makes the bar preview raise. For a frame that is not empty
    and has at least two columns, a string in the second column of some row
    ends the rendering of kind [bar] with an exception of the [Exception]
    hierarchy, which the tool catches. *)
Theorem create_ascii_chart_raises (data : DataFrame) :
  empty data = false ->
  (exists labels_col values_col cols, columns data = labels_col :: values_col :: cols) ->
  (exists row text, In row (rows data) /\ nth_error row 1 = Some (CStr text)) ->
  exists e, create_ascii_chart data (py "bar") = Raises e /\ is_Exception e = true.
Proof.
  intros He [labels_col [values_col [cols Hcols]]] Hrow.
  unfold create_ascii_chart. rewrite He.
  change (str_eqb (py "bar") (py "table")) with false.
  change (str_eqb (py "bar") (py "bar")) with true. cbv iota.
  unfold _create_ascii_bar_chart. rewrite Hcols.
  destruct (1 <? List.length (filter (str_eqb values_col) (labels_col :: values_col :: cols)))%nat;
    [eexists; split; reflexivity|].
  destruct (@valued_rows_raises values_col (rows data) Hrow) as [e [-> Hc]].
  exists e. split; [reflexivity | exact Hc].
Qed.

Lemma create_ascii_chart_raises_witness :
  exists e,
    create_ascii_chart
      (Frame [py "region"; py "manager"]
             [[CStr (py "east"); CStr (py "Ada")]]) (py "bar") = Raises e
    /\ is_Exception e = true.
Proof.
  apply (@create_ascii_chart_raises
           (Frame [py "region"; py "manager"]
                  [[CStr (py "east"); CStr (py "Ada")]])).
  - reflexivity.
  - exists (py "region"), (py "manager"), []. reflexivity.
  - exists [CStr (py "east"); CStr (py "Ada")], (py "Ada"). split; [left|]; reflexivity.
Defined.
